(** * Listing: a shallow embedding of the paginated-listing controller

    The development follows the one class of the library, [Listing]
    (fetch, delete, pagination, filters and their synchronisation with the
    URL), and states the properties of its documented contract over that
    embedding.

    Conventions of the embedding.
    - A JavaScript string is a [string]: the bytes of the UTF-8 encoding
      of a well-formed string.
    - A JavaScript number is an integer ([Z]): page numbers, counts,
      identifiers and numeric filter values.  The language holds, writes
      and reads back exactly the integers below 2^53 in magnitude
      ([Js.safeInteger]); a property that writes a number as a string or
      reads one back is stated for those.
    - A plain object used as a dictionary is a [gmap string _].
    - A value that may be [undefined] (an optional argument, an optional
      property) is an [option].
    - [key in object], for an object used as a dictionary, is the
      presence of the key: the keys are taken not to be names that every
      object inherits.
    - A method changes a world, the controller and the history of its
      interactions, and returns or throws; for an [async] method throwing
      is the rejection of its promise, and each [await] is run to its
      end before the method goes on.
    - The injected collaborators (transport, router, callbacks) answer
      from the history of interactions so far, and every interaction is
      appended to that history.  Callbacks do not change the controller.
    - The fetch is cut at its one [await] into the part before the
      request, the request and the part after it, so that the state in
      flight can be named. *)

From stdpp Require Import gmap strings list pretty.
From Stdlib Require Import ZArith Ascii String.

Local Open Scope string_scope.
Local Open Scope list_scope.
Local Open Scope Z_scope.

(** ** Strings of the host language *)

Module Js.

(** Code of a byte, for comparisons. *)
Definition code (a : ascii) : N := Ascii.N_of_ascii a.

(** White space and line terminators that occupy one byte:
    TAB, LF, VT, FF, CR and SPACE. *)
Definition ws1 (a : ascii) : bool :=
  let n := code a in ((9 <=? n) && (n <=? 13) || (n =? 32))%N.

(** U+00A0 (no-break space) is the two bytes C2 A0. *)
Definition ws2 (a b : ascii) : bool :=
  ((code a =? 194) && (code b =? 160))%N.

(** Three-byte white space: U+1680 (E1 9A 80), U+2000..U+200A
    (E2 80 80..8A), U+2028, U+2029 (E2 80 A8, A9), U+202F (E2 80 AF),
    U+205F (E2 81 9F), U+3000 (E3 80 80) and U+FEFF (EF BB BF). *)
Definition ws3 (a b c : ascii) : bool :=
  let x := code a in let y := code b in let z := code c in
  ((x =? 225) && (y =? 154) && (z =? 128)
   || (x =? 226) && (y =? 128)
      && ((128 <=? z) && (z <=? 138) || (z =? 168) || (z =? 169) || (z =? 175))
   || (x =? 226) && (y =? 129) && (z =? 159)
   || (x =? 227) && (y =? 128) && (z =? 128)
   || (x =? 239) && (y =? 187) && (z =? 191))%N.

(** [String.prototype.trimStart]. *)
Fixpoint trimStart (s : string) : string :=
  match s with
  | String a s1 =>
    if ws1 a then trimStart s1 else
    match s1 with
    | String b s2 =>
      if ws2 a b then trimStart s2 else
      match s2 with
      | String c s3 => if ws3 a b c then trimStart s3 else s
      | EmptyString => s
      end
    | EmptyString => s
    end
  | EmptyString => s
  end.

(** Whether a string consists of white space only. *)
Fixpoint allWhitespace (s : string) : bool :=
  match s with
  | String a s1 =>
    if ws1 a then allWhitespace s1 else
    match s1 with
    | String b s2 =>
      if ws2 a b then allWhitespace s2 else
      match s2 with
      | String c s3 => if ws3 a b c then allWhitespace s3 else false
      | EmptyString => false
      end
    | EmptyString => false
    end
  | EmptyString => true
  end.

(** [String.prototype.trimEnd]: the string is cut where only white space
    follows. *)
Fixpoint trimEnd (s : string) : string :=
  match s with
  | String a s' => if allWhitespace s then EmptyString else String a (trimEnd s')
  | EmptyString => EmptyString
  end.

(** [String.prototype.trim]. *)
Definition trim (s : string) : string := trimEnd (trimStart s).

(** [s.startsWith(p)]. *)
Definition startsWith (p s : string) : bool := String.prefix p s.

(** [s.includes(p)]. *)
Fixpoint includes (p s : string) : bool :=
  String.prefix p s ||
  match s with
  | String _ s' => includes p s'
  | EmptyString => false
  end.

(** [s.slice(1)]. *)
Definition slice1 (s : string) : string :=
  match s with
  | String _ s' => s'
  | EmptyString => EmptyString
  end.

(** Value of a decimal digit. *)
Definition digit (a : ascii) : option Z :=
  let n := code a in
  if ((48 <=? n) && (n <=? 57))%N then Some (Z.of_N n - 48) else None.

(** The longest prefix of decimal digits, as a number; [acc] is the value
    read so far, [None] when no digit was read. *)
Fixpoint parseDigits (s : string) (acc : option Z) : option Z :=
  match s with
  | String a s' =>
    match digit a with
    | Some d => parseDigits s' (Some (10 * default 0 acc + d))
    | None => acc
    end
  | EmptyString => acc
  end.

(** [parseInt(s, 10)]; [None] is [NaN]. *)
Definition parseInt (s : string) : option Z :=
  match trimStart s with
  | String "-" r => Z.opp <$> parseDigits r None
  | String "+" r => parseDigits r None
  | r => parseDigits r None
  end.

(** All of [s] as decimal digits; [acc] is the value read so far. *)
Fixpoint allDigits (s : string) (acc : Z) : option Z :=
  match s with
  | String a s' =>
    match digit a with
    | Some d => allDigits s' (10 * acc + d)
    | None => None
    end
  | EmptyString => Some acc
  end.

(** [Number(s)] on the strings that denote a decimal integer, and on the
    strings of white space, which denote 0; every other string counts as
    denoting none ([NaN]).  It stands for [Number] where numbers are the
    integers. *)
Definition integerNumber (s : string) : option Z :=
  match trim s with
  | EmptyString => Some 0
  | String "-" (String a r) => Z.opp <$> allDigits (String a r) 0
  | String "+" (String a r) => allDigits (String a r) 0
  | r => allDigits r 0
  end.

(** *** Numbers and property names *)

(** The integers that the language holds exactly, writes with all their
    digits and reads back as they are: those below 2^53 in magnitude
    ([Number.isSafeInteger]). *)
Definition safeInteger (n : Z) : bool := Z.abs n <? 2 ^ 53.

(** The property names of [Object.prototype], which the [in] operator
    finds in every plain object. *)
Definition objectPrototype : list string :=
  ["constructor"; "hasOwnProperty"; "isPrototypeOf"; "propertyIsEnumerable";
   "toLocaleString"; "toString"; "valueOf"; "__proto__";
   "__defineGetter__"; "__defineSetter__"; "__lookupGetter__";
   "__lookupSetter__"].

(** *** [URLSearchParams] *)

(** Value of a hexadecimal digit. *)
Definition hexDigit (a : ascii) : option N :=
  let n := code a in
  if ((48 <=? n) && (n <=? 57))%N then Some (n - 48)%N
  else if ((65 <=? n) && (n <=? 70))%N then Some (n - 55)%N
  else if ((97 <=? n) && (n <=? 102))%N then Some (n - 87)%N
  else None.

(** Percent-decoding of a byte sequence: [%XY] with two hexadecimal
    digits is one byte, every other byte stands for itself. *)
Fixpoint percentDecode (s : string) : string :=
  match s with
  | String a s1 =>
    if decide (a = "%"%char) then
      match s1 with
      | String x (String y s3) =>
        match hexDigit x, hexDigit y with
        | Some h, Some l =>
          String (Ascii.ascii_of_N (16 * h + l)) (percentDecode s3)
        | _, _ => String a (percentDecode s1)
        end
      | _ => String a (percentDecode s1)
      end
    else String a (percentDecode s1)
  | EmptyString => EmptyString
  end.

(** The pieces of [s] between occurrences of [sep]. *)
Fixpoint splitOn (sep : ascii) (s : string) : list string :=
  match s with
  | String a s' =>
    if decide (a = sep) then "" :: splitOn sep s'
    else
      match splitOn sep s' with
      | piece :: pieces => String a piece :: pieces
      | [] => [String a ""]
      end
  | EmptyString => [""]
  end.

(** A piece cut at its first [=]: name and value (the value is empty when
    there is no [=]). *)
Fixpoint cutAtEquals (s : string) : string * string :=
  match s with
  | String a s' =>
    if decide (a = "="%char) then ("", s')
    else let '(name, value) := cutAtEquals s' in (String a name, value)
  | EmptyString => ("", "")
  end.

(** Every [+] becomes a space. *)
Fixpoint plusToSpace (s : string) : string :=
  match s with
  | String a s' =>
    String (if decide (a = "+"%char) then " "%char else a) (plusToSpace s')
  | EmptyString => EmptyString
  end.

(** The [application/x-www-form-urlencoded] parser: the list of
    name-value pairs of a query string, in order. *)
Definition parseUrlencoded (input : string) : list (string * string) :=
  omap
    (λ piece,
       if decide (piece = "") then None
       else
         let '(name, value) := cutAtEquals piece in
         Some (percentDecode (plusToSpace name),
               percentDecode (plusToSpace value)))
    (splitOn "&" input).

(** [new URLSearchParams(init).entries()] for a string [init]: one
    leading [?] is dropped, the rest is parsed. *)
Definition URLSearchParams (init : string) : list (string * string) :=
  parseUrlencoded (if startsWith "?" init then slice1 init else init).

End Js.

(** ** Values *)

(** [string | number | null | undefined]. *)
Inductive Scalar : Type :=
| SNull
| SUndefined
| SStr (s : string)
| SNum (n : Z).

Global Instance Scalar_eq_dec : EqDecision Scalar.
Proof. solve_decision. Defined.

(** [String(v)] on a scalar. *)
Definition String_of (v : Scalar) : string :=
  match v with
  | SNull => "null"
  | SUndefined => "undefined"
  | SStr s => s
  | SNum n => pretty n
  end.

(** [FilterValue] of [types.ts]: a plain value or a ref-like object with
    a [value] property.  Two ref-like objects occur: a caller's cell
    ([filterRefs]), which holds its value, and the computed binding that
    [parameters] stores under a key, which reads and writes the entry of
    [filters] for that same key. *)
Inductive FilterValue : Type :=
| FPlain (v : Scalar)
| FRef (inner : Scalar)
| FBinding.

(** An entry of a route query: a value or an array of values. *)
Inductive QueryValue : Type :=
| QValue (v : Scalar)
| QArray (l : list Scalar).

Record ActiveFilter : Type := {
  af_key : string;
  af_label : string;
  af_rawValue : string;
  af_value : string
}.

(** ** Errors and settled promises *)

(** What a rejection or a [throw] carries, as far as the controller looks
    at it: whether it is an [Error], its [message], and the optional
    [response] with [status] and [data.message]. *)
Record ErrorBody : Type := { body_message : option string }.
Record ErrorResponse : Type := {
  resp_status : option Z;
  resp_data : option ErrorBody
}.
Record Thrown : Type := {
  instanceofError : bool;
  err_message : string;
  err_response : option ErrorResponse
}.

(** [new Error(msg)]. *)
Definition Error (msg : string) : Thrown :=
  {| instanceofError := true; err_message := msg; err_response := None |}.

Inductive Outcome (A : Type) : Type :=
| Fulfilled (a : A)
| Rejected (e : Thrown).
Arguments Fulfilled {A} a.
Arguments Rejected {A} e.

(** ** The response of the listing endpoint ([HarmonieListingResponse]) *)

Record ListingPayload : Type := {
  items : option (list (gmap string Scalar));
  current_page : option Z;
  payload_total : option Z;
  payload_perPage : option Z
}.

Record ResponseData : Type := {
  resp_listing : option ListingPayload;
  resp_filters : option (list ActiveFilter)
}.

(** ** Interactions with the collaborators *)

Inductive Event : Type :=
| AxiosGet (url : string) (params : gmap string Scalar)
| AxiosDelete (url : string)
| RouterPush (query : gmap string string)
| OnSuccess (id : Scalar)
| OnError (error : Thrown) (statusCode : option Z)
| ConsoleError (err : Thrown).

(** The minimal transport interface of the source. *)
Record AxiosInstance : Type := {
  axios_get : list Event → string → gmap string Scalar → Outcome ResponseData;
  axios_delete : list Event → string → Outcome unit
}.

(** The router: [push] and [currentRoute.value.query] ([None] when the
    route, its value or its query is missing). *)
Record RouterInstance : Type := {
  router_push : list Event → gmap string string → Outcome unit;
  currentRoute_query : list Event → option (gmap string QueryValue)
}.

Definition ErrorHandler : Type := string → option Z → option string.

(** ** The controller *)

Module Listing.

#[projections(primitive)]
Record t : Type := mk {
  data : list (gmap string Scalar);
  isLoading : bool;
  isUpdating : bool;
  isFiltering : bool;
  isResetting : bool;
  removingFilterKey : option string;
  error : option string;
  hasLoadedOnce : bool;
  currentPage : Z;
  perPage : Z;
  total : Z;
  filterValues : gmap string Scalar;
  activeFilters : list ActiveFilter;
  apiPath : option string;
  routerInstance : option RouterInstance;
  filterAttributes : gmap string FilterValue;
  filterDefaults : gmap string Scalar;
  filterVisibility : gmap string bool;
  panelOpen : bool;
  buildQueryParameters : option (list Event → gmap string string);
  errorHandler : option ErrorHandler;
  axiosInstance : option AxiosInstance;
  bindings : gset string;
  filters : gmap string Scalar
}.

(** Field assignments [this.f = v]. *)
Definition set_data v (l : t) : t :=
  mk v (isLoading l) (isUpdating l) (isFiltering l) (isResetting l)
     (removingFilterKey l) (error l) (hasLoadedOnce l) (currentPage l)
     (perPage l) (total l) (filterValues l) (activeFilters l) (apiPath l)
     (routerInstance l) (filterAttributes l) (filterDefaults l)
     (filterVisibility l) (panelOpen l) (buildQueryParameters l)
     (errorHandler l) (axiosInstance l) (bindings l) (filters l).
Definition set_isLoading v (l : t) : t :=
  mk (data l) v (isUpdating l) (isFiltering l) (isResetting l)
     (removingFilterKey l) (error l) (hasLoadedOnce l) (currentPage l)
     (perPage l) (total l) (filterValues l) (activeFilters l) (apiPath l)
     (routerInstance l) (filterAttributes l) (filterDefaults l)
     (filterVisibility l) (panelOpen l) (buildQueryParameters l)
     (errorHandler l) (axiosInstance l) (bindings l) (filters l).
Definition set_isUpdating v (l : t) : t :=
  mk (data l) (isLoading l) v (isFiltering l) (isResetting l)
     (removingFilterKey l) (error l) (hasLoadedOnce l) (currentPage l)
     (perPage l) (total l) (filterValues l) (activeFilters l) (apiPath l)
     (routerInstance l) (filterAttributes l) (filterDefaults l)
     (filterVisibility l) (panelOpen l) (buildQueryParameters l)
     (errorHandler l) (axiosInstance l) (bindings l) (filters l).
Definition set_error v (l : t) : t :=
  mk (data l) (isLoading l) (isUpdating l) (isFiltering l) (isResetting l)
     (removingFilterKey l) v (hasLoadedOnce l) (currentPage l)
     (perPage l) (total l) (filterValues l) (activeFilters l) (apiPath l)
     (routerInstance l) (filterAttributes l) (filterDefaults l)
     (filterVisibility l) (panelOpen l) (buildQueryParameters l)
     (errorHandler l) (axiosInstance l) (bindings l) (filters l).
Definition set_hasLoadedOnce v (l : t) : t :=
  mk (data l) (isLoading l) (isUpdating l) (isFiltering l) (isResetting l)
     (removingFilterKey l) (error l) v (currentPage l)
     (perPage l) (total l) (filterValues l) (activeFilters l) (apiPath l)
     (routerInstance l) (filterAttributes l) (filterDefaults l)
     (filterVisibility l) (panelOpen l) (buildQueryParameters l)
     (errorHandler l) (axiosInstance l) (bindings l) (filters l).
Definition set_currentPage v (l : t) : t :=
  mk (data l) (isLoading l) (isUpdating l) (isFiltering l) (isResetting l)
     (removingFilterKey l) (error l) (hasLoadedOnce l) v
     (perPage l) (total l) (filterValues l) (activeFilters l) (apiPath l)
     (routerInstance l) (filterAttributes l) (filterDefaults l)
     (filterVisibility l) (panelOpen l) (buildQueryParameters l)
     (errorHandler l) (axiosInstance l) (bindings l) (filters l).
Definition set_perPage v (l : t) : t :=
  mk (data l) (isLoading l) (isUpdating l) (isFiltering l) (isResetting l)
     (removingFilterKey l) (error l) (hasLoadedOnce l) (currentPage l)
     v (total l) (filterValues l) (activeFilters l) (apiPath l)
     (routerInstance l) (filterAttributes l) (filterDefaults l)
     (filterVisibility l) (panelOpen l) (buildQueryParameters l)
     (errorHandler l) (axiosInstance l) (bindings l) (filters l).
Definition set_total v (l : t) : t :=
  mk (data l) (isLoading l) (isUpdating l) (isFiltering l) (isResetting l)
     (removingFilterKey l) (error l) (hasLoadedOnce l) (currentPage l)
     (perPage l) v (filterValues l) (activeFilters l) (apiPath l)
     (routerInstance l) (filterAttributes l) (filterDefaults l)
     (filterVisibility l) (panelOpen l) (buildQueryParameters l)
     (errorHandler l) (axiosInstance l) (bindings l) (filters l).
Definition set_filterValues v (l : t) : t :=
  mk (data l) (isLoading l) (isUpdating l) (isFiltering l) (isResetting l)
     (removingFilterKey l) (error l) (hasLoadedOnce l) (currentPage l)
     (perPage l) (total l) v (activeFilters l) (apiPath l)
     (routerInstance l) (filterAttributes l) (filterDefaults l)
     (filterVisibility l) (panelOpen l) (buildQueryParameters l)
     (errorHandler l) (axiosInstance l) (bindings l) (filters l).
Definition set_activeFilters v (l : t) : t :=
  mk (data l) (isLoading l) (isUpdating l) (isFiltering l) (isResetting l)
     (removingFilterKey l) (error l) (hasLoadedOnce l) (currentPage l)
     (perPage l) (total l) (filterValues l) v (apiPath l)
     (routerInstance l) (filterAttributes l) (filterDefaults l)
     (filterVisibility l) (panelOpen l) (buildQueryParameters l)
     (errorHandler l) (axiosInstance l) (bindings l) (filters l).
Definition set_filterAttributes v (l : t) : t :=
  mk (data l) (isLoading l) (isUpdating l) (isFiltering l) (isResetting l)
     (removingFilterKey l) (error l) (hasLoadedOnce l) (currentPage l)
     (perPage l) (total l) (filterValues l) (activeFilters l) (apiPath l)
     (routerInstance l) v (filterDefaults l)
     (filterVisibility l) (panelOpen l) (buildQueryParameters l)
     (errorHandler l) (axiosInstance l) (bindings l) (filters l).
Definition set_filters v (l : t) : t :=
  mk (data l) (isLoading l) (isUpdating l) (isFiltering l) (isResetting l)
     (removingFilterKey l) (error l) (hasLoadedOnce l) (currentPage l)
     (perPage l) (total l) (filterValues l) (activeFilters l) (apiPath l)
     (routerInstance l) (filterAttributes l) (filterDefaults l)
     (filterVisibility l) (panelOpen l) (buildQueryParameters l)
     (errorHandler l) (axiosInstance l) (bindings l) v.

Definition set_isFiltering v (l : t) : t :=
  mk (data l) (isLoading l) (isUpdating l) v (isResetting l)
     (removingFilterKey l) (error l) (hasLoadedOnce l) (currentPage l)
     (perPage l) (total l) (filterValues l) (activeFilters l) (apiPath l)
     (routerInstance l) (filterAttributes l) (filterDefaults l)
     (filterVisibility l) (panelOpen l) (buildQueryParameters l)
     (errorHandler l) (axiosInstance l) (bindings l) (filters l).
Definition set_isResetting v (l : t) : t :=
  mk (data l) (isLoading l) (isUpdating l) (isFiltering l) v
     (removingFilterKey l) (error l) (hasLoadedOnce l) (currentPage l)
     (perPage l) (total l) (filterValues l) (activeFilters l) (apiPath l)
     (routerInstance l) (filterAttributes l) (filterDefaults l)
     (filterVisibility l) (panelOpen l) (buildQueryParameters l)
     (errorHandler l) (axiosInstance l) (bindings l) (filters l).
Definition set_removingFilterKey v (l : t) : t :=
  mk (data l) (isLoading l) (isUpdating l) (isFiltering l) (isResetting l)
     v (error l) (hasLoadedOnce l) (currentPage l)
     (perPage l) (total l) (filterValues l) (activeFilters l) (apiPath l)
     (routerInstance l) (filterAttributes l) (filterDefaults l)
     (filterVisibility l) (panelOpen l) (buildQueryParameters l)
     (errorHandler l) (axiosInstance l) (bindings l) (filters l).
Definition set_panelOpen v (l : t) : t :=
  mk (data l) (isLoading l) (isUpdating l) (isFiltering l) (isResetting l)
     (removingFilterKey l) (error l) (hasLoadedOnce l) (currentPage l)
     (perPage l) (total l) (filterValues l) (activeFilters l) (apiPath l)
     (routerInstance l) (filterAttributes l) (filterDefaults l)
     (filterVisibility l) v (buildQueryParameters l)
     (errorHandler l) (axiosInstance l) (bindings l) (filters l).

Definition set_apiPath v (l : t) : t :=
  mk (data l) (isLoading l) (isUpdating l) (isFiltering l) (isResetting l)
     (removingFilterKey l) (error l) (hasLoadedOnce l) (currentPage l)
     (perPage l) (total l) (filterValues l) (activeFilters l) v
     (routerInstance l) (filterAttributes l) (filterDefaults l)
     (filterVisibility l) (panelOpen l) (buildQueryParameters l)
     (errorHandler l) (axiosInstance l) (bindings l) (filters l).
Definition set_routerInstance v (l : t) : t :=
  mk (data l) (isLoading l) (isUpdating l) (isFiltering l) (isResetting l)
     (removingFilterKey l) (error l) (hasLoadedOnce l) (currentPage l)
     (perPage l) (total l) (filterValues l) (activeFilters l) (apiPath l)
     v (filterAttributes l) (filterDefaults l)
     (filterVisibility l) (panelOpen l) (buildQueryParameters l)
     (errorHandler l) (axiosInstance l) (bindings l) (filters l).
Definition set_buildQueryParameters v (l : t) : t :=
  mk (data l) (isLoading l) (isUpdating l) (isFiltering l) (isResetting l)
     (removingFilterKey l) (error l) (hasLoadedOnce l) (currentPage l)
     (perPage l) (total l) (filterValues l) (activeFilters l) (apiPath l)
     (routerInstance l) (filterAttributes l) (filterDefaults l)
     (filterVisibility l) (panelOpen l) v
     (errorHandler l) (axiosInstance l) (bindings l) (filters l).
Definition set_errorHandler v (l : t) : t :=
  mk (data l) (isLoading l) (isUpdating l) (isFiltering l) (isResetting l)
     (removingFilterKey l) (error l) (hasLoadedOnce l) (currentPage l)
     (perPage l) (total l) (filterValues l) (activeFilters l) (apiPath l)
     (routerInstance l) (filterAttributes l) (filterDefaults l)
     (filterVisibility l) (panelOpen l) (buildQueryParameters l)
     v (axiosInstance l) (bindings l) (filters l).
Definition set_axiosInstance v (l : t) : t :=
  mk (data l) (isLoading l) (isUpdating l) (isFiltering l) (isResetting l)
     (removingFilterKey l) (error l) (hasLoadedOnce l) (currentPage l)
     (perPage l) (total l) (filterValues l) (activeFilters l) (apiPath l)
     (routerInstance l) (filterAttributes l) (filterDefaults l)
     (filterVisibility l) (panelOpen l) (buildQueryParameters l)
     (errorHandler l) v (bindings l) (filters l).

(** The controller as its constructor leaves it (lines 21-50 and 205). *)
Definition initial : t :=
  {| data := []; isLoading := false; isUpdating := false;
     isFiltering := false; isResetting := false; removingFilterKey := None;
     error := None; hasLoadedOnce := false; currentPage := 1; perPage := 15;
     total := 0; filterValues := ∅; activeFilters := []; apiPath := None;
     routerInstance := None; filterAttributes := ∅; filterDefaults := ∅;
     filterVisibility := ∅; panelOpen := false; buildQueryParameters := None;
     errorHandler := None; axiosInstance := None; bindings := ∅;
     filters := ∅ |}.

(** *** Configuration: [axios], [path], [router], [queryParameters],
    [onLoadError] *)

Definition axios (instance : AxiosInstance) (l : t) : t :=
  set_axiosInstance (Some instance) l.

Definition path (p : string) (l : t) : t := set_apiPath (Some p) l.

Definition router (r : RouterInstance) (l : t) : t :=
  set_routerInstance (Some r) l.

Definition queryParameters (builder : list Event → gmap string string)
    (l : t) : t :=
  set_buildQueryParameters (Some builder) l.

Definition onLoadError (handler : ErrorHandler) (l : t) : t :=
  set_errorHandler (Some handler) l.

(** *** [loading] and [loaded] *)

Definition loading (l : t) : t :=
  if hasLoadedOnce l
  then set_isLoading false (set_isUpdating true l)
  else set_isUpdating false (set_isLoading true l).

Definition loaded (l : t) : t :=
  set_isUpdating false (set_isLoading false l).

(** *** [buildFilterParameters] *)

(** The value read through a ref-like object or taken as it is; the
    getter of a binding is lines 219-222. *)
Definition unwrap (l : t) (key : string) (value : FilterValue) : Scalar :=
  match value with
  | FRef inner => inner
  | FBinding =>
    match filters l !! key with
    | None | Some SNull | Some SUndefined => SStr ""
    | Some current => SStr (String_of current)
    end
  | FPlain v => v
  end.

(** The part of the loop body after the value is extracted: [None] is
    [continue], [Some v] is [parameters[key] = v]. *)
Definition survivor (actualValue : Scalar) : option Scalar :=
  match actualValue with
  | SNull | SUndefined => None
  | SStr s =>
    if decide (s = "") then None
    else if decide (s = "all") then None
    else
      let trimmed := Js.trim s in
      if decide (trimmed = "") then None else Some (SStr trimmed)
  | SNum n => Some (SNum n)
  end.

(** The loop over [Object.entries(source)]. *)
Definition collect {A} (extract : string → A → Scalar)
    (source : gmap string A) : gmap string Scalar :=
  map_fold
    (λ key value parameters,
       match survivor (extract key value) with
       | Some v => <[key := v]> parameters
       | None => parameters
       end)
    ∅ source.

Definition buildFilterParameters (l : t) : gmap string Scalar :=
  if decide (filters l = ∅)
  then collect (unwrap l) (filterAttributes l)
  else collect (λ _ value, value) (filters l).

(** The value the loop extracts for a key: read from the canonical map
    when it is not empty, from the legacy attributes otherwise. *)
Definition extracted (l : t) (k : string) : option Scalar :=
  if decide (filters l = ∅)
  then unwrap l k <$> filterAttributes l !! k
  else filters l !! k.

(** *** The world a method runs in *)

(** The controller together with the history of its interactions. *)
Record World : Type := {
  this : t;
  history : list Event
}.

(** What the host provides: the global [window.axios], the coercion
    [Number] ([None] is [NaN]), and what calling the function found under
    a property name of the controller returns ([None] when the property
    is not a function). *)
Record Host : Type := {
  window_axios : option AxiosInstance;
  Number : string → option Z;
  call_property : string → option (Outcome (gmap string Scalar))
}.

(** A computation that changes the world and returns or throws.  For an
    [async] method, throwing is the rejection of its promise. *)
Definition M (A : Type) : Type := World → Outcome A * World.

Definition ret {A} (a : A) : M A := λ w, (Fulfilled a, w).

Definition throw {A} (e : Thrown) : M A := λ w, (Rejected e, w).

Definition bind {A B} (m : M A) (k : A → M B) : M B :=
  λ w, match m w with
       | (Fulfilled a, w') => k a w'
       | (Rejected e, w') => (Rejected e, w')
       end.

Notation "x ← m ;;; k" := (bind m (λ x, k))
  (at level 20, m at level 100, k at level 200, only parsing).
Notation "' x ← m ;;; k" := (bind m (λ x, k))
  (at level 20, x pattern, m at level 100, k at level 200, only parsing).

(** [try { body } catch (e) { handler e }]. *)
Definition try_catch {A} (body : M A) (handler : Thrown → M A) : M A :=
  λ w, match body w with
       | (Fulfilled a, w') => (Fulfilled a, w')
       | (Rejected e, w') => handler e w'
       end.

(** [try { body } finally { final }] for a [final] that cannot throw. *)
Definition try_finally {A} (body : M A) (final : t → t) : M A :=
  λ w, let '(r, w') := body w in
       (r, {| this := final (this w'); history := history w' |}).

(** A synchronous change of the controller. *)
Definition update (f : t → t) : M unit :=
  λ w, (Fulfilled tt, {| this := f (this w); history := history w |}).

(** Reading the controller. *)
Definition read {A} (f : t → A) : M A := λ w, (Fulfilled (f (this w)), w).

(** A synchronous step that may throw. *)
Definition lift {A} (r : Outcome A) : M A := λ w, (r, w).

(** An interaction whose result does not matter: a callback, a log. *)
Definition emit (e : Event) : M unit :=
  λ w, (Fulfilled tt, {| this := this w; history := history w ++ [e] |}).

(** An interaction with a collaborator: it answers from the history so
    far, and the interaction is recorded. *)
Definition interact {A} (answer : list Event → Outcome A) (e : Event) : M A :=
  λ w, (answer (history w),
        {| this := this w; history := history w ++ [e] |}).

Section WithHost.

Variable host : Host.

(** *** [getAxios] *)

Definition newline : string := String (Ascii.ascii_of_N 10) "".

Definition axiosNotConfigured : Thrown :=
  Error ("Axios instance not configured. Please either:" +:+ newline +:+
         "1. Pass an axios instance via listing.axios(axiosInstance), or"
         +:+ newline +:+
         "2. Set window.axios globally in your application.").

Definition getAxios (l : t) : Outcome AxiosInstance :=
  match axiosInstance l with
  | Some axios => Fulfilled axios
  | None =>
    match window_axios host with
    | Some windowAxios => Fulfilled windowAxios
    | None => Rejected axiosNotConfigured
    end
  end.

(** *** [normalizeParams] *)

(** The [params] option: a string, an object or a callback (what the call
    returns or throws). *)
Inductive ParamsArg : Type :=
| PString (s : string)
| PObject (m : gmap string Scalar)
| PFunction (result : Outcome (gmap string Scalar)).

(** Lines 406-407: the coercion of one value. *)
Definition coerce (value : string) : Scalar :=
  match Number host value with
  | None => SStr value
  | Some numValue => SNum numValue
  end.

(** The loop over [urlParams.entries()]. *)
Definition coerceEntries (entries : list (string * string))
  : gmap string Scalar :=
  foldl (λ result '(key, value), <[key := coerce value]> result) ∅ entries.

Definition normalizeParams (params : option ParamsArg)
  : Outcome (gmap string Scalar) :=
  match params with
  | None => Fulfilled ∅
  | Some (PString s) =>
    if decide (s = "") then Fulfilled ∅
    else if Js.startsWith "?" s || Js.startsWith "&" s then
      Fulfilled
        (coerceEntries
           (Js.URLSearchParams (if Js.startsWith "?" s then Js.slice1 s else s)))
    else
      match call_property host s with
      | Some result => result
      | None => Fulfilled ∅
      end
  | Some (PFunction result) => result
  | Some (PObject m) => Fulfilled m
  end.

(** *** [get] *)

Record GetConfig : Type := {
  params : option ParamsArg;
  query : option (gmap string QueryValue)
}.

(** The first argument of [get]: a path or a config object. *)
Inductive PathOrConfig : Type :=
| APath (path : string)
| AConfig (config : GetConfig).

Definition pathRequired : Thrown :=
  Error "API path must be provided either as parameter or via path() method".

(** Lines 455-477: the acting endpoint and the acting config; the
    endpoint is [None] where the source throws. *)
Definition resolveArguments (l : t)
    (pathOrConfig : option PathOrConfig) (config : option GetConfig)
  : option string * option GetConfig :=
  let '(apiPath, actualConfig) :=
    match pathOrConfig with
    | Some (APath path) => (Some path, config)
    | Some (AConfig c) => (apiPath l, Some c)
    | None => (apiPath l, None)
    end in
  match apiPath with
  | Some p => if decide (p = "") then (None, actualConfig) else (Some p, actualConfig)
  | None => (None, actualConfig)
  end.

(** Lines 480-492: the query to synchronise from. *)
Definition routeQueryOf (w : World) (actualConfig : option GetConfig)
  : gmap string QueryValue :=
  match actualConfig ≫= query with
  | Some q => q
  | None =>
    match routerInstance (this w) with
    | Some router => default ∅ (currentRoute_query router (history w))
    | None => ∅
    end
  end.

(** [String(queryValue[0])] for an array, [String(queryValue)] otherwise. *)
Definition stringValueOf (queryValue : QueryValue) : string :=
  match queryValue with
  | QArray elements => String_of (default SUndefined (head elements))
  | QValue v => String_of v
  end.

(** Lines 510-521 of the loop: the string to write for a key, [None]
    where the round ends without writing. *)
Definition incoming (routeQuery : gmap string QueryValue) (key : string)
  : option string :=
  match routeQuery !! key with
  | None | Some (QValue SUndefined) | Some (QValue SNull) => None
  | Some queryValue =>
    let stringValue := stringValueOf queryValue in
    if bool_decide (key = "status")
       && negb (bool_decide (stringValue ∈ ["verified"; "unverified"]))
    then None
    else Some stringValue
  end.

(** Lines 524-533 of the loop: the write.  The setter of a binding is
    lines 223-226. *)
Definition writeFilter (l : t) (key : string) (stringValue : string) : t :=
  if bool_decide (is_Some (filters l !! key)) then
    set_filters (<[key := SStr stringValue]> (filters l)) l
  else
    match filterAttributes l !! key with
    | Some (FRef _) =>
      set_filterAttributes
        (<[key := FRef (SStr stringValue)]> (filterAttributes l)) l
    | Some FBinding =>
      set_filters (<[key := SStr stringValue]> (filters l)) l
    | Some (FPlain _) | None => l
    end.

(** One round of the loop of lines 509-535. *)
Definition syncFilter (routeQuery : gmap string QueryValue) (l : t)
    (key : string) : t :=
  match incoming routeQuery key with
  | Some stringValue => writeFilter l key stringValue
  | None => l
  end.

Definition filterKeys (l : t) : list string :=
  if decide (filters l = ∅)
  then (map_to_list (filterAttributes l)).*1
  else (map_to_list (filters l)).*1.

Definition syncFilters (routeQuery : gmap string QueryValue) (l : t) : t :=
  foldl (syncFilter routeQuery) l (filterKeys l).

(** [String(v)] for an entry of the query; an array joins its elements
    with commas, [null] and [undefined] elements giving nothing. *)
Definition joinElement (v : Scalar) : string :=
  match v with
  | SNull | SUndefined => ""
  | _ => String_of v
  end.

Fixpoint joinElements (l : list Scalar) : string :=
  match l with
  | [] => ""
  | [v] => joinElement v
  | v :: rest => joinElement v +:+ "," +:+ joinElements rest
  end.

Definition String_of_query (queryValue : QueryValue) : string :=
  match queryValue with
  | QArray elements => joinElements elements
  | QValue v => String_of v
  end.

(** Truthiness of an entry of the query. *)
Definition truthy (queryValue : option QueryValue) : bool :=
  match queryValue with
  | None | Some (QValue SNull) | Some (QValue SUndefined) => false
  | Some (QValue (SStr s)) => negb (bool_decide (s = ""))
  | Some (QValue (SNum n)) => negb (bool_decide (n = 0))
  | Some (QArray _) => true
  end.

(** Lines 538-543. *)
Definition syncPage (routeQuery : gmap string QueryValue) (l : t) : t :=
  if truthy (routeQuery !! "page") then
    match routeQuery !! "page" ≫= (λ v, Js.parseInt (String_of_query v)) with
    | Some page => if decide (0 < page) then set_currentPage page l else l
    | None => l
    end
  else l.

(** Lines 501-544. *)
Definition syncFromQuery (routeQuery : gmap string QueryValue) (l : t) : t :=
  if decide (routeQuery = ∅) then l
  else syncPage routeQuery (syncFilters routeQuery l).

(** Lines 454-544: everything before the [try].  Returns the endpoint and
    the normalised explicit parameters. *)
Definition get_prelude
    (pathOrConfig : option PathOrConfig) (config : option GetConfig)
  : M (string * gmap string Scalar) :=
  λ w,
    let '(apiPath, actualConfig) :=
      resolveArguments (this w) pathOrConfig config in
    match apiPath with
    | None => (Rejected pathRequired, w)
    | Some apiPath =>
      let routeQuery := routeQueryOf w actualConfig in
      match normalizeParams (actualConfig ≫= params) with
      | Rejected e => (Rejected e, w)
      | Fulfilled parameters =>
        (Fulfilled (apiPath, parameters),
         {| this := syncFromQuery routeQuery (this w); history := history w |})
      end
    end.

(** Lines 553-558. *)
Definition requestParameters (l : t) (parameters : gmap string Scalar)
  : gmap string Scalar :=
  parameters ∪ (buildFilterParameters l ∪
    {[ "page" := SNum (currentPage l); "per_page" := SNum (perPage l) ]}).

(** Lines 547-560: from the start of the [try] to the request; returns
    the transport and the request parameters. *)
Definition get_issue (parameters : gmap string Scalar)
  : M (AxiosInstance * gmap string Scalar) :=
  _ ← update loading;;;
  _ ← update (set_error None);;;
  req ← read (λ l, requestParameters l parameters);;;
  axios ← (λ w, lift (getAxios (this w)) w);;;
  ret (axios, req).

(** Lines 565-571: the response is stored. *)
Definition get_receive (response : ResponseData) (l : t) : t :=
  let listing := resp_listing response in
  set_hasLoadedOnce true
    (set_activeFilters (default [] (resp_filters response))
      (set_perPage (default 15 (listing ≫= payload_perPage))
        (set_total (default 0 (listing ≫= payload_total))
          (set_currentPage (default 1 (listing ≫= current_page))
            (set_data (default [] (listing ≫= items)) l))))).

(** Line 574: the test for a configuration error. *)
Definition isAxiosConfigurationError (err : Thrown) : bool :=
  instanceofError err
  && Js.includes "Axios instance not configured" (err_message err).

(** [axiosError.response?.status]. *)
Definition statusCodeOf (err : Thrown) : option Z :=
  err_response err ≫= resp_status.

(** Lines 582-587. *)
Definition defaultErrorOf (err : Thrown) : string :=
  if decide (statusCodeOf err = Some 403) then
    "You do not have permission to access this resource."
  else
    match (err_response err ≫= resp_data) ≫= body_message with
    | Some message =>
      if decide (message = "")
      then "Failed to load data. Please try again later."
      else message
    | None => "Failed to load data. Please try again later."
    end.

(** Lines 589-594: what the [catch] clause stores in [error]. *)
Definition stored_error (l : t) (err : Thrown) : option string :=
  match errorHandler l with
  | Some handler => handler (defaultErrorOf err) (statusCodeOf err)
  | None => Some (defaultErrorOf err)
  end.

(** Lines 572-596: the [catch] clause. *)
Definition get_catch (err : Thrown) : M unit :=
  if isAxiosConfigurationError err then throw err
  else
    _ ← update (λ l, set_error (stored_error l err) l);;;
    emit (ConsoleError err).

(** Lines 547-571: the body of the [try]. *)
Definition get_try (apiPath : string) (parameters : gmap string Scalar)
  : M unit :=
  '(axios, req) ← get_issue parameters;;;
  response ← interact (λ h, axios_get axios h apiPath req)
                      (AxiosGet apiPath req);;;
  update (get_receive response).

(** Lines 546-599: the [try] statement. *)
Definition get_statement (apiPath : string) (parameters : gmap string Scalar)
  : M unit :=
  try_finally (try_catch (get_try apiPath parameters) get_catch) loaded.

Definition get (pathOrConfig : option PathOrConfig)
    (config : option GetConfig) : M unit :=
  '(apiPath, parameters) ← get_prelude pathOrConfig config;;;
  get_statement apiPath parameters.

(** *** [remove] *)

(** [item[key]]. *)
Definition property (item : gmap string Scalar) (key : string) : Scalar :=
  default SUndefined (item !! key).

Definition remove (id : Scalar) (key : string) (l : t) : t :=
  set_total (Z.max 0 (total l - 1))
    (set_data (filter (λ item, property item key ≠ id) (data l)) l).

(** *** [updateUrl] *)

(** The default query of lines 771-779. *)
Definition defaultQuery (l : t) : gmap string string :=
  (String_of <$> buildFilterParameters l) ∪
  (if decide (1 < currentPage l)
   then {[ "page" := pretty (currentPage l) ]} else ∅).

Definition updateUrl : M unit :=
  λ w,
    match routerInstance (this w) with
    | None => (Fulfilled tt, w)
    | Some router =>
      let query :=
        match buildQueryParameters (this w) with
        | Some builder => builder (history w)
        | None => defaultQuery (this w)
        end in
      try_catch
        (interact (λ h, router_push router h query) (RouterPush query))
        (λ _, ret tt) w
    end.

(** *** [goToPage] *)

Definition shouldAutoLoad (autoLoad : option bool) (l : t) : bool :=
  negb (bool_decide (autoLoad = Some false))
  && (bool_decide (is_Some (apiPath l))
      || bool_decide (is_Some (routerInstance l))).

Definition goToPage (page : Z) (perPage : option Z) (autoLoad : option bool)
  : M unit :=
  _ ← update (set_currentPage page);;;
  _ ← update (λ l, match perPage with
                   | Some perPage => set_perPage perPage l
                   | None => l
                   end);;;
  auto ← read (shouldAutoLoad autoLoad);;;
  if auto : bool then
    _ ← updateUrl;;;
    get None None
  else ret tt.

(** *** [delete] *)

(** [DeleteConfig]: the callbacks are taken as present or absent; what
    they are called with is recorded in the history. *)
Record DeleteConfig : Type := {
  key : option string;
  refresh : option bool;
  onSuccess : bool;
  onError : bool
}.

(** [{ id } & DeleteConfig]. *)
Record DeleteConfigWithId : Type := {
  id : Scalar;
  config : DeleteConfig
}.

Inductive DeleteFirst : Type :=
| DPath (path : string)
| DConfig (c : DeleteConfigWithId).

Inductive IdOrConfig : Type :=
| IId (id : Scalar)
| IConfig (c : DeleteConfigWithId).

(** The locals of [delete] after lines 638-676. *)
Record DeleteLocals : Type := {
  d_path : string;
  d_id : Scalar;
  d_key : string;
  d_refresh : bool;
  d_onSuccess : bool;
  d_onError : bool
}.

Definition idRequired : Thrown :=
  Error "ID must be provided when calling delete(path, id)".

Definition localsOf (path : string) (id : Scalar) (c : DeleteConfig)
  : DeleteLocals :=
  {| d_path := path; d_id := id;
     d_key := default "id" (key c);
     d_refresh := default true (refresh c);
     d_onSuccess := onSuccess c;
     d_onError := onError c |}.

Definition noConfig : DeleteConfig :=
  {| key := None; refresh := None; onSuccess := false; onError := false |}.

(** Lines 638-676. *)
Definition delete_arguments (l : t) (pathOrConfig : DeleteFirst)
    (idOrConfig : option IdOrConfig) (maybeConfig : option DeleteConfig)
  : Outcome DeleteLocals :=
  match pathOrConfig with
  | DPath path =>
    match idOrConfig with
    | Some (IConfig configObject) =>
      Fulfilled (localsOf path (id configObject) (config configObject))
    | None | Some (IId SUndefined) | Some (IId SNull) => Rejected idRequired
    | Some (IId id) =>
      Fulfilled (localsOf path id (default noConfig maybeConfig))
    end
  | DConfig c =>
    match apiPath l with
    | None => Rejected pathRequired
    | Some configured =>
      if decide (configured = "") then Rejected pathRequired
      else
        Fulfilled
          (localsOf (configured +:+ "/" +:+ String_of (id c)) (id c) (config c))
    end
  end.

(** Lines 679-694: the body of the [try]. *)
Definition delete_try (d : DeleteLocals) : M unit :=
  axios ← (λ w, lift (getAxios (this w)) w);;;
  _ ← interact (λ h, axios_delete axios h (d_path d)) (AxiosDelete (d_path d));;;
  _ ← (if d_onSuccess d then emit (OnSuccess (d_id d)) else ret tt);;;
  _ ← update (remove (d_id d) (d_key d));;;
  l ← read (λ l, l);;;
  if bool_decide (data l = []) && bool_decide (1 < currentPage l) then
    goToPage (currentPage l - 1) None None
  else if d_refresh d then get None None
  else ret tt.

(** Lines 695-708: the [catch] clause. *)
Definition delete_catch (d : DeleteLocals) (error : Thrown) : M unit :=
  if d_onError d then emit (OnError error (statusCodeOf error))
  else throw error.

Definition delete (pathOrConfig : DeleteFirst)
    (idOrConfig : option IdOrConfig) (maybeConfig : option DeleteConfig)
  : M unit :=
  d ← (λ w, lift (delete_arguments (this w) pathOrConfig idOrConfig
                                   maybeConfig) w);;;
  try_catch (delete_try d) (delete_catch d).

(** *** [setFilters], [clearFilters], [load] *)

Definition setFilters (newFilters : gmap string Scalar) (l : t) : t :=
  set_filterValues newFilters l.

Definition clearFilters (l : t) : t := set_filterValues ∅ l.

Definition load (path : option string)
    (parameters : option (gmap string Scalar))
    (query : option (gmap string QueryValue)) : M unit :=
  get (APath <$> path)
      (Some {| params := PObject <$> parameters; query := query |}).

(** *** [resetFilters], [removeFilter], [applyFilters] *)

(** Writing a default into the slot of a filter (lines 803-813 and
    849-859). *)
Definition writeDefault (l : t) (key : string) (defaultValue : Scalar) : t :=
  if bool_decide (is_Some (filters l !! key)) then
    set_filters (<[key := defaultValue]> (filters l)) l
  else
    match filterAttributes l !! key with
    | Some (FRef _) =>
      set_filterAttributes (<[key := FRef defaultValue]> (filterAttributes l)) l
    | Some FBinding =>
      set_filters (<[key := defaultValue]> (filters l)) l
    | Some (FPlain _) | None => l
    end.

(** The explicit query of lines 819-823 and 864-868. *)
Definition explicitQuery (l : t) : gmap string QueryValue :=
  (λ value, QValue (SStr (String_of value))) <$> buildFilterParameters l.

Definition closePanel (l : t) : t := set_panelOpen false l.

Definition resetFilters : M unit :=
  _ ← update (set_isResetting true);;;
  try_finally
    (l ← read (λ l, l);;;
     if decide (filterDefaults l = ∅) then goToPage 1 None None
     else
       _ ← update (λ l, foldl (λ l '(key, defaultValue),
                                 writeDefault l key defaultValue)
                              l (map_to_list (filterDefaults l)));;;
       _ ← update (set_currentPage 1);;;
       query ← read explicitQuery;;;
       _ ← updateUrl;;;
       _ ← get None (Some {| params := None; query := Some query |});;;
       update closePanel)
    (set_isResetting false).

Definition removeFilter (filterKey : string) : M unit :=
  l ← read (λ l, l);;;
  match filterDefaults l !! filterKey with
  | None => ret tt
  | Some defaultValue =>
    _ ← update (set_removingFilterKey (Some filterKey));;;
    try_finally
      (_ ← update (λ l, writeDefault l filterKey defaultValue);;;
       _ ← update (set_currentPage 1);;;
       query ← read explicitQuery;;;
       _ ← updateUrl;;;
       get None (Some {| params := None; query := Some query |}))
      (set_removingFilterKey None)
  end.

Definition applyFilters : M unit :=
  _ ← update (set_isFiltering true);;;
  try_finally
    (_ ← goToPage 1 None None;;;
     update closePanel)
    (set_isFiltering false).

(** *** [reset] *)

Definition reset (l : t) : t :=
  set_activeFilters []
    (set_filterValues ∅
      (set_total 0
        (set_perPage 15
          (set_currentPage 1
            (set_error None
              (loaded
                (set_data [] l))))))).

(** *** Calls from outside *)

(** The methods above, as a caller may invoke them one after the other. *)
Inductive Call : Type :=
| CallLoading
| CallLoaded
| CallGet (pathOrConfig : option PathOrConfig) (config : option GetConfig)
| CallLoad (path : option string) (parameters : option (gmap string Scalar))
           (query : option (gmap string QueryValue))
| CallRemove (id : Scalar) (key : option string)
| CallDelete (pathOrConfig : DeleteFirst) (idOrConfig : option IdOrConfig)
             (maybeConfig : option DeleteConfig)
| CallSetFilters (newFilters : gmap string Scalar)
| CallClearFilters
| CallGoToPage (page : Z) (perPage : option Z) (autoLoad : option bool)
| CallResetFilters
| CallRemoveFilter (filterKey : string)
| CallApplyFilters
| CallReset.

Definition call (c : Call) : M unit :=
  match c with
  | CallLoading => update loading
  | CallLoaded => update loaded
  | CallGet pathOrConfig config => get pathOrConfig config
  | CallLoad path parameters query => load path parameters query
  | CallRemove id key => update (remove id (default "id" key))
  | CallDelete pathOrConfig idOrConfig maybeConfig =>
    delete pathOrConfig idOrConfig maybeConfig
  | CallSetFilters newFilters => update (setFilters newFilters)
  | CallClearFilters => update clearFilters
  | CallGoToPage page perPage autoLoad => goToPage page perPage autoLoad
  | CallResetFilters => resetFilters
  | CallRemoveFilter filterKey => removeFilter filterKey
  | CallApplyFilters => applyFilters
  | CallReset => update reset
  end.

(** The world after a sequence of calls, each awaited before the next;
    a rejected call does not stop the caller. *)
Definition run (calls : list Call) (w : World) : World :=
  foldl (λ w c, (call c w).2) w calls.

End WithHost.

(** *** Filter configuration: [filterRefs], [parameters], [defaults] *)

Definition set_filterDefaults v (l : t) : t :=
  mk (data l) (isLoading l) (isUpdating l) (isFiltering l) (isResetting l)
     (removingFilterKey l) (error l) (hasLoadedOnce l) (currentPage l)
     (perPage l) (total l) (filterValues l) (activeFilters l) (apiPath l)
     (routerInstance l) (filterAttributes l) v
     (filterVisibility l) (panelOpen l) (buildQueryParameters l)
     (errorHandler l) (axiosInstance l) (bindings l) (filters l).
Definition set_filterVisibility v (l : t) : t :=
  mk (data l) (isLoading l) (isUpdating l) (isFiltering l) (isResetting l)
     (removingFilterKey l) (error l) (hasLoadedOnce l) (currentPage l)
     (perPage l) (total l) (filterValues l) (activeFilters l) (apiPath l)
     (routerInstance l) (filterAttributes l) (filterDefaults l)
     v (panelOpen l) (buildQueryParameters l)
     (errorHandler l) (axiosInstance l) (bindings l) (filters l).
Definition set_bindings v (l : t) : t :=
  mk (data l) (isLoading l) (isUpdating l) (isFiltering l) (isResetting l)
     (removingFilterKey l) (error l) (hasLoadedOnce l) (currentPage l)
     (perPage l) (total l) (filterValues l) (activeFilters l) (apiPath l)
     (routerInstance l) (filterAttributes l) (filterDefaults l)
     (filterVisibility l) (panelOpen l) (buildQueryParameters l)
     (errorHandler l) (axiosInstance l) v (filters l).

(** Lines 180-195.  The loop gives every key the default [null] and the
    visibility [true]. *)
Definition filterRefs (newFilters : gmap string FilterValue) (l : t) : t :=
  map_fold
    (λ key _ l,
       set_filterVisibility (<[key := true]> (filterVisibility l))
         (set_filterDefaults (<[key := SNull]> (filterDefaults l)) l))
    (set_filterVisibility ∅
       (set_filterDefaults ∅ (set_filterAttributes newFilters l)))
    newFilters.

(** Lines 207-240.  [attrs] is the local object of the loop; the last
    assignment stores it. *)
Definition parameters (initials : gmap string Scalar) (l : t) : t :=
  let '(attrs, l) :=
    map_fold
      (λ key defaultValue '(attrs, l),
         (<[key := FBinding]> attrs,
          set_filterVisibility (<[key := true]> (filterVisibility l))
            (set_filterDefaults (<[key := defaultValue]> (filterDefaults l))
               (set_bindings ({[ key ]} ∪ bindings l) l))))
      (∅,
       set_bindings ∅
         (set_filterVisibility ∅
            (set_filterDefaults ∅ (set_filters initials l))))
      initials in
  set_filterAttributes attrs l.

(** Lines 246-253. *)
Definition defaults (newDefaults : gmap string Scalar) (l : t) : t :=
  map_fold
    (λ key value l,
       if bool_decide (is_Some (filterAttributes l !! key))
       then set_filterDefaults (<[key := value]> (filterDefaults l)) l
       else l)
    l newDefaults.

(** *** The panel *)

Definition isPanelOpen (l : t) : bool := panelOpen l.

Definition openPanel (l : t) : t := set_panelOpen true l.

Definition togglePanel (l : t) : t := set_panelOpen (negb (panelOpen l)) l.

(** *** Filter visibility *)

(** Lines 278-284. *)
Definition isFilterVisible (key : string) (l : t) : bool :=
  match filterVisibility l !! key with
  | Some visible => visible
  | None => true
  end.

Definition showFilter (key : string) (l : t) : t :=
  if bool_decide (is_Some (filterAttributes l !! key))
  then set_filterVisibility (<[key := true]> (filterVisibility l)) l
  else l.

Definition hideFilter (key : string) (l : t) : t :=
  if bool_decide (is_Some (filterAttributes l !! key))
  then set_filterVisibility (<[key := false]> (filterVisibility l)) l
  else l.

Definition toggleFilter (key : string) (l : t) : t :=
  if bool_decide (is_Some (filterAttributes l !! key))
  then set_filterVisibility
         (<[key := negb (isFilterVisible key l)]> (filterVisibility l)) l
  else l.

(** Lines 316-320: the keys of the entries whose value is [true], in the
    order of the entries of the map. *)
Definition visibleFilters (l : t) : list string :=
  (filter (λ entry, entry.2 = true) (map_to_list (filterVisibility l))).*1.

(** *** [hasActiveFilters] and [config] *)

Definition hasActiveFilters (l : t) : bool :=
  bool_decide (0 < List.length (activeFilters l))%nat.

(** The table properties that [config()] takes from the controller; the
    others are constants. *)
Record TableConfig : Type := {
  config_data : list (gmap string Scalar);
  config_loading : bool;
  config_perPage : Z;
  config_currentPage : Z;
  config_total : Z
}.

Definition tableConfig (l : t) : TableConfig :=
  {| config_data := data l;
     config_loading := isLoading l;
     config_perPage := perPage l;
     config_currentPage := currentPage l;
     config_total := total l |}.

(** *** The bindings of [parameters] and the proxy of [create] *)

(** Lines 116-125: the [set] trap of the proxy, for a property name that
    has a binding; [None] where the trap hands the assignment over to the
    object itself. *)
Definition proxySet (prop : string) (value : Scalar) (l : t) : option t :=
  if bool_decide (prop ∈ bindings l)
  then Some (set_filters (<[prop := SStr (String_of value)]> (filters l)) l)
  else None.

(** Lines 89-102 of [create]: the instance before it is wrapped. *)
Definition create (initialFilters : option (gmap string Scalar))
    (instance : option AxiosInstance) : t :=
  let l := match initialFilters with
           | Some initials => parameters initials initial
           | None => initial
           end in
  match instance with
  | Some a => axios a l
  | None => l
  end.

(** *** Vocabulary of the properties *)

(** Between two states of the controller: [hasLoadedOnce], once set,
    stays set, and the configuration is the same. *)
Definition steady (l l' : t) : Prop :=
  (hasLoadedOnce l = true → hasLoadedOnce l' = true)
  ∧ apiPath l' = apiPath l
  ∧ axiosInstance l' = axiosInstance l
  ∧ routerInstance l' = routerInstance l
  ∧ errorHandler l' = errorHandler l
  ∧ buildQueryParameters l' = buildQueryParameters l.

(** Between two worlds: the controller is [steady] and the history only
    grows. *)
Definition evolves (w w' : World) : Prop :=
  steady (this w) (this w') ∧ history w `prefix_of` history w'.

(** Between two states of the controller: the panel, the transient flags
    of the filter actions, the filter defaults and visibility, the
    bindings and the legacy filter values are the same. *)
Definition same_filter_setup (l l' : t) : Prop :=
  panelOpen l' = panelOpen l
  ∧ isFiltering l' = isFiltering l
  ∧ isResetting l' = isResetting l
  ∧ removingFilterKey l' = removingFilterKey l
  ∧ filterDefaults l' = filterDefaults l
  ∧ filterVisibility l' = filterVisibility l
  ∧ bindings l' = bindings l
  ∧ filterValues l' = filterValues l.

(** A computation all of whose runs evolve the world. *)
Definition preserving {A} (m : M A) : Prop := ∀ w, evolves w (m w).2.

(** Only digits and minus signs. *)
Fixpoint bare (s : string) : bool :=
  match s with
  | String a s' => (bool_decide (is_Some (Js.digit a)) || bool_decide (a = "-"%char))
                   && bare s'
  | EmptyString => true
  end.

(** The entry of [filters] and the entry of [filterAttributes] for a key
    after one round of the synchronisation loop, from the string to write
    (if any) and the two entries before. *)
Definition filterSlot (written : option string) (f : option Scalar)
    (a : option FilterValue) : option Scalar :=
  match written with
  | Some s =>
    match f, a with
    | Some _, _ | None, Some FBinding => Some (SStr s)
    | None, _ => None
    end
  | None => f
  end.

Definition attributeSlot (written : option string) (f : option Scalar)
    (a : option FilterValue) : option FilterValue :=
  match written, f, a with
  | Some s, None, Some (FRef _) => Some (FRef (SStr s))
  | _, _, _ => a
  end.

(** A computation all of whose runs relate the controller before and
    after by [R]. *)
Definition keeping (R : t → t → Prop) {A} (m : M A) : Prop :=
  ∀ w, R (this w) (this (m w).2).

(** A scalar whose string form is the one of the embedding: not a number,
    or a safe integer. *)
Definition safeScalar (v : Scalar) : bool :=
  match v with
  | SNum n => Js.safeInteger n
  | _ => true
  end.

(** The names that [in] finds in a dictionary of the controller without
    their being keys of it: those that every object inherits, and the
    mark that [markRaw] leaves on the filter attributes.  The tests
    [key in ...] of the source are embedded as the presence of the key,
    which is what they are for every other name. *)
Definition foreignName (k : string) : bool :=
  bool_decide (k ∈ "__v_skip" :: Js.objectPrototype).

(** No key of the filter defaults or of the filter attributes is such a
    name. *)
Definition ordinary_keys (l : t) : Prop :=
  ∀ k, is_Some (filterDefaults l !! k) ∨ is_Some (filterAttributes l !! k) →
       foreignName k = false.

(** A call whose filter key, if it has one, is not such a name. *)
Definition ordinary_call (c : Call) : Prop :=
  match c with
  | CallRemoveFilter filterKey => foreignName filterKey = false
  | _ => True
  end.

(** The world with other legacy filter values. *)
Definition with_filterValues (v : gmap string Scalar) (w : World) : World :=
  {| this := set_filterValues v (this w); history := history w |}.

(** A computation that neither reads nor writes the legacy filter
    values: it does the same with other ones, and leaves them in place. *)
Definition commuting {A} (m : M A) : Prop :=
  ∀ v w, m (with_filterValues v w) = ((m w).1, with_filterValues v (m w).2).

(** The calls of the legacy filter methods. *)
Definition legacy (c : Call) : bool :=
  match c with
  | CallSetFilters _ | CallClearFilters => true
  | _ => false
  end.

(** Two states of the controller that are the same but for the legacy
    filter values. *)
Definition same_but_filterValues (l l' : t) : Prop :=
  set_filterValues ∅ l' = set_filterValues ∅ l.

(** Every binding among the filter attributes has its entry in
    [filters], as [parameters] leaves it. *)
Definition bindings_backed (l : t) : Prop :=
  ∀ k, filterAttributes l !! k = Some FBinding → is_Some (filters l !! k).

(** Between two states of the controller, the first with its bindings
    backed: the second has them backed too, [filters] and the filter
    attributes have the same keys, and the defaults, the visibility and
    the bindings are the same. *)
Definition keeps_filter_keys (l l' : t) : Prop :=
  bindings_backed l →
  bindings_backed l'
  ∧ dom (filters l') = dom (filters l)
  ∧ dom (filterAttributes l') = dom (filterAttributes l)
  ∧ filterDefaults l' = filterDefaults l
  ∧ filterVisibility l' = filterVisibility l
  ∧ bindings l' = bindings l.

(** The entry of [filters] and the entry of [filterAttributes] for a key
    after [resetFilters] or [removeFilter] wrote a default (if any) into
    its slot, from the two entries before. *)
Definition resetSlot (written : option Scalar) (f : option Scalar)
    (a : option FilterValue) : option Scalar :=
  match written with
  | Some d =>
    match f, a with
    | Some _, _ | None, Some FBinding => Some d
    | None, _ => None
    end
  | None => f
  end.

Definition resetAttributeSlot (written : option Scalar) (f : option Scalar)
    (a : option FilterValue) : option FilterValue :=
  match written, f, a with
  | Some d, None, Some (FRef _) => Some (FRef d)
  | _, _, _ => a
  end.

(** A state that differs from another one at most in the filters, the
    filter attributes and the page. *)
Definition differs_in_filters_and_page (l l' : t) : Prop :=
  l' = set_currentPage (currentPage l')
         (set_filterAttributes (filterAttributes l')
            (set_filters (filters l') l)).

(** The request of a call to [get] is issued and the transport fulfils
    it. *)
Definition fetch_succeeds (host : Host) (pathOrConfig : option PathOrConfig)
    (config : option GetConfig) (w : World) : bool :=
  match get_prelude host pathOrConfig config w with
  | (Fulfilled (apiPath, parameters), w1) =>
    match get_issue host parameters w1 with
    | (Fulfilled (axios, req), w2) =>
      match axios_get axios (history w2) apiPath req with
      | Fulfilled _ => true
      | Rejected _ => false
      end
    | (Rejected _, _) => false
    end
  | (Rejected _, _) => false
  end.

(** *** Collaborators for the examples *)

(** A host without a global transport, whose numbers are the decimal
    integers and whose controller has no extra function properties. *)
Definition plainHost : Host :=
  {| window_axios := None;
     Number := Js.integerNumber;
     call_property := λ _, None |}.

(** A transport that rejects every request with [err]. *)
Definition rejecting (err : Thrown) : AxiosInstance :=
  {| axios_get := λ _ _ _, Rejected err;
     axios_delete := λ _ _, Rejected err |}.

(** A transport that answers every [get] with [response] and accepts
    every [delete]. *)
Definition serving (response : ResponseData) : AxiosInstance :=
  {| axios_get := λ _ _ _, Fulfilled response;
     axios_delete := λ _ _, Fulfilled tt |}.

(** An error response with a status and no body. *)
Definition httpError (status : Z) : Thrown :=
  {| instanceofError := false; err_message := "";
     err_response := Some {| resp_status := Some status; resp_data := None |} |}.

(** A response without a listing and without filters. *)
Definition emptyResponse : ResponseData :=
  {| resp_listing := None; resp_filters := None |}.

(** An item with an [id] only. *)
Definition itemWithId (n : Z) : gmap string Scalar := {[ "id" := SNum n ]}.

(** A controller on page [page] that holds [items] out of [count]. *)
Definition holding (items : list (gmap string Scalar)) (count page : Z)
    (l : t) : t :=
  set_currentPage page (set_total count (set_data items l)).

(** A response with two items, on page 3 of 32 items. *)
Definition pageThree : ResponseData :=
  {| resp_listing :=
       Some {| items := Some [itemWithId 1; itemWithId 2];
               current_page := Some 3;
               payload_total := Some 32;
               payload_perPage := None |};
     resp_filters := None |}.

(** A world with no history. *)
Definition fresh (l : t) : World := {| this := l; history := [] |}.

(** A controller created with two filters, a transport and an endpoint,
    and the same after both filters were edited. *)
Definition twoFilters : t :=
  path "/api/items"
    (create (Some {[ "search" := SStr ""; "status" := SStr "all" ]})
            (Some (serving emptyResponse))).

Definition twoFiltersEdited : t :=
  set_filters {[ "search" := SStr "abc"; "status" := SStr "verified" ]}
    twoFilters.

(** A controller with three canonical filters. *)
Definition threeFilters : t :=
  set_filters {[ "search" := SStr " a b "; "size" := SNum 25;
                 "status" := SStr "all" ]} initial.

(** A new controller with an endpoint and a transport. *)
Definition firstFetch : World :=
  fresh (axios (serving emptyResponse) (path "/api/items" initial)).

(** A controller with the filters [status] and [search], and a query
    that carries a value for each. *)
Definition statusWorld : World :=
  fresh (set_filters {[ "status" := SStr "all"; "search" := SStr "" ]}
           (axios (serving emptyResponse) (path "/api/items" initial))).

Definition statusQuery : GetConfig :=
  {| params := None;
     query := Some {[ "status" := QValue (SStr "bogus");
                      "search" := QValue (SStr "abc") ]} |}.

(** A controller whose legacy filter [search] is a plain value, not a
    ref-like object. *)
Definition plainSearchWorld : World :=
  fresh (filterRefs {[ "search" := FPlain (SStr "abc") ]}
           (axios (serving emptyResponse) (path "/api/items" initial))).

(** ** Properties *)

(** *** Filter parameters *)

Lemma collect_lookup {A} (extract : string → A → Scalar)
    (source : gmap string A) (k : string) :
  collect extract source !! k = source !! k ≫= (λ v, survivor (extract k v)).
Proof.
  unfold collect.
  apply (map_fold_weak_ind
           (λ r m, r !! k = m !! k ≫= (λ v, survivor (extract k v)))).
  - by rewrite !lookup_empty.
  - intros i x m r Hfresh IH.
    destruct (decide (i = k)) as [->|Hne].
    + rewrite lookup_insert_eq. simpl.
      destruct (survivor (extract k x)) as [v|].
      * by rewrite lookup_insert_eq.
      * by rewrite IH, Hfresh.
    + rewrite (lookup_insert_ne m) by done.
      destruct (survivor (extract i x)); [by rewrite lookup_insert_ne|done].
Qed.

Lemma buildFilterParameters_lookup (l : t) (k : string) :
  buildFilterParameters l !! k = extracted l k ≫= survivor.
Proof.
  unfold buildFilterParameters, extracted.
  destruct (decide (filters l = ∅)); rewrite collect_lookup.
  - by destruct (filterAttributes l !! k).
  - done.
Qed.

(** C1.  For every configured filter mapping (the canonical [filters] map
    when it is not empty, the legacy attributes otherwise) the result of
    [buildFilterParameters] has no entry for a key that is not configured
    or whose extracted value is [null], [undefined], the empty string, a
    string that trims to the empty string, or exactly ["all"]; a surviving
    string appears trimmed and a number appears as it is, under its key. *)
Theorem buildFilterParameters_omits_and_keeps (l : t) (k : string) :
  match extracted l k with
  | None | Some SNull | Some SUndefined =>
    buildFilterParameters l !! k = None
  | Some (SStr s) =>
    if decide (s = "" ∨ s = "all" ∨ Js.trim s = "")
    then buildFilterParameters l !! k = None
    else buildFilterParameters l !! k = Some (SStr (Js.trim s))
  | Some (SNum n) => buildFilterParameters l !! k = Some (SNum n)
  end.
Proof.
  rewrite buildFilterParameters_lookup.
  destruct (extracted l k) as [[| |s|n]|]; simpl; try done.
  destruct (decide (s = "")), (decide (s = "all")),
    (decide (Js.trim s = "")), (decide (_ ∨ _)); tauto.
Qed.

(** *** The shape of a fetch *)

Section Fetch.

Variable host : Host.

(** The world while the request is in flight: [loading] has run and
    [error] is cleared. *)
Lemma get_issue_eq (parameters : gmap string Scalar) (w : World) :
  get_issue host parameters w =
  let l := set_error None (loading (this w)) in
  let w' := {| this := l; history := history w |} in
  match getAxios host l with
  | Fulfilled axios => (Fulfilled (axios, requestParameters l parameters), w')
  | Rejected e => (Rejected e, w')
  end.
Proof.
  unfold get_issue, bind, update, read, lift, ret. cbn [this history].
  by destruct (getAxios host (set_error None (loading (this w)))).
Qed.

Lemma getAxios_frame (l l' : t) :
  axiosInstance l' = axiosInstance l → getAxios host l' = getAxios host l.
Proof. unfold getAxios. by intros ->. Qed.

Lemma axiosNotConfigured_is_configuration_error :
  isAxiosConfigurationError axiosNotConfigured = true.
Proof. reflexivity. Qed.

Lemma getAxios_rejected (l : t) (e : Thrown) :
  getAxios host l = Rejected e → e = axiosNotConfigured.
Proof.
  unfold getAxios. destruct (axiosInstance l); [done|].
  destruct (window_axios host); [done|]. by intros [= <-].
Qed.

(** The [try] statement of [get], case by case. *)
Lemma get_statement_eq (apiPath : string) (parameters : gmap string Scalar)
    (w : World) :
  get_statement host apiPath parameters w =
  let l := set_error None (loading (this w)) in
  match getAxios host l with
  | Rejected e => (Rejected e, {| this := loaded l; history := history w |})
  | Fulfilled axios =>
    let req := requestParameters l parameters in
    let h := history w ++ [AxiosGet apiPath req] in
    match axios_get axios (history w) apiPath req with
    | Fulfilled response =>
      (Fulfilled tt,
       {| this := loaded (get_receive response l); history := h |})
    | Rejected err =>
      if isAxiosConfigurationError err
      then (Rejected err, {| this := loaded l; history := h |})
      else (Fulfilled tt,
            {| this := loaded (set_error (stored_error l err) l);
               history := h ++ [ConsoleError err] |})
    end
  end.
Proof.
  unfold get_statement, try_finally, try_catch, get_try, bind.
  rewrite get_issue_eq. cbv zeta.
  destruct (getAxios host (set_error None (loading (this w))))
    as [axios|e] eqn:Hax.
  - unfold interact, update. cbn [this history].
    destruct (axios_get axios (history w) apiPath _) as [response|err];
      [reflexivity|].
    unfold get_catch.
    destruct (isAxiosConfigurationError err); [reflexivity|].
    reflexivity.
  - apply getAxios_rejected in Hax as ->.
    unfold get_catch. by rewrite axiosNotConfigured_is_configuration_error.
Qed.

Lemma get_eq (pathOrConfig : option PathOrConfig) (config : option GetConfig)
    (w : World) :
  get host pathOrConfig config w =
  match get_prelude host pathOrConfig config w with
  | (Fulfilled (apiPath, parameters), w1) =>
    get_statement host apiPath parameters w1
  | (Rejected e, w1) => (Rejected e, w1)
  end.
Proof.
  unfold get, bind.
  by destruct (get_prelude _ _ _ _) as [[[??]|?] ?].
Qed.

End Fetch.

(** *** What no method undoes *)

Lemma steady_refl (l : t) : steady l l.
Proof. by repeat split. Qed.

Lemma steady_trans (l1 l2 l3 : t) : steady l1 l2 → steady l2 l3 → steady l1 l3.
Proof.
  intros (?&?&?&?&?&?) (?&?&?&?&?&?).
  repeat split; [auto|congruence..].
Qed.

Lemma evolves_refl (w : World) : evolves w w.
Proof. split; [apply steady_refl|done]. Qed.

Lemma evolves_trans (w1 w2 w3 : World) :
  evolves w1 w2 → evolves w2 w3 → evolves w1 w3.
Proof.
  intros [? ?] [? ?]. split; [by eapply steady_trans|by etrans].
Qed.

Lemma steady_loading (l : t) : steady l (loading l).
Proof. unfold loading. by destruct (hasLoadedOnce l) eqn:?; repeat split. Qed.

Lemma steady_loaded (l : t) : steady l (loaded l).
Proof. by repeat split. Qed.

Lemma steady_get_receive (response : ResponseData) (l : t) :
  steady l (get_receive response l).
Proof. by repeat split. Qed.

Lemma steady_remove (id : Scalar) (key : string) (l : t) :
  steady l (remove id key l).
Proof. by repeat split. Qed.

Lemma steady_reset (l : t) : steady l (reset l).
Proof. by repeat split. Qed.

Lemma steady_writeFilter (l : t) (key stringValue : string) :
  steady l (writeFilter l key stringValue).
Proof.
  unfold writeFilter. destruct (bool_decide _); [by repeat split|].
  by destruct (filterAttributes l !! key) as [[]|]; repeat split.
Qed.

Lemma steady_writeDefault (l : t) (key : string) (defaultValue : Scalar) :
  steady l (writeDefault l key defaultValue).
Proof.
  unfold writeDefault. destruct (bool_decide _); [by repeat split|].
  by destruct (filterAttributes l !! key) as [[]|]; repeat split.
Qed.

Lemma steady_foldl {B} (f : t → B → t) (bs : list B) (l : t) :
  (∀ l b, steady l (f l b)) → steady l (foldl f l bs).
Proof.
  intros Hf. revert l. induction bs as [|b bs IH]; intros l; simpl.
  - apply steady_refl.
  - eapply steady_trans; [apply Hf|apply IH].
Qed.

Lemma steady_syncFromQuery (routeQuery : gmap string QueryValue) (l : t) :
  steady l (syncFromQuery routeQuery l).
Proof.
  unfold syncFromQuery. destruct (decide _); [apply steady_refl|].
  eapply steady_trans.
  - unfold syncFilters. apply (steady_foldl (syncFilter routeQuery)).
    intros l' k. unfold syncFilter.
    destruct (incoming routeQuery k);
      [apply steady_writeFilter|apply steady_refl].
  - unfold syncPage. destruct (truthy _); [|apply steady_refl].
    destruct (_ ≫= _); [|apply steady_refl].
    destruct (decide _); [by repeat split|apply steady_refl].
Qed.

Section Preserving.

Variable host : Host.

Lemma preserving_ret {A} (a : A) : preserving (ret a).
Proof. intros w. apply evolves_refl. Qed.

Lemma preserving_throw {A} (e : Thrown) : preserving (@throw A e).
Proof. intros w. apply evolves_refl. Qed.

Lemma preserving_lift {A} (r : Outcome A) : preserving (lift r).
Proof. intros w. apply evolves_refl. Qed.

Lemma preserving_read {A} (f : t → A) : preserving (read f).
Proof. intros w. apply evolves_refl. Qed.

Lemma preserving_update (f : t → t) :
  (∀ l, steady l (f l)) → preserving (update f).
Proof. intros Hf w. split; [apply Hf|done]. Qed.

Lemma preserving_emit (e : Event) : preserving (emit e).
Proof. intros w. split; [apply steady_refl|by apply prefix_app_r]. Qed.

Lemma preserving_interact {A} (answer : list Event → Outcome A) (e : Event) :
  preserving (interact answer e).
Proof. intros w. split; [apply steady_refl|by apply prefix_app_r]. Qed.

Lemma preserving_bind {A B} (m : M A) (k : A → M B) :
  preserving m → (∀ a, preserving (k a)) → preserving (bind m k).
Proof.
  intros Hm Hk w. unfold bind. specialize (Hm w).
  destruct (m w) as [[a|e] w']; [|done].
  eapply evolves_trans; [exact Hm|apply Hk].
Qed.

Lemma preserving_try_catch {A} (body : M A) (handler : Thrown → M A) :
  preserving body → (∀ e, preserving (handler e)) →
  preserving (try_catch body handler).
Proof.
  intros Hm Hk w. unfold try_catch. specialize (Hm w).
  destruct (body w) as [[a|e] w']; [done|].
  eapply evolves_trans; [exact Hm|apply Hk].
Qed.

Lemma preserving_try_finally {A} (body : M A) (final : t → t) :
  preserving body → (∀ l, steady l (final l)) →
  preserving (try_finally body final).
Proof.
  intros Hm Hf w. unfold try_finally. specialize (Hm w).
  destruct (body w) as [r w']. eapply evolves_trans; [exact Hm|].
  split; [apply Hf|done].
Qed.

Lemma preserving_with_world {A} (m : World → M A) :
  (∀ w, preserving (m w)) → preserving (λ w, m w w).
Proof. intros H w. apply H. Qed.

Lemma preserving_get_prelude pathOrConfig config :
  preserving (get_prelude host pathOrConfig config).
Proof.
  intros w. unfold get_prelude.
  destruct (resolveArguments _ _ _) as [[apiPath|] actualConfig];
    [|apply evolves_refl].
  destruct (normalizeParams _ _); [|apply evolves_refl].
  split; [apply steady_syncFromQuery|done].
Qed.

Lemma preserving_get_issue parameters :
  preserving (get_issue host parameters).
Proof.
  unfold get_issue.
  apply preserving_bind; [apply preserving_update, steady_loading|intros _].
  apply preserving_bind; [apply preserving_update; by repeat split|intros _].
  apply preserving_bind; [apply preserving_read|intros req].
  apply preserving_bind; [|intros axios; apply preserving_ret].
  apply (preserving_with_world (λ w, lift _)). intros ?.
  apply preserving_lift.
Qed.

Lemma preserving_get_statement apiPath parameters :
  preserving (get_statement host apiPath parameters).
Proof.
  apply preserving_try_finally; [|apply steady_loaded].
  apply preserving_try_catch.
  - unfold get_try.
    apply preserving_bind; [apply preserving_get_issue|intros [axios req]].
    apply preserving_bind; [apply preserving_interact|intros response].
    apply preserving_update, steady_get_receive.
  - intros e. unfold get_catch.
    destruct (isAxiosConfigurationError e); [apply preserving_throw|].
    apply preserving_bind; [|intros ?; apply preserving_emit].
    apply preserving_update. intros l. by repeat split.
Qed.

Lemma preserving_get pathOrConfig config :
  preserving (get host pathOrConfig config).
Proof.
  apply preserving_bind; [apply preserving_get_prelude|].
  intros [? ?]. apply preserving_get_statement.
Qed.

Lemma preserving_updateUrl : preserving updateUrl.
Proof.
  intros w. unfold updateUrl.
  destruct (routerInstance (this w)); [|apply evolves_refl].
  apply (preserving_try_catch _ _ (preserving_interact _ _)
                              (λ _, preserving_ret _)).
Qed.

Lemma preserving_goToPage page perPage autoLoad :
  preserving (goToPage host page perPage autoLoad).
Proof.
  unfold goToPage.
  apply preserving_bind; [apply preserving_update; by repeat split|intros _].
  apply preserving_bind;
    [apply preserving_update; intros l; by destruct perPage; repeat split
    |intros _].
  apply preserving_bind; [apply preserving_read|intros [|]].
  - apply preserving_bind; [apply preserving_updateUrl|intros _].
    apply preserving_get.
  - apply preserving_ret.
Qed.

Lemma preserving_delete pathOrConfig idOrConfig maybeConfig :
  preserving (delete host pathOrConfig idOrConfig maybeConfig).
Proof.
  unfold delete.
  apply preserving_bind;
    [apply (preserving_with_world (λ w, lift _)); intros ?;
     apply preserving_lift|intros d].
  apply preserving_try_catch.
  - unfold delete_try.
    apply preserving_bind;
      [apply (preserving_with_world (λ w, lift _)); intros ?;
       apply preserving_lift|intros axios].
    apply preserving_bind; [apply preserving_interact|intros _].
    apply preserving_bind;
      [destruct (d_onSuccess d); [apply preserving_emit|apply preserving_ret]
      |intros _].
    apply preserving_bind;
      [apply preserving_update, steady_remove|intros _].
    apply preserving_bind; [apply preserving_read|intros l].
    destruct (_ && _); [apply preserving_goToPage|].
    destruct (d_refresh d); [apply preserving_get|apply preserving_ret].
  - intros e. unfold delete_catch.
    destruct (d_onError d); [apply preserving_emit|apply preserving_throw].
Qed.

Lemma preserving_resetFilters : preserving (resetFilters host).
Proof.
  unfold resetFilters.
  apply preserving_bind; [apply preserving_update; by repeat split|intros _].
  apply preserving_try_finally; [|by repeat split].
  apply preserving_bind; [apply preserving_read|intros l].
  destruct (decide _); [apply preserving_goToPage|].
  apply preserving_bind;
    [apply preserving_update; intros l'; apply steady_foldl;
     intros ? [? ?]; apply steady_writeDefault|intros _].
  apply preserving_bind; [apply preserving_update; by repeat split|intros _].
  apply preserving_bind; [apply preserving_read|intros query].
  apply preserving_bind; [apply preserving_updateUrl|intros _].
  apply preserving_bind; [apply preserving_get|intros _].
  apply preserving_update. by repeat split.
Qed.

Lemma preserving_removeFilter filterKey :
  preserving (removeFilter host filterKey).
Proof.
  unfold removeFilter.
  apply preserving_bind; [apply preserving_read|intros l].
  destruct (filterDefaults l !! filterKey); [|apply preserving_ret].
  apply preserving_bind; [apply preserving_update; by repeat split|intros _].
  apply preserving_try_finally; [|by repeat split].
  apply preserving_bind;
    [apply preserving_update; intros ?; apply steady_writeDefault|intros _].
  apply preserving_bind; [apply preserving_update; by repeat split|intros _].
  apply preserving_bind; [apply preserving_read|intros query].
  apply preserving_bind; [apply preserving_updateUrl|intros _].
  apply preserving_get.
Qed.

Lemma preserving_applyFilters : preserving (applyFilters host).
Proof.
  unfold applyFilters.
  apply preserving_bind; [apply preserving_update; by repeat split|intros _].
  apply preserving_try_finally; [|by repeat split].
  apply preserving_bind; [apply preserving_goToPage|intros _].
  apply preserving_update. by repeat split.
Qed.

Lemma preserving_call (c : Call) : preserving (call host c).
Proof.
  destruct c; simpl.
  - apply preserving_update, steady_loading.
  - apply preserving_update, steady_loaded.
  - apply preserving_get.
  - apply preserving_get.
  - apply preserving_update, steady_remove.
  - apply preserving_delete.
  - apply preserving_update. by repeat split.
  - apply preserving_update. by repeat split.
  - apply preserving_goToPage.
  - apply preserving_resetFilters.
  - apply preserving_removeFilter.
  - apply preserving_applyFilters.
  - apply preserving_update, steady_reset.
Qed.

Lemma evolves_run (calls : list Call) (w : World) :
  evolves w (run host calls w).
Proof.
  unfold run. revert w. induction calls as [|c calls IH]; intros w; simpl.
  - apply evolves_refl.
  - eapply evolves_trans; [apply preserving_call|apply IH].
Qed.

End Preserving.

(** *** Fetch: endpoint, loading flags, errors *)

Section FetchProperties.

Variable host : Host.

Lemma syncFromQuery_differs (routeQuery : gmap string QueryValue) (l : t) :
  differs_in_filters_and_page l (syncFromQuery routeQuery l).
Proof.
  assert (Hrefl : ∀ l, differs_in_filters_and_page l l) by done.
  assert (Htrans : ∀ l1 l2 l3, differs_in_filters_and_page l1 l2 →
            differs_in_filters_and_page l2 l3 →
            differs_in_filters_and_page l1 l3).
  { unfold differs_in_filters_and_page. intros l1 l2 l3 H12 H23.
    rewrite H23 at 1. rewrite H12 at 1. reflexivity. }
  unfold syncFromQuery. destruct (decide _); [done|].
  apply (Htrans _ (syncFilters routeQuery l)).
  - unfold syncFilters. generalize (filterKeys l). intros keys. revert l.
    induction keys as [|k keys IH]; intros l; simpl; [done|].
    apply (Htrans _ (syncFilter routeQuery l k)); [|apply IH].
    unfold syncFilter.
    destruct (incoming routeQuery k); [|done]. unfold writeFilter.
    destruct (bool_decide _); [done|].
    by destruct (filterAttributes l !! k) as [[]|].
  - unfold syncPage. destruct (truthy _); [|done].
    destruct (_ ≫= _); [|done]. by destruct (decide _).
Qed.

(** The prelude either throws and leaves the world as it is, or changes
    at most the filters and the page. *)
Lemma get_prelude_eq pathOrConfig config (w : World) :
  get_prelude host pathOrConfig config w =
  let '(apiPath, actualConfig) :=
    resolveArguments (this w) pathOrConfig config in
  match apiPath with
  | None => (Rejected pathRequired, w)
  | Some apiPath =>
    match normalizeParams host (actualConfig ≫= params) with
    | Rejected e => (Rejected e, w)
    | Fulfilled parameters =>
      (Fulfilled (apiPath, parameters),
       {| this := syncFromQuery (routeQueryOf w actualConfig) (this w);
          history := history w |})
    end
  end.
Proof. reflexivity. Qed.

Lemma get_prelude_fulfilled pathOrConfig config w apiPath parameters w1 :
  get_prelude host pathOrConfig config w = (Fulfilled (apiPath, parameters), w1) →
  differs_in_filters_and_page (this w) (this w1) ∧ history w1 = history w.
Proof.
  rewrite get_prelude_eq.
  destruct (resolveArguments _ _ _) as [[p|] actualConfig]; [|done].
  destruct (normalizeParams _ _); [|done].
  intros [= <- <- <-]. split; [apply syncFromQuery_differs|done].
Qed.

Lemma get_prelude_rejected pathOrConfig config w e w1 :
  get_prelude host pathOrConfig config w = (Rejected e, w1) → w1 = w.
Proof.
  rewrite get_prelude_eq.
  destruct (resolveArguments _ _ _) as [[p|] actualConfig]; [|by intros [=]].
  destruct (normalizeParams _ _); [done|by intros [=]].
Qed.


Lemma get_issue_fulfilled parameters w1 axios req w2 :
  get_issue host parameters w1 = (Fulfilled (axios, req), w2) →
  getAxios host (set_error None (loading (this w1))) = Fulfilled axios
  ∧ req = requestParameters (set_error None (loading (this w1))) parameters
  ∧ w2 = {| this := set_error None (loading (this w1));
            history := history w1 |}.
Proof.
  rewrite get_issue_eq. cbv zeta.
  destruct (getAxios host _); [|done]. by intros [= <- <- <-].
Qed.

(** C2, as amended.  When the transport rejects the request of a fetch
    with anything but an [Error] whose message contains ["Axios instance
    not configured"], the fetch resolves; the stored [error] is the result
    of the configured error handler (the identity if there is none) on the
    default message: the permission message for status 403, otherwise the
    message of the response when it has a non-empty one, otherwise the
    generic message; and the error is logged. *)
Theorem get_transport_rejection pathOrConfig config w apiPath parameters w1
    axios req w2 err :
  get_prelude host pathOrConfig config w
    = (Fulfilled (apiPath, parameters), w1) →
  get_issue host parameters w1 = (Fulfilled (axios, req), w2) →
  axios_get axios (history w2) apiPath req = Rejected err →
  isAxiosConfigurationError err = false →
  let status := err_response err ≫= resp_status in
  let message := (err_response err ≫= resp_data) ≫= body_message in
  let default :=
    if decide (status = Some 403)
    then "You do not have permission to access this resource."
    else match message with
         | Some m =>
           if decide (m = "")
           then "Failed to load data. Please try again later." else m
         | None => "Failed to load data. Please try again later."
         end in
  ∃ w', get host pathOrConfig config w = (Fulfilled tt, w')
        ∧ error (this w') =
            match errorHandler (this w) with
            | Some handler => handler default status
            | None => Some default
            end
        ∧ history w' = history w ++ [AxiosGet apiPath req; ConsoleError err].
Proof.
  intros Hpre Hissue Hrej Hcfg status message default.
  rewrite get_eq, Hpre, get_statement_eq. cbv zeta.
  apply get_prelude_fulfilled in Hpre as [Hdiff Hhist].
  apply get_issue_fulfilled in Hissue as (Hax & -> & ->).
  rewrite Hax. cbn [history] in Hrej. rewrite Hrej, Hcfg.
  assert (He : errorHandler (set_error None (loading (this w1)))
               = errorHandler (this w)).
  { assert (He0 : errorHandler (this w1) = errorHandler (this w))
      by (by rewrite Hdiff).
    unfold loading. by destruct (hasLoadedOnce (this w1)). }
  eexists. split; [reflexivity|]. cbn [this history]. split.
  - unfold stored_error. rewrite He. reflexivity.
  - by rewrite Hhist, <- app_assoc.
Qed.

(** C5, as amended.  [hasLoadedOnce] never goes back to false, whatever
    the calls made; and a fetch leaves it true exactly when it was true
    before or the transport fulfilled the request of that fetch.  A fetch
    whose request is fulfilled resolves; any other fetch, whether it
    resolves or rejects, leaves the flag as it was. *)
Theorem hasLoadedOnce_set_by_fulfilled_fetch :
  (∀ calls w,
     implb (hasLoadedOnce (this w))
           (hasLoadedOnce (this (run host calls w))) = true)
  ∧ (∀ pathOrConfig config w,
       hasLoadedOnce (this (get host pathOrConfig config w).2)
       = hasLoadedOnce (this w) || fetch_succeeds host pathOrConfig config w)
  ∧ (∀ pathOrConfig config w,
       if fetch_succeeds host pathOrConfig config w
       then (get host pathOrConfig config w).1 = Fulfilled tt
       else hasLoadedOnce (this (get host pathOrConfig config w).2)
            = hasLoadedOnce (this w)).
Proof.
  assert (Hset : ∀ pathOrConfig config w,
            hasLoadedOnce (this (get host pathOrConfig config w).2)
            = hasLoadedOnce (this w)
              || fetch_succeeds host pathOrConfig config w).
  { intros pathOrConfig config w. unfold fetch_succeeds. rewrite get_eq.
    destruct (get_prelude host pathOrConfig config w)
      as [[[apiPath parameters]|e] w1] eqn:Hpre.
    + apply get_prelude_fulfilled in Hpre as [Hdiff _].
      assert (Hh : hasLoadedOnce (this w1) = hasLoadedOnce (this w))
        by (by rewrite Hdiff).
      rewrite get_statement_eq, get_issue_eq. cbv zeta. rewrite <- Hh.
      assert (Hl : ∀ e, hasLoadedOnce (loaded (set_error e
                          (set_error None (loading (this w1)))))
                        = hasLoadedOnce (this w1)).
      { intros e'. unfold loading. by destruct (hasLoadedOnce (this w1)) eqn:E. }
      destruct (getAxios host _) as [axios|]; cbn [snd history].
      * destruct (axios_get axios _ _ _) as [|err]; cbn [snd this].
        -- by rewrite orb_true_r.
        -- rewrite orb_false_r.
           destruct (isAxiosConfigurationError err); cbn [snd this].
           ++ apply (Hl None).
           ++ apply Hl.
      * rewrite orb_false_r. apply (Hl None).
    + apply get_prelude_rejected in Hpre as ->. by rewrite orb_false_r. }
  split; [|split; [exact Hset|]].
  - intros calls w. destruct (evolves_run host calls w) as [[Hmono _] _].
    destruct (hasLoadedOnce (this w)); [by rewrite Hmono|done].
  - intros pathOrConfig config w.
    destruct (fetch_succeeds host pathOrConfig config w) eqn:Hs.
    + unfold fetch_succeeds in Hs. rewrite get_eq.
      destruct (get_prelude host pathOrConfig config w)
        as [[[apiPath parameters]|e] w1]; [|done].
      rewrite get_statement_eq. rewrite get_issue_eq in Hs. cbv zeta in *.
      destruct (getAxios host _) as [axios|]; [|done].
      cbn [history] in Hs.
      by destruct (axios_get axios _ _ _) as [|err].
    + by rewrite Hset, Hs, orb_false_r.
Qed.

(** C7.  The acting endpoint of a fetch is the path argument when the
    first argument is a string, and the preconfigured endpoint when it is
    an options object or absent.  Without an acting endpoint the fetch
    throws the configuration error and changes nothing, [error] included;
    with one, and parameters that normalise, the one request of the fetch
    goes to that endpoint. *)
Theorem get_acting_endpoint pathOrConfig config w :
  let acting :=
    match pathOrConfig with
    | Some (APath path) => Some path
    | Some (AConfig _) => apiPath (this w)
    | None => apiPath (this w)
    end in
  let actualConfig :=
    match pathOrConfig with
    | Some (APath _) => config
    | Some (AConfig c) => Some c
    | None => None
    end in
  let result := get host pathOrConfig config w in
  match acting with
  | None => result = (Rejected pathRequired, w)
  | Some p =>
    if decide (p = "") then result = (Rejected pathRequired, w)
    else
      match normalizeParams host (actualConfig ≫= params) with
      | Rejected e => result = (Rejected e, w)
      | Fulfilled parameters =>
        match getAxios host (this w) with
        | Rejected e => result.1 = Rejected e ∧ history result.2 = history w
        | Fulfilled _ =>
          ∃ req rest,
            history result.2 = history w ++ AxiosGet p req :: rest
            ∧ ∀ url q, AxiosGet url q ∉ rest
        end
      end
  end.
Proof.
  intros acting actualConfig result. subst result.
  rewrite get_eq, get_prelude_eq. unfold resolveArguments.
  assert (Hres :
    match pathOrConfig with
    | Some (APath path) => (Some path, config)
    | Some (AConfig c) => (apiPath (this w), Some c)
    | None => (apiPath (this w), None)
    end = (acting, actualConfig)) by (by destruct pathOrConfig as [[]|]).
  rewrite Hres. clear Hres.
  destruct acting as [p|]; [|done].
  destruct (decide (p = "")); [done|].
  destruct (normalizeParams host _) as [parameters|]; [|done].
  rewrite get_statement_eq. cbv zeta. cbn [this history].
  set (l := set_error None (loading (syncFromQuery _ (this w)))).
  assert (Hax : getAxios host l = getAxios host (this w)).
  { apply getAxios_frame. subst l.
    destruct (steady_syncFromQuery (routeQueryOf w actualConfig) (this w))
      as (_ & _ & <- & _).
    unfold loading. by destruct (hasLoadedOnce _). }
  rewrite Hax. destruct (getAxios host (this w)) as [axios|]; [|done].
  destruct (axios_get axios _ _ _) as [|err].
  - exists (requestParameters l parameters), []. split; [done|].
    intros ?? ?%elem_of_nil. done.
  - destruct (isAxiosConfigurationError err).
    + exists (requestParameters l parameters), []. split; [done|].
      intros ?? ?%elem_of_nil. done.
    + exists (requestParameters l parameters), [ConsoleError err].
      split; [by rewrite <- app_assoc|].
      intros ?? [=]%list_elem_of_singleton.
Qed.

End FetchProperties.

(** C2 fails as stated: a transport that rejects with an [Error] whose
    message contains ["Axios instance not configured"] makes the fetch
    itself reject. *)
Lemma get_transport_rejection_rethrown :
  ¬ (∀ host pathOrConfig config w apiPath parameters w1 axios req w2 err,
       get_prelude host pathOrConfig config w
         = (Fulfilled (apiPath, parameters), w1) →
       get_issue host parameters w1 = (Fulfilled (axios, req), w2) →
       axios_get axios (history w2) apiPath req = Rejected err →
       ∃ w', get host pathOrConfig config w = (Fulfilled tt, w')).
Proof.
  intros H.
  pose (err := Error "Axios instance not configured").
  pose (w := fresh (axios (rejecting err) (path "/api/items" initial))).
  destruct (H plainHost None None w "/api/items" ∅ w (rejecting err)
              (requestParameters (set_error None (loading (this w))) ∅)
              {| this := set_error None (loading (this w)); history := [] |}
              err eq_refl eq_refl eq_refl) as [w' Hw'].
  vm_compute in Hw'. discriminate Hw'.
Qed.

(** C5 fails as stated: a first fetch whose request is rejected with
    status 500 resolves, without a configuration error, and leaves
    [hasLoadedOnce] false. *)
Lemma hasLoadedOnce_not_set_by_rejected_fetch :
  ¬ (∀ host pathOrConfig config w w',
       hasLoadedOnce (this w) = false →
       get host pathOrConfig config w = (Fulfilled tt, w') →
       hasLoadedOnce (this w') = true).
Proof.
  intros H.
  pose (w := fresh (axios (rejecting (httpError 500))
                          (path "/api/items" initial))).
  specialize (H plainHost None None w (get plainHost None None w).2
                eq_refl eq_refl).
  vm_compute in H. discriminate H.
Qed.


(** The first fetch of a controller with an endpoint and a transport:
    [isLoading] alone is true when the request is made, both flags are
    false at the end. *)
Example first_fetch_flags_test :
  isLoading (this (get_issue plainHost ∅ firstFetch).2) = true
  ∧ isUpdating (this (get_issue plainHost ∅ firstFetch).2) = false
  ∧ isLoading (this (get plainHost None None firstFetch).2) = false
  ∧ isUpdating (this (get plainHost None None firstFetch).2) = false.
Proof. vm_compute. by repeat split. Qed.

(** A fetch rejected with status 403 and no handler configured. *)
Lemma get_transport_rejection_witness :
  ∃ w', get plainHost None None
            (fresh (axios (rejecting (httpError 403))
                          (path "/api/items" initial)))
        = (Fulfilled tt, w')
        ∧ error (this w')
          = Some "You do not have permission to access this resource."
        ∧ history w' =
            [AxiosGet "/api/items"
                      {[ "page" := SNum 1; "per_page" := SNum 15 ]};
             ConsoleError (httpError 403)].
Proof.
  pose (w := fresh (axios (rejecting (httpError 403))
                          (path "/api/items" initial))).
  exact (get_transport_rejection plainHost None None w "/api/items" ∅ w
           (rejecting (httpError 403))
           {[ "page" := SNum 1; "per_page" := SNum 15 ]}
           {| this := set_error None (loading (this w)); history := [] |}
           (httpError 403) eq_refl eq_refl eq_refl eq_refl).
Defined.

(** *** Delete *)

Section DeleteProperties.

Variable host : Host.

Lemma delete_eq pathOrConfig idOrConfig maybeConfig (w : World) :
  delete host pathOrConfig idOrConfig maybeConfig w =
  match delete_arguments (this w) pathOrConfig idOrConfig maybeConfig with
  | Fulfilled d => try_catch (delete_try host d) (delete_catch d) w
  | Rejected e => (Rejected e, w)
  end.
Proof.
  unfold delete, bind, lift.
  by destruct (delete_arguments _ _ _ _).
Qed.

(** What follows the local removal in the body of the [try] (lines
    690-694). *)
Lemma delete_try_eq (d : DeleteLocals) (w : World) :
  delete_try host d w =
  match getAxios host (this w) with
  | Rejected e => (Rejected e, w)
  | Fulfilled axios =>
    let h := history w ++ [AxiosDelete (d_path d)] in
    match axios_delete axios (history w) (d_path d) with
    | Rejected e => (Rejected e, {| this := this w; history := h |})
    | Fulfilled _ =>
      let l := remove (d_id d) (d_key d) (this w) in
      let w1 :=
        {| this := l;
           history :=
             h ++ (if d_onSuccess d then [OnSuccess (d_id d)] else []) |} in
      (if bool_decide (data l = []) && bool_decide (1 < currentPage l)
       then goToPage host (currentPage l - 1) None None
       else if d_refresh d then get host None None else ret tt) w1
    end
  end.
Proof.
  unfold delete_try, bind, lift.
  destruct (getAxios host (this w)) as [axios|]; [|done].
  unfold interact. cbn [this history].
  destruct (axios_delete axios _ _); [|done].
  unfold update, read, emit, ret.
  destruct (d_onSuccess d); cbn [this history]; [done|].
  by rewrite app_nil_r.
Qed.

Lemma goToPage_eq (page : Z) (w : World) :
  goToPage host page None None w =
  let w' := {| this := set_currentPage page (this w); history := history w |} in
  if bool_decide (is_Some (apiPath (this w)))
     || bool_decide (is_Some (routerInstance (this w)))
  then (_ ← updateUrl;;; get host None None) w'
  else (Fulfilled tt, w').
Proof.
  unfold goToPage, bind at 1 2 3, update, read, shouldAutoLoad.
  cbn [this history negb andb].
  rewrite bool_decide_false by done. cbn [negb andb].
  by destruct (_ || _).
Qed.

(** C8.  When the transport rejects the delete request: with an [onError]
    callback, the callback is called with the error and the status of its
    response (if any), on the controller as it was, and the delete
    resolves; without one, the delete rejects with that same error. *)
Theorem delete_transport_rejection pathOrConfig idOrConfig maybeConfig w d
    axios err :
  delete_arguments (this w) pathOrConfig idOrConfig maybeConfig = Fulfilled d →
  getAxios host (this w) = Fulfilled axios →
  axios_delete axios (history w) (d_path d) = Rejected err →
  delete host pathOrConfig idOrConfig maybeConfig w =
  if d_onError d then
    (Fulfilled tt,
     {| this := this w;
        history := history w ++ [AxiosDelete (d_path d);
                                 OnError err (err_response err ≫= resp_status)] |})
  else
    (Rejected err,
     {| this := this w; history := history w ++ [AxiosDelete (d_path d)] |}).
Proof.
  intros Hargs Hax Hrej.
  rewrite delete_eq, Hargs. unfold try_catch.
  rewrite delete_try_eq, Hax. cbv zeta. rewrite Hrej.
  unfold delete_catch. destruct (d_onError d); [|done].
  unfold emit. cbn [this history]. by rewrite <- app_assoc.
Qed.

Lemma requestParameters_inflight (l : t) (parameters : gmap string Scalar) :
  requestParameters (set_error None (loading l)) parameters
  = requestParameters l parameters.
Proof. unfold loading. by destruct (hasLoadedOnce l). Qed.

(** A fetch without arguments on a controller with an endpoint and no
    router asks the transport, if there is one, for the current page. *)
Lemma get_configured_no_router (w : World) (p : string) axios :
  apiPath (this w) = Some p → p ≠ "" → routerInstance (this w) = None →
  getAxios host (this w) = Fulfilled axios →
  ∃ rest, history (get host None None w).2
          = history w ++ AxiosGet p (requestParameters (this w) ∅) :: rest.
Proof.
  intros Hp Hne Hr Hax.
  rewrite get_eq, get_prelude_eq. unfold resolveArguments. rewrite Hp.
  rewrite decide_False by done. cbn [normalizeParams mbind option_bind].
  unfold routeQueryOf. cbn [mbind option_bind]. rewrite Hr.
  unfold syncFromQuery. rewrite decide_True by done.
  rewrite get_statement_eq. cbv zeta. cbn [this history].
  rewrite requestParameters_inflight.
  assert (Hax' : getAxios host (set_error None (loading (this w)))
                 = Fulfilled axios).
  { rewrite <- Hax. apply getAxios_frame.
    unfold loading. by destruct (hasLoadedOnce _). }
  rewrite Hax'.
  destruct (axios_get axios _ _ _) as [|err]; [by exists []|].
  destruct (isAxiosConfigurationError err); [by exists []|].
  exists [ConsoleError err]. cbn [snd history]. by rewrite <- app_assoc.
Qed.

(** C3, as amended.  After the transport has accepted a delete:
    [onSuccess], if configured, is called next, before any fetch; the
    items whose [key] field equals the id are removed and [total] is
    decremented, not below 0; then, if no item is left and the page is
    above 1, the page becomes the previous one and, only if an endpoint or
    a router is configured, the URL is updated and [get()] runs; otherwise,
    if [refresh] is true, [get()] runs; an error of that run goes to the
    [catch] clause.  With a preconfigured endpoint and no router, that
    [get()] requests the page the controller is then on. *)
Theorem delete_success pathOrConfig idOrConfig maybeConfig w d axios :
  delete_arguments (this w) pathOrConfig idOrConfig maybeConfig = Fulfilled d →
  getAxios host (this w) = Fulfilled axios →
  axios_delete axios (history w) (d_path d) = Fulfilled tt →
  let l := this w in
  let removed :=
    set_total (Z.max 0 (total l - 1))
      (set_data (filter (λ item, default SUndefined (item !! d_key d) ≠ d_id d)
                        (data l)) l) in
  let w1 :=
    {| this := removed;
       history := history w ++ AxiosDelete (d_path d)
                    :: (if d_onSuccess d then [OnSuccess (d_id d)] else []) |} in
  let configured :=
    bool_decide (is_Some (apiPath l))
    || bool_decide (is_Some (routerInstance l)) in
  let result := delete host pathOrConfig idOrConfig maybeConfig w in
  result =
    try_catch
      (if decide (data removed = [] ∧ 1 < currentPage l) then
         _ ← update (set_currentPage (currentPage l - 1));;;
         if configured then _ ← updateUrl;;; get host None None else ret tt
       else if d_refresh d then get host None None
       else ret tt)
      (delete_catch d) w1
  ∧ history w1 `prefix_of` history result.2
  ∧ (∀ p, apiPath l = Some p → p ≠ "" → routerInstance l = None →
       if decide (data removed = [] ∧ 1 < currentPage l) then
         ∃ rest, history result.2 =
                 history w1
                 ++ AxiosGet p (requestParameters
                                  (set_currentPage (currentPage l - 1) removed)
                                  ∅) :: rest
       else if d_refresh d then
         ∃ rest, history result.2 =
                 history w1 ++ AxiosGet p (requestParameters removed ∅) :: rest
       else result = (Fulfilled tt, w1)).
Proof.
  intros Hargs Hax Hdel l removed w1 configured result.
  set (continuation :=
    if decide (data removed = [] ∧ 1 < currentPage l) then
      _ ← update (set_currentPage (currentPage l - 1));;;
      if configured then _ ← updateUrl;;; get host None None else ret tt
    else if d_refresh d then get host None None
    else ret tt).
  assert (Hresult : result = try_catch continuation (delete_catch d) w1).
  { subst result continuation. rewrite delete_eq, Hargs. unfold try_catch.
    rewrite delete_try_eq, Hax. cbv zeta. rewrite Hdel.
    change (remove (d_id d) (d_key d) (this w)) with removed.
    rewrite <- app_assoc.
    change ([AxiosDelete (d_path d)] ++ ?x) with (AxiosDelete (d_path d) :: x).
    fold w1.
    destruct (decide (data removed = [] ∧ 1 < currentPage l)) as [[Hd Hp]|Hn].
    - rewrite (bool_decide_true _ Hd).
      rewrite (bool_decide_true (1 < currentPage removed)) by exact Hp.
      cbn [andb]. rewrite goToPage_eq. cbv zeta.
      unfold bind at 2, update. cbn [this history].
      change (bool_decide (is_Some (apiPath (this w1)))
              || bool_decide (is_Some (routerInstance (this w1))))
        with configured.
      by destruct configured.
    - replace (bool_decide (data removed = [])
               && bool_decide (1 < currentPage removed)) with false; [done|].
      symmetry. apply andb_false_iff.
      destruct (decide (data removed = [])); [right|left];
        apply bool_decide_false; [|done]. intros ?. by apply Hn. }
  split; [exact Hresult|].
  assert (Hcatch : ∀ e w0, delete_catch d e w0 =
            if d_onError d
            then (Fulfilled tt,
                  {| this := this w0;
                     history := history w0
                                ++ [OnError e (statusCodeOf e)] |})
            else (Rejected e, w0)).
  { intros e w0. unfold delete_catch. by destruct (d_onError d). }
  split.
  - rewrite Hresult.
    assert (Hpres : preserving (try_catch continuation (delete_catch d))).
    { apply preserving_try_catch.
      - subst continuation. destruct (decide _).
        + apply preserving_bind;
            [apply preserving_update; by repeat split|intros _].
          destruct configured; [|apply preserving_ret].
          apply preserving_bind; [apply preserving_updateUrl|intros _].
          apply preserving_get.
        + destruct (d_refresh d); [apply preserving_get|apply preserving_ret].
      - intros e. unfold delete_catch.
        destruct (d_onError d); [apply preserving_emit|apply preserving_throw]. }
    apply Hpres.
  - intros p Hp Hne Hr. rewrite Hresult. subst continuation.
    assert (Hget : ∀ l0 h0,
              apiPath l0 = Some p → routerInstance l0 = None →
              axiosInstance l0 = axiosInstance l →
              ∃ rest,
                history (try_catch (get host None None) (delete_catch d)
                           {| this := l0; history := h0 |}).2
                = h0 ++ AxiosGet p (requestParameters l0 ∅) :: rest).
    { intros l0 h0 Hp0 Hr0 Ha0.
      destruct (get_configured_no_router {| this := l0; history := h0 |}
                  p axios Hp0 Hne Hr0) as [rest Hrest].
      { rewrite <- Hax. by apply getAxios_frame. }
      unfold try_catch.
      destruct (get host None None _) as [[[]|e] w'];
        cbn [snd history] in Hrest |- *; [by exists rest|].
      rewrite Hcatch. destruct (d_onError d); cbn [snd history].
      - exists (rest ++ [OnError e (statusCodeOf e)]).
        rewrite Hrest. by rewrite <- app_assoc.
      - by exists rest. }
    destruct (decide _).
    + assert (Hc : configured = true).
      { subst configured. rewrite Hp. by rewrite bool_decide_true by eauto. }
      rewrite Hc.
      assert (Hurl : ∀ w0, routerInstance (this w0) = None →
                updateUrl w0 = (Fulfilled tt, w0)).
      { intros w0 Hw0. unfold updateUrl. by rewrite Hw0. }
      unfold try_catch at 1, bind at 1 2, update. cbn [this history].
      rewrite Hurl by exact Hr.
      apply (Hget (set_currentPage (currentPage l - 1) removed)
                  (history w1)); done.
    + destruct (d_refresh d); [|done].
      apply (Hget removed (history w1)); done.
Qed.

End DeleteProperties.

(** C8 on the transport of the test suite: status 500, with an
    [onError] callback. *)
Lemma delete_transport_rejection_witness :
  delete plainHost (DPath "/api/test/1") (Some (IId (SNum 1)))
    (Some {| key := None; refresh := None; onSuccess := false;
             onError := true |})
    (fresh (holding [itemWithId 1] 1 1
              (axios (rejecting (httpError 500)) (path "/api/test" initial))))
  = (Fulfilled tt,
     {| this := holding [itemWithId 1] 1 1
                  (axios (rejecting (httpError 500))
                         (path "/api/test" initial));
        history := [AxiosDelete "/api/test/1";
                    OnError (httpError 500) (Some 500)] |}).
Proof.
  exact (delete_transport_rejection plainHost
           (DPath "/api/test/1") (Some (IId (SNum 1)))
           (Some {| key := None; refresh := None; onSuccess := false;
                    onError := true |})
           (fresh (holding [itemWithId 1] 1 1
                     (axios (rejecting (httpError 500))
                            (path "/api/test" initial))))
           {| d_path := "/api/test/1"; d_id := SNum 1; d_key := "id";
              d_refresh := true; d_onSuccess := false; d_onError := true |}
           (rejecting (httpError 500)) (httpError 500)
           eq_refl eq_refl eq_refl).
Defined.

(** C3 fails as stated: with a path argument, no preconfigured endpoint
    and no router, deleting the only item of page 2 moves to page 1 and
    fetches nothing. *)
Lemma delete_last_item_without_endpoint_fetches_nothing :
  ¬ (∀ host pathOrConfig idOrConfig maybeConfig w d axios,
       delete_arguments (this w) pathOrConfig idOrConfig maybeConfig
         = Fulfilled d →
       getAxios host (this w) = Fulfilled axios →
       axios_delete axios (history w) (d_path d) = Fulfilled tt →
       data (remove (d_id d) (d_key d) (this w)) = [] →
       1 < currentPage (this w) →
       ∃ url req,
         AxiosGet url req
         ∈ history (delete host pathOrConfig idOrConfig maybeConfig w).2).
Proof.
  intros H.
  pose (w := fresh (holding [itemWithId 3] 3 2
                      (axios (serving emptyResponse) initial))).
  destruct (H plainHost (DPath "/api/test/3") (Some (IId (SNum 3))) None w
              {| d_path := "/api/test/3"; d_id := SNum 3; d_key := "id";
                 d_refresh := true; d_onSuccess := false;
                 d_onError := false |}
              (serving emptyResponse) eq_refl eq_refl eq_refl eq_refl eq_refl)
    as (url & req & Hin).
  vm_compute in Hin. apply list_elem_of_singleton in Hin. discriminate Hin.
Qed.

(** C3 on the test suite's last item of page 2, with an endpoint. *)
Lemma delete_success_witness :
  ∃ rest,
    history (delete plainHost (DPath "/api/test/3") (Some (IId (SNum 3))) None
               (fresh (holding [itemWithId 3] 3 2
                         (axios (serving emptyResponse)
                                (path "/api/test" initial))))).2
    = [AxiosDelete "/api/test/3"]
      ++ AxiosGet "/api/test" {[ "page" := SNum 1; "per_page" := SNum 15 ]}
         :: rest.
Proof.
  exact (proj2 (proj2
           (delete_success plainHost
              (DPath "/api/test/3") (Some (IId (SNum 3))) None
              (fresh (holding [itemWithId 3] 3 2
                        (axios (serving emptyResponse)
                               (path "/api/test" initial))))
              {| d_path := "/api/test/3"; d_id := SNum 3; d_key := "id";
                 d_refresh := true; d_onSuccess := false;
                 d_onError := false |}
              (serving emptyResponse) eq_refl eq_refl eq_refl))
           "/api/test" eq_refl (λ H, eq_ind "/api/test"
                                 (λ s, match s with
                                       | EmptyString => False
                                       | String _ _ => True
                                       end) I "" H)
           eq_refl).
Defined.

(** *** Query synchronisation *)

Lemma writeFilter_filters (l : t) (k s j : string) :
  filters (writeFilter l k s) !! j =
  if decide (j = k)
  then filterSlot (Some s) (filters l !! k) (filterAttributes l !! k)
  else filters l !! j.
Proof.
  unfold writeFilter, filterSlot.
  destruct (filters l !! k) as [old|] eqn:Hf.
  - rewrite bool_decide_true by eauto. cbn [filters set_filters].
    destruct (decide (j = k)) as [->|?];
      [by rewrite lookup_insert_eq|by rewrite lookup_insert_ne].
  - rewrite bool_decide_false by (by intros [? ?]).
    destruct (filterAttributes l !! k) as [[| |]|];
      cbn [filters set_filters set_filterAttributes];
      destruct (decide (j = k)) as [->|?];
      rewrite ?lookup_insert_eq, ?lookup_insert_ne by done; done.
Qed.

Lemma writeFilter_filterAttributes (l : t) (k s j : string) :
  filterAttributes (writeFilter l k s) !! j =
  if decide (j = k)
  then attributeSlot (Some s) (filters l !! k) (filterAttributes l !! k)
  else filterAttributes l !! j.
Proof.
  unfold writeFilter, attributeSlot.
  destruct (filters l !! k) as [old|] eqn:Hf.
  - rewrite bool_decide_true by eauto.
    cbn [filterAttributes set_filters].
    by destruct (decide (j = k)) as [->|?].
  - rewrite bool_decide_false by (by intros [? ?]).
    destruct (filterAttributes l !! k) as [[| |]|] eqn:Ha;
      cbn [filterAttributes set_filters set_filterAttributes];
      destruct (decide (j = k)) as [->|?];
      rewrite ?lookup_insert_eq, ?lookup_insert_ne by done; done.
Qed.

Lemma syncFilter_slots (q : gmap string QueryValue) (l : t) (k j : string) :
  filters (syncFilter q l k) !! j =
    (if decide (j = k)
     then filterSlot (incoming q k) (filters l !! k) (filterAttributes l !! k)
     else filters l !! j)
  ∧ filterAttributes (syncFilter q l k) !! j =
    (if decide (j = k)
     then attributeSlot (incoming q k) (filters l !! k)
                        (filterAttributes l !! k)
     else filterAttributes l !! j).
Proof.
  unfold syncFilter. destruct (incoming q k) as [s|].
  - by rewrite writeFilter_filters, writeFilter_filterAttributes.
  - unfold filterSlot, attributeSlot.
    by destruct (decide (j = k)) as [->|?].
Qed.

Lemma syncFilter_foldl_slots (q : gmap string QueryValue) (keys : list string)
    (l : t) (j : string) :
  NoDup keys →
  filters (foldl (syncFilter q) l keys) !! j =
    (if decide (j ∈ keys)
     then filterSlot (incoming q j) (filters l !! j) (filterAttributes l !! j)
     else filters l !! j)
  ∧ filterAttributes (foldl (syncFilter q) l keys) !! j =
    (if decide (j ∈ keys)
     then attributeSlot (incoming q j) (filters l !! j)
                        (filterAttributes l !! j)
     else filterAttributes l !! j).
Proof.
  intros Hnd. revert l.
  induction Hnd as [|k keys Hk Hnd IH]; intros l; cbn [foldl].
  - rewrite !decide_False by apply not_elem_of_nil. done.
  - destruct (IH (syncFilter q l k)) as [-> ->].
    destruct (syncFilter_slots q l k j) as [-> ->].
    destruct (decide (j = k)) as [->|Hne].
    + destruct (decide (k ∈ keys)) as [?|_]; [done|].
      destruct (decide (k ∈ k :: keys)) as [_|Hn]; [done|].
      destruct Hn. left.
    + destruct (decide (j ∈ keys)) as [Hin|Hnin].
      * destruct (decide (j ∈ k :: keys)) as [_|Hn]; [done|].
        destruct Hn. by right.
      * destruct (decide (j ∈ k :: keys)) as [[?|?]%elem_of_cons|_]; done.
Qed.

Lemma elem_of_keys {A} (m : gmap string A) (j : string) :
  j ∈ (map_to_list m).*1 ↔ is_Some (m !! j).
Proof.
  rewrite list_elem_of_fmap. split.
  - intros ([i x] & -> & Hin). apply elem_of_map_to_list in Hin. eauto.
  - intros [x Hx]. exists (j, x). by rewrite elem_of_map_to_list.
Qed.

Lemma status_rule (key sv : string) :
  (if decide (key = "status" ∧ sv ≠ "verified" ∧ sv ≠ "unverified")
   then None else Some sv)
  = (if bool_decide (key = "status")
        && negb (bool_decide (sv ∈ ["verified"; "unverified"]))
     then None else Some sv).
Proof.
  destruct (decide (key = "status" ∧ _)) as [(Hk & H1 & H2)|Hn].
  - rewrite bool_decide_true by done. rewrite bool_decide_false; [done|].
    rewrite !elem_of_cons, elem_of_nil. tauto.
  - destruct (bool_decide (key = "status")) eqn:Hk; [|done].
    apply bool_decide_eq_true in Hk. rewrite bool_decide_true; [done|].
    rewrite !elem_of_cons.
    destruct (decide (sv = "verified")); [auto|].
    destruct (decide (sv = "unverified")); [auto|].
    exfalso. apply Hn. done.
Qed.

Lemma syncFromQuery_slots (routeQuery : gmap string QueryValue) (l : t)
    (key : string) :
  filters (syncFromQuery routeQuery l) !! key =
    match incoming routeQuery key, filters l !! key,
          filterAttributes l !! key with
    | Some s, Some _, _ => Some (SStr s)
    | Some s, None, Some FBinding =>
      if decide (filters l = ∅) then Some (SStr s) else None
    | _, old, _ => old
    end
  ∧ filterAttributes (syncFromQuery routeQuery l) !! key =
    match incoming routeQuery key, filters l !! key,
          filterAttributes l !! key with
    | Some s, None, Some (FRef old) =>
      if decide (filters l = ∅) then Some (FRef (SStr s)) else Some (FRef old)
    | _, _, old => old
    end.
Proof.
  assert (Hpage : ∀ l0, filters (syncPage routeQuery l0) = filters l0
                        ∧ filterAttributes (syncPage routeQuery l0)
                          = filterAttributes l0).
  { intros l0. unfold syncPage. destruct (truthy _); [|done].
    destruct (_ ≫= _); [|done]. by destruct (decide _). }
  unfold syncFromQuery. destruct (decide (routeQuery = ∅)) as [->|Hq].
  { unfold incoming. rewrite lookup_empty.
    by destruct (filters l !! key), (filterAttributes l !! key) as [[]|]. }
  destruct (Hpage (syncFilters routeQuery l)) as [-> ->].
  unfold syncFilters, filterKeys.
  destruct (decide (filters l = ∅)) as [He|Hne].
  - destruct (syncFilter_foldl_slots routeQuery
                (map_to_list (filterAttributes l)).*1 l key
                (NoDup_fst_map_to_list _)) as [-> ->].
    rewrite He, lookup_empty. unfold filterSlot, attributeSlot.
    destruct (decide (key ∈ _)) as [Hin|Hnin].
    + by destruct (incoming routeQuery key),
                  (filterAttributes l !! key) as [[]|].
    + rewrite elem_of_keys in Hnin.
      destruct (filterAttributes l !! key) as [a|] eqn:Ha;
        [by destruct Hnin; eauto|].
      by destruct (incoming routeQuery key).
  - destruct (syncFilter_foldl_slots routeQuery
                (map_to_list (filters l)).*1 l key
                (NoDup_fst_map_to_list _)) as [-> ->].
    unfold filterSlot, attributeSlot.
    destruct (decide (key ∈ _)) as [Hin|Hnin].
    + rewrite elem_of_keys in Hin. destruct Hin as [old ->].
      by destruct (incoming routeQuery key),
                  (filterAttributes l !! key) as [[]|].
    + rewrite elem_of_keys in Hnin.
      destruct (filters l !! key) as [a|] eqn:Ha;
        [by destruct Hnin; eauto|].
      by destruct (incoming routeQuery key),
                  (filterAttributes l !! key) as [[]|].
Qed.

Section QuerySync.

Variable host : Host.

Lemma get_statement_filters apiPath parameters (w : World) :
  filters (this (get_statement host apiPath parameters w).2) = filters (this w)
  ∧ filterAttributes (this (get_statement host apiPath parameters w).2)
    = filterAttributes (this w).
Proof.
  rewrite get_statement_eq. cbv zeta.
  assert (Hl : filters (loading (this w)) = filters (this w)
               ∧ filterAttributes (loading (this w))
                 = filterAttributes (this w)).
  { unfold loading. by destruct (hasLoadedOnce (this w)). }
  destruct Hl as [Hf Ha].
  destruct (getAxios host _) as [axios|]; [|done].
  destruct (axios_get axios _ _ _) as [|err]; [done|].
  by destruct (isAxiosConfigurationError err).
Qed.

(** C6, as amended.  What the query synchronisation of a fetch leaves in
    the filter stores, key by key.  The query is the [query] option of the
    acting config (the first argument if it is an object, the second one
    after a path) if there is one, else the current query of the router,
    else empty.  For the key [status] a value of the query is written only
    if its string form is exactly ["verified"] or ["unverified"]; for
    every other key the string form of any value that is not [null] or
    [undefined] is written, the first element standing for an array.  A
    value that is not written leaves both stores as they were at that key;
    a written value replaces the entry of a key of the canonical [filters]
    map or, when that map is empty, the content of the legacy cell or
    binding of the key.  A legacy filter that is a plain value, not a
    ref-like object, is never written. *)
Theorem get_syncs_filters_from_query pathOrConfig config w apiPath parameters
    w1 :
  get_prelude host pathOrConfig config w
    = (Fulfilled (apiPath, parameters), w1) →
  let actualConfig :=
    match pathOrConfig with
    | Some (APath _) => config
    | Some (AConfig c) => Some c
    | None => None
    end in
  let routeQuery :=
    match actualConfig ≫= query with
    | Some q => q
    | None =>
      match routerInstance (this w) with
      | Some router => default ∅ (currentRoute_query router (history w))
      | None => ∅
      end
    end in
  let stringValue (v : QueryValue) :=
    match v with
    | QArray elements => String_of (default SUndefined (head elements))
    | QValue v => String_of v
    end in
  let written (key : string) : option string :=
    match routeQuery !! key with
    | None | Some (QValue SUndefined) | Some (QValue SNull) => None
    | Some v =>
      if decide (key = "status"
                 ∧ stringValue v ≠ "verified" ∧ stringValue v ≠ "unverified")
      then None else Some (stringValue v)
    end in
  let l := this w in
  let l' := this (get host pathOrConfig config w).2 in
  ∀ key,
    filters l' !! key =
      match written key, filters l !! key, filterAttributes l !! key with
      | Some s, Some _, _ => Some (SStr s)
      | Some s, None, Some FBinding =>
        if decide (filters l = ∅) then Some (SStr s) else None
      | _, old, _ => old
      end
    ∧ filterAttributes l' !! key =
      match written key, filters l !! key, filterAttributes l !! key with
      | Some s, None, Some (FRef old) =>
        if decide (filters l = ∅) then Some (FRef (SStr s))
        else Some (FRef old)
      | _, _, old => old
      end.
Proof.
  intros Hpre actualConfig routeQuery stringValue written l l' key.
  assert (Hw : written key = incoming routeQuery key).
  { subst written stringValue. unfold incoming, stringValueOf. cbv beta zeta.
    destruct (routeQuery !! key) as [[[| |s|n]|elements]|];
      try done; apply status_rule. }
  rewrite Hw. clear Hw. subst l'. rewrite get_eq, Hpre.
  destruct (get_statement_filters apiPath parameters w1) as [-> ->].
  rewrite get_prelude_eq in Hpre. unfold resolveArguments in Hpre.
  assert (Hres :
    match pathOrConfig with
    | Some (APath path) => (Some path, config)
    | Some (AConfig c) => (Listing.apiPath (this w), Some c)
    | None => (Listing.apiPath (this w), None)
    end = (match pathOrConfig with
           | Some (APath path) => Some path
           | _ => Listing.apiPath (this w)
           end, actualConfig)) by (by destruct pathOrConfig as [[]|]).
  rewrite Hres in Hpre. clear Hres.
  destruct (match pathOrConfig with
            | Some (APath path) => Some path
            | _ => Listing.apiPath (this w)
            end) as [p|]; [|done].
  destruct (decide (p = "")); [done|].
  destruct (normalizeParams host _); [|done].
  injection Hpre as _ _ <-. cbn [this].
  apply syncFromQuery_slots.
Qed.

End QuerySync.

(** C6 on the scenario of the documentation: the filter [status] keeps
    its value when the query says ["bogus"], and [search] takes the value
    of the query. *)
Lemma get_syncs_filters_from_query_witness :
  filters (this (get plainHost (Some (AConfig statusQuery)) None
                     statusWorld).2) !! "status"
  = Some (SStr "all")
  ∧ filters (this (get plainHost (Some (AConfig statusQuery)) None
                       statusWorld).2) !! "search"
    = Some (SStr "abc").
Proof.
  assert (Hpre : get_prelude plainHost (Some (AConfig statusQuery)) None
                   statusWorld
                 = (Fulfilled ("/api/items", ∅),
                    {| this := set_filters {[ "status" := SStr "all";
                                              "search" := SStr "abc" ]}
                                 (this statusWorld);
                       history := [] |})) by (vm_compute; reflexivity).
  pose proof (get_syncs_filters_from_query plainHost _ _ _ _ _ _ Hpre) as H.
  split.
  - exact (eq_trans (proj1 (H "status")) ltac:(vm_compute; reflexivity)).
  - exact (eq_trans (proj1 (H "search")) ltac:(vm_compute; reflexivity)).
Defined.

(** C6 fails as stated: a legacy filter [search] that is a plain value
    keeps that value whatever the query says for it. *)
Lemma get_sync_skips_plain_attribute :
  ¬ (∀ host w key value,
       key ≠ "status" →
       is_Some (extracted (this w) key) →
       extracted
         (this (get host
                    (Some (AConfig
                       {| params := None;
                          query := Some {[ key := QValue (SStr value) ]} |}))
                    None w).2) key
       = Some (SStr value)).
Proof.
  intros H.
  assert (Hkey : "search" ≠ "status") by discriminate.
  assert (Hset : is_Some (extracted (this plainSearchWorld) "search"))
    by (vm_compute; eauto).
  specialize (H plainHost plainSearchWorld "search" "other" Hkey Hset).
  vm_compute in H. discriminate H.
Qed.

(** *** Query strings *)

Lemma append_cons (a : ascii) (s1 s2 : string) :
  String a s1 +:+ s2 = String a (s1 +:+ s2).
Proof. reflexivity. Qed.

Lemma splitOn_cons (sep : ascii) (s : string) :
  ∃ piece pieces, Js.splitOn sep s = piece :: pieces.
Proof.
  induction s as [|a s (piece & pieces & IH)]; cbn [Js.splitOn]; [eauto|].
  destruct (decide (a = sep)); [eauto|]. rewrite IH. eauto.
Qed.

(** The pieces of two strings joined by the separator. *)
Lemma splitOn_append (sep : ascii) (s t : string) :
  Js.splitOn sep (s +:+ String sep t) = Js.splitOn sep s ++ Js.splitOn sep t.
Proof.
  induction s as [|a s IH].
  - change (Js.splitOn sep (String sep t) = [""] ++ Js.splitOn sep t).
    cbn [Js.splitOn]. by rewrite decide_True by done.
  - rewrite append_cons. cbn [Js.splitOn].
    destruct (decide (a = sep)); [by rewrite IH|].
    rewrite IH. by destruct (splitOn_cons sep s) as (piece & pieces & ->).
Qed.

Lemma parseUrlencoded_append (s t : string) :
  Js.parseUrlencoded (s +:+ String "&" t)
  = Js.parseUrlencoded s ++ Js.parseUrlencoded t.
Proof.
  unfold Js.parseUrlencoded. by rewrite splitOn_append, omap_app.
Qed.

Section QueryStrings.

Variable host : Host.

Lemma normalizeParams_query_string (s : string) :
  normalizeParams host (Some (PString (String "?" s)))
  = Fulfilled (coerceEntries host (Js.URLSearchParams s)).
Proof.
  unfold normalizeParams. rewrite decide_False by done.
  assert (Hq : Js.startsWith "?" (String "?" s) = true).
  { unfold Js.startsWith. cbn [String.prefix].
    destruct (ascii_dec "?" "?"); [by destruct s|done]. }
  by rewrite Hq.
Qed.

End QueryStrings.

(** **** The decimal form of an integer, read back *)

Lemma bare_head (a : ascii) :
  bool_decide (is_Some (Js.digit a)) || bool_decide (a = "-"%char) = true →
  Js.ws1 a = false ∧ (∀ b, Js.ws2 a b = false) ∧ (∀ b c, Js.ws3 a b c = false).
Proof.
  destruct a as [[] [] [] [] [] [] [] []]; intros H;
    try (vm_compute in H; discriminate H); repeat split.
Qed.

Lemma trimStart_bare (s : string) : bare s = true → Js.trimStart s = s.
Proof.
  destruct s as [|a s]; [done|]. cbn [bare Js.trimStart].
  intros [Ha _]%andb_true_iff. destruct (bare_head a Ha) as (-> & H2 & H3).
  destruct s as [|b s]; [done|]. rewrite H2.
  destruct s as [|c s]; [done|]. by rewrite H3.
Qed.

Lemma digit_pretty_N_char (d : N) :
  (d < 10)%N → Js.digit (pretty_N_char d) = Some (Z.of_N d).
Proof.
  intros Hd.
  assert (d ∈ [0; 1; 2; 3; 4; 5; 6; 7; 8; 9]%N) as Hin.
  { rewrite !elem_of_cons. lia. }
  rewrite !elem_of_cons, elem_of_nil in Hin.
  destruct Hin as [->|[->|[->|[->|[->|[->|[->|[->|[->|[->|[]]]]]]]]]]];
    reflexivity.
Qed.

Lemma pretty_N_go_digits (x : N) (s : string) :
  Js.allDigits (pretty_N_go x s) 0 = Js.allDigits s (Z.of_N x)
  ∧ bare (pretty_N_go x s) = bare s.
Proof.
  revert s. induction (N.lt_wf_0 x) as [x _ IH]. intros s.
  destruct (decide (x = 0%N)) as [->|Hx]; [by rewrite pretty_N_go_0|].
  rewrite pretty_N_go_step by lia.
  assert (Hlt : (x `div` 10 < x)%N) by (apply N.div_lt; lia).
  destruct (IH _ Hlt (String (pretty_N_char (x `mod` 10)) s)) as [-> ->].
  assert (Hd : (x `mod` 10 < 10)%N) by (apply N.mod_lt; lia).
  cbn [Js.allDigits bare]. rewrite (digit_pretty_N_char _ Hd).
  rewrite bool_decide_true by eauto. cbn [orb andb]. split; [|done].
  f_equal. rewrite (N.div_mod x 10) at 3 by lia. lia.
Qed.

(** *** Some runs of the test suite *)

(** [params: '?search=test&limit=10'] gives [search: 'test'] and
    [limit: 10]. *)
Example normalizeParams_query_string_test :
  normalizeParams plainHost (Some (PString "?search=test&limit=10"))
  = Fulfilled {[ "search" := SStr "test"; "limit" := SNum 10 ]}.
Proof. vm_compute. reflexivity. Qed.

(** A rejection with a plain [Error] and no handler stores the generic
    message, and the flags are cleared. *)
Example load_network_error_test :
  let w := (load plainHost None None None
              (fresh (axios (rejecting (Error "Network error"))
                            (path "/api/test" initial)))).2 in
  error (this w) = Some "Failed to load data. Please try again later."
  ∧ isLoading (this w) = false ∧ isUpdating (this w) = false.
Proof. vm_compute. by repeat split. Qed.

(** Deleting one of two items with a path and an id removes it, asks the
    transport to delete, then refetches from the configured endpoint. *)
Example delete_and_refresh_test :
  history (delete plainHost (DPath "/api/test/1") (Some (IId (SNum 1))) None
             (fresh (holding [itemWithId 1; itemWithId 2] 2 1
                       (axios (serving emptyResponse)
                              (path "/api/test" initial))))).2
  = [AxiosDelete "/api/test/1";
     AxiosGet "/api/test" {[ "page" := SNum 1; "per_page" := SNum 15 ]}].
Proof. vm_compute. reflexivity. Qed.

(** White space of more than one byte is trimmed too: a no-break space
    (C2 A0) before and an ideographic space (E3 80 80) after. *)
Example trim_wide_space :
  Js.trim (String (Ascii.ascii_of_N 194) (String (Ascii.ascii_of_N 160) "ab")
           +:+ String (Ascii.ascii_of_N 227)
                 (String (Ascii.ascii_of_N 128)
                    (String (Ascii.ascii_of_N 128) " ")))
  = "ab".
Proof. reflexivity. Qed.

(** *** [reset] *)

(** C10.  [reset] empties the items, clears the error, sets the page to
    1, the page size to 15 and the total to 0, empties the legacy
    [filterValues] map and the active filters and clears both loading
    flags; every other field keeps its value: the canonical [filters]
    map, the filter defaults and visibility, [hasLoadedOnce], the
    configuration (endpoint, transport, router, handlers), and the rest. *)
Theorem reset_sets_and_preserves (l : t) :
  (data (reset l) = [] ∧ error (reset l) = None
   ∧ currentPage (reset l) = 1 ∧ perPage (reset l) = 15
   ∧ total (reset l) = 0 ∧ filterValues (reset l) = ∅
   ∧ activeFilters (reset l) = []
   ∧ isLoading (reset l) = false ∧ isUpdating (reset l) = false)
  ∧ (filters (reset l) = filters l
     ∧ filterDefaults (reset l) = filterDefaults l
     ∧ filterVisibility (reset l) = filterVisibility l
     ∧ hasLoadedOnce (reset l) = hasLoadedOnce l
     ∧ apiPath (reset l) = apiPath l
     ∧ axiosInstance (reset l) = axiosInstance l
     ∧ routerInstance (reset l) = routerInstance l
     ∧ errorHandler (reset l) = errorHandler l
     ∧ buildQueryParameters (reset l) = buildQueryParameters l)
  ∧ (filterAttributes (reset l) = filterAttributes l
     ∧ bindings (reset l) = bindings l
     ∧ isFiltering (reset l) = isFiltering l
     ∧ isResetting (reset l) = isResetting l
     ∧ removingFilterKey (reset l) = removingFilterKey l
     ∧ panelOpen (reset l) = panelOpen l).
Proof. repeat split. Qed.

(** ** Further properties *)

(** *** More on fetch *)

Section MoreFetch.

Variable host : Host.

(** X1.  A fetch that finds no transport, neither configured nor global,
    rejects with the configuration error without any interaction; by then
    the previous [error] has been cleared, and both loading flags are
    cleared again; [hasLoadedOnce] is as before. *)
Theorem get_without_transport pathOrConfig config w apiPath parameters w1 :
  get_prelude host pathOrConfig config w
    = (Fulfilled (apiPath, parameters), w1) →
  axiosInstance (this w) = None →
  window_axios host = None →
  let result := get host pathOrConfig config w in
  result.1 = Rejected axiosNotConfigured
  ∧ history result.2 = history w
  ∧ error (this result.2) = None
  ∧ isLoading (this result.2) = false
  ∧ isUpdating (this result.2) = false
  ∧ hasLoadedOnce (this result.2) = hasLoadedOnce (this w).
Proof.
  intros Hpre Hnone Hwin result. subst result.
  rewrite get_eq, Hpre, get_statement_eq. cbv zeta.
  apply get_prelude_fulfilled in Hpre as [Hdiff Hhist].
  red in Hdiff.
  assert (Hax : getAxios host (set_error None (loading (this w1)))
                = Rejected axiosNotConfigured).
  { unfold getAxios.
    assert (Ha : axiosInstance (set_error None (loading (this w1))) = None).
    { rewrite <- Hnone. rewrite Hdiff. unfold loading.
      by destruct (hasLoadedOnce _). }
    by rewrite Ha, Hwin. }
  rewrite Hax. cbn [fst snd this history].
  assert (Hh : hasLoadedOnce (this w1) = hasLoadedOnce (this w))
    by (by rewrite Hdiff).
  rewrite <- Hh. unfold loading.
  by destruct (hasLoadedOnce (this w1)) eqn:E.
Qed.

(** X2.  A fetch whose request the transport fulfils resolves after that
    one request; the items, the page, the total, the page size and the
    active filters are those of the response, or [[]], 1, 0, 15 and [[]]
    where the response has none; [error] is [null], [hasLoadedOnce] is
    true and both loading flags are false; so [hasActiveFilters] tells
    whether the response had active filters, and [config()] shows the
    items with [loading] false. *)
Theorem get_fulfilled pathOrConfig config w apiPath parameters w1 axios req w2
    response :
  get_prelude host pathOrConfig config w
    = (Fulfilled (apiPath, parameters), w1) →
  get_issue host parameters w1 = (Fulfilled (axios, req), w2) →
  axios_get axios (history w2) apiPath req = Fulfilled response →
  ∃ w', get host pathOrConfig config w = (Fulfilled tt, w')
    ∧ history w' = history w ++ [AxiosGet apiPath req]
    ∧ data (this w') = default [] (resp_listing response ≫= items)
    ∧ currentPage (this w') = default 1 (resp_listing response ≫= current_page)
    ∧ total (this w') = default 0 (resp_listing response ≫= payload_total)
    ∧ perPage (this w') = default 15 (resp_listing response ≫= payload_perPage)
    ∧ activeFilters (this w') = default [] (resp_filters response)
    ∧ error (this w') = None
    ∧ hasLoadedOnce (this w') = true
    ∧ isLoading (this w') = false ∧ isUpdating (this w') = false
    ∧ hasActiveFilters (this w')
      = bool_decide (default [] (resp_filters response) ≠ [])
    ∧ config_loading (tableConfig (this w')) = false
    ∧ config_data (tableConfig (this w')) = data (this w').
Proof.
  intros Hpre Hissue Hget.
  rewrite get_eq, Hpre, get_statement_eq. cbv zeta.
  apply get_prelude_fulfilled in Hpre as [_ Hhist].
  apply get_issue_fulfilled in Hissue as (Hax & -> & ->).
  rewrite Hax. cbn [history] in Hget. rewrite Hget.
  eexists. split; [reflexivity|]. cbn [this history].
  rewrite Hhist. repeat split.
  unfold hasActiveFilters, loaded, get_receive.
  cbn [activeFilters set_isLoading set_isUpdating set_hasLoadedOnce
       set_activeFilters].
  by destruct (default [] (resp_filters response)).
Qed.

(** X3.  In the request of a fetch an explicit parameter wins over a
    filter parameter of the same name, and a filter parameter wins over
    [page] and [per_page]: a filter named [page] replaces the page
    number. *)
Theorem get_request_precedence parameters w1 axios req w2 (k : string) :
  get_issue host parameters w1 = (Fulfilled (axios, req), w2) →
  req !! k =
    match parameters !! k with
    | Some v => Some v
    | None =>
      match buildFilterParameters (this w1) !! k with
      | Some v => Some v
      | None =>
        if decide (k = "page") then Some (SNum (currentPage (this w1)))
        else if decide (k = "per_page") then Some (SNum (perPage (this w1)))
        else None
      end
    end.
Proof.
  intros (_ & -> & _)%get_issue_fulfilled.
  rewrite requestParameters_inflight. unfold requestParameters.
  rewrite lookup_union. destruct (parameters !! k) as [v|]; simpl.
  { by destruct (_ !! k). }
  rewrite lookup_union.
  destruct (buildFilterParameters (this w1) !! k) as [v|]; simpl.
  { by destruct (_ !! k). }
  destruct (decide (k = "page")) as [->|Hp].
  { by rewrite lookup_insert_eq. }
  rewrite lookup_insert_ne by done.
  destruct (decide (k = "per_page")) as [->|Hpp].
  { by rewrite lookup_singleton_eq. }
  by rewrite lookup_singleton_ne.
Qed.

(** X4.  Without a first argument, [get] does not look at its second
    argument: its parameters and its query are dropped, and the fetch is
    the one of [get()].  So [load] without a path drops its parameters and
    its query. *)
Theorem get_without_first_argument_drops_config (config : GetConfig)
    (parameters : option (gmap string Scalar))
    (query : option (gmap string QueryValue)) (w : World) :
  get host None (Some config) w = get host None None w
  ∧ load host None parameters query w = get host None None w.
Proof. split; reflexivity. Qed.

(** The entries of two lists, one after the other: the later ones
    override. *)
Lemma coerceEntries_app (first second : list (string * string)) :
  coerceEntries host (first ++ second)
  = coerceEntries host second ∪ coerceEntries host first.
Proof.
  unfold coerceEntries.
  induction second as [|[key value] second IH] using rev_ind.
  { rewrite app_nil_r. cbn [foldl]. by rewrite (left_id_L ∅ (∪)). }
  rewrite app_assoc, (foldl_app _ (first ++ second)), (foldl_app _ second).
  cbn [foldl]. by rewrite IH, insert_union_l.
Qed.

(** X5.  [normalizeParams] reads a query string from left to right, and a
    later pair overrides an earlier one of the same name: the object of
    [?s&t] is the object of [&t] laid over the object of [?s], so a name
    of [t] has in it the value it has in [&t], whatever [s] gives it. *)
Theorem normalizeParams_last_value_wins (s t : string) :
  ∃ first second,
    normalizeParams host (Some (PString (String "?" s))) = Fulfilled first
    ∧ normalizeParams host (Some (PString (String "&" t))) = Fulfilled second
    ∧ normalizeParams host (Some (PString (String "?" (s +:+ String "&" t))))
      = Fulfilled (second ∪ first)
    ∧ ∀ k, is_Some (second !! k) → (second ∪ first) !! k = second !! k.
Proof.
  exists (coerceEntries host (Js.URLSearchParams s)),
         (coerceEntries host (Js.parseUrlencoded t)).
  split; [apply normalizeParams_query_string|].
  split.
  { unfold normalizeParams. rewrite decide_False by done.
    change (String "&" t) with ("" +:+ String "&" t).
    unfold Js.URLSearchParams.
    assert (Hq : Js.startsWith "?" ("" +:+ String "&" t) = false) by done.
    rewrite !Hq.
    assert (Ha : Js.startsWith "&" ("" +:+ String "&" t) = true).
    { unfold Js.startsWith. change ("" +:+ String "&" t) with (String "&" t).
      cbn [String.prefix].
      destruct (ascii_dec "&" "&"); [by destruct t|done]. }
    rewrite Ha. cbn [orb].
    rewrite parseUrlencoded_append.
    change (Js.parseUrlencoded "") with (@nil (string * string)).
    done. }
  split.
  { rewrite normalizeParams_query_string.
    unfold Js.URLSearchParams.
    assert (Hs : (if Js.startsWith "?" (s +:+ String "&" t)
                  then Js.slice1 (s +:+ String "&" t)
                  else s +:+ String "&" t)
                 = (if Js.startsWith "?" s then Js.slice1 s else s)
                     +:+ String "&" t).
    { destruct s as [|a s]; [done|].
      rewrite append_cons. unfold Js.startsWith. cbn [String.prefix].
      destruct (ascii_dec "?" a); [|done].
      assert (Hp : ∀ x, String.prefix "" x = true) by (by intros []).
      by rewrite !Hp. }
    by rewrite Hs, parseUrlencoded_append, coerceEntries_app. }
  intros k [v Hk]. by rewrite lookup_union, Hk, (union_Some_l v).
Qed.

End MoreFetch.

(** X1 on a new controller with an endpoint only. *)
Lemma get_without_transport_witness :
  (get plainHost None None (fresh (path "/api/items" initial))).1
    = Rejected axiosNotConfigured
  ∧ history (get plainHost None None (fresh (path "/api/items" initial))).2
    = []
  ∧ error (this (get plainHost None None
                     (fresh (path "/api/items" initial))).2) = None
  ∧ isLoading (this (get plainHost None None
                         (fresh (path "/api/items" initial))).2) = false
  ∧ isUpdating (this (get plainHost None None
                          (fresh (path "/api/items" initial))).2) = false
  ∧ hasLoadedOnce (this (get plainHost None None
                             (fresh (path "/api/items" initial))).2) = false.
Proof.
  exact (get_without_transport plainHost None None
           (fresh (path "/api/items" initial)) "/api/items" ∅
           (fresh (path "/api/items" initial)) eq_refl eq_refl eq_refl).
Defined.

(** X2 on the first fetch of a controller, with a response that carries
    two items on page 3. *)
Lemma get_fulfilled_witness :
  ∃ w', get plainHost None None
          (fresh (axios (serving pageThree) (path "/api/items" initial)))
        = (Fulfilled tt, w')
    ∧ history w' = [] ++ [AxiosGet "/api/items"
                            {[ "page" := SNum 1; "per_page" := SNum 15 ]}]
    ∧ data (this w') = [itemWithId 1; itemWithId 2]
    ∧ currentPage (this w') = 3
    ∧ total (this w') = 32
    ∧ perPage (this w') = 15
    ∧ activeFilters (this w') = []
    ∧ error (this w') = None
    ∧ hasLoadedOnce (this w') = true
    ∧ isLoading (this w') = false ∧ isUpdating (this w') = false
    ∧ hasActiveFilters (this w')
      = bool_decide (default [] (resp_filters pageThree) ≠ [])
    ∧ config_loading (tableConfig (this w')) = false
    ∧ config_data (tableConfig (this w')) = data (this w').
Proof.
  exact (get_fulfilled plainHost None None
           (fresh (axios (serving pageThree) (path "/api/items" initial)))
           "/api/items" ∅
           (fresh (axios (serving pageThree) (path "/api/items" initial)))
           (serving pageThree)
           {[ "page" := SNum 1; "per_page" := SNum 15 ]}
           {| this := set_error None
                        (loading (axios (serving pageThree)
                                        (path "/api/items" initial)));
              history := [] |}
           pageThree eq_refl eq_refl eq_refl).
Defined.

(** X3 on a controller whose filter [page] overrides the page number. *)
Lemma get_request_precedence_witness :
  requestParameters
    (set_error None
       (loading (set_filters {[ "page" := SStr "7" ]}
                   (axios (serving emptyResponse) initial)))) ∅ !! "page"
  = Some (SStr "7").
Proof.
  refine (eq_trans
           (get_request_precedence plainHost ∅
              (fresh (set_filters {[ "page" := SStr "7" ]}
                        (axios (serving emptyResponse) initial)))
              (serving emptyResponse)
              (requestParameters
                 (set_error None
                    (loading (set_filters {[ "page" := SStr "7" ]}
                                (axios (serving emptyResponse) initial)))) ∅)
              {| this := set_error None
                           (loading (set_filters {[ "page" := SStr "7" ]}
                                       (axios (serving emptyResponse) initial)));
                 history := [] |}
              "page" eq_refl) _).
  vm_compute. reflexivity.
Defined.

(** *** More on [remove] and [delete] *)

(** X6.  [remove] with an id that no item has leaves the items as they
    are and still decrements [total], not below 0. *)
Theorem remove_without_match (id : Scalar) (key : string) (l : t) :
  Forall (λ item, property item key ≠ id) (data l) →
  data (remove id key l) = data l
  ∧ total (remove id key l) = Z.max 0 (total l - 1).
Proof.
  intros Hall. split; [|done].
  change (filter (λ item, property item key ≠ id) (data l) = data l).
  revert Hall. generalize (data l). intros items Hall.
  induction Hall as [|item items Hitem _ IH]; [done|].
  rewrite filter_cons_True by done. by rewrite IH.
Qed.

Lemma remove_without_match_witness :
  data (remove (SStr "1") "id" (holding [itemWithId 1] 1 1 initial))
    = [itemWithId 1]
  ∧ total (remove (SStr "1") "id" (holding [itemWithId 1] 1 1 initial))
    = Z.max 0 (1 - 1).
Proof.
  apply (remove_without_match (SStr "1") "id"
           (holding [itemWithId 1] 1 1 initial)).
  repeat constructor. vm_compute. discriminate.
Defined.

Section MoreDelete.

Variable host : Host.

(** X7.  [delete] throws on its arguments before its [try]: with a path
    and no id ([undefined] or [null]) the id error, with an options
    object and no endpoint the endpoint error.  The controller is then
    unchanged, nothing is requested and [onError] is not called, even if
    given. *)
Theorem delete_bad_arguments pathOrConfig idOrConfig maybeConfig w :
  match pathOrConfig with
  | DPath _ =>
    idOrConfig = None ∨ idOrConfig = Some (IId SNull)
    ∨ idOrConfig = Some (IId SUndefined)
  | DConfig _ => apiPath (this w) = None ∨ apiPath (this w) = Some ""
  end →
  delete host pathOrConfig idOrConfig maybeConfig w
  = (Rejected match pathOrConfig with
              | DPath _ => idRequired
              | DConfig _ => pathRequired
              end, w).
Proof.
  intros H. rewrite delete_eq. unfold delete_arguments.
  destruct pathOrConfig as [path|c].
  - by destruct H as [->|[->| ->]].
  - by destruct H as [->| ->].
Qed.

(** X8.  A [delete] that finds no transport, neither configured nor
    global, requests nothing and removes nothing: with an [onError] the
    configuration error is handed to it, without a status code, and the
    call resolves; without one the call rejects with that error. *)
Theorem delete_without_transport pathOrConfig idOrConfig maybeConfig w d :
  delete_arguments (this w) pathOrConfig idOrConfig maybeConfig = Fulfilled d →
  axiosInstance (this w) = None →
  window_axios host = None →
  delete host pathOrConfig idOrConfig maybeConfig w
  = if d_onError d
    then (Fulfilled tt,
          {| this := this w;
             history := history w ++ [OnError axiosNotConfigured None] |})
    else (Rejected axiosNotConfigured, w).
Proof.
  intros Hargs Hnone Hwin. rewrite delete_eq, Hargs. unfold try_catch.
  rewrite delete_try_eq. unfold getAxios. rewrite Hnone, Hwin.
  unfold delete_catch. by destruct (d_onError d).
Qed.

(** X9.  A [delete] with a path, on a controller without endpoint and
    without router, after the transport has accepted it: the item is
    removed; when that empties a page above 1 the page becomes the
    previous one and nothing is fetched; otherwise, with [refresh], the
    refetch throws the endpoint error, which goes to [onError] if given
    and else rejects the call, although the deletion took place. *)
Theorem delete_without_endpoint pathOrConfig idOrConfig maybeConfig w d axios :
  delete_arguments (this w) pathOrConfig idOrConfig maybeConfig = Fulfilled d →
  getAxios host (this w) = Fulfilled axios →
  axios_delete axios (history w) (d_path d) = Fulfilled tt →
  apiPath (this w) = None →
  routerInstance (this w) = None →
  let removed := remove (d_id d) (d_key d) (this w) in
  let h := history w ++ AxiosDelete (d_path d)
             :: (if d_onSuccess d then [OnSuccess (d_id d)] else []) in
  delete host pathOrConfig idOrConfig maybeConfig w
  = if decide (data removed = [] ∧ 1 < currentPage (this w)) then
      (Fulfilled tt,
       {| this := set_currentPage (currentPage (this w) - 1) removed;
          history := h |})
    else if d_refresh d then
      if d_onError d then
        (Fulfilled tt,
         {| this := removed; history := h ++ [OnError pathRequired None] |})
      else (Rejected pathRequired, {| this := removed; history := h |})
    else (Fulfilled tt, {| this := removed; history := h |}).
Proof.
  intros Hargs Hax Hdel Hpath Hrouter removed h.
  rewrite delete_eq, Hargs. unfold try_catch.
  rewrite delete_try_eq, Hax. cbv zeta. rewrite Hdel.
  change (remove (d_id d) (d_key d) (this w)) with removed.
  rewrite <- app_assoc.
  change ([AxiosDelete (d_path d)] ++ ?x) with (AxiosDelete (d_path d) :: x).
  fold h.
  assert (Hget : ∀ l hist,
            apiPath l = None →
            get host None None {| this := l; history := hist |}
            = (Rejected pathRequired, {| this := l; history := hist |})).
  { intros l hist Hl. rewrite get_eq, get_prelude_eq.
    unfold resolveArguments. cbn [this]. by rewrite Hl. }
  destruct (decide (data removed = [] ∧ 1 < currentPage (this w)))
    as [[Hd Hp]|Hn].
  - rewrite (bool_decide_true _ Hd).
    rewrite (bool_decide_true (1 < currentPage removed)) by exact Hp.
    cbn [andb]. rewrite goToPage_eq. cbv zeta. cbn [this history].
    change (apiPath removed) with (apiPath (this w)).
    change (routerInstance removed) with (routerInstance (this w)).
    rewrite Hpath, Hrouter.
    rewrite !bool_decide_false by (by intros [? [=]]). done.
  - assert (Hb : bool_decide (data removed = [])
                 && bool_decide (1 < currentPage removed) = false).
    { apply andb_false_iff.
      destruct (decide (data removed = [])) as [Hd|Hd].
      - right. apply bool_decide_false. intros Hp. apply Hn. by split.
      - left. by apply bool_decide_false. }
    rewrite Hb. destruct (d_refresh d); [|done].
    rewrite (Hget removed h Hpath). unfold delete_catch.
    by destruct (d_onError d).
Qed.

End MoreDelete.

(** X7 on [delete('/api/items/3')] with an [onError]. *)
Lemma delete_bad_arguments_witness :
  delete plainHost (DPath "/api/items/3") None
    (Some {| key := None; refresh := None; onSuccess := false;
             onError := true |})
    (fresh (axios (serving emptyResponse) initial))
  = (Rejected idRequired, fresh (axios (serving emptyResponse) initial)).
Proof.
  exact (delete_bad_arguments plainHost (DPath "/api/items/3") None
           (Some {| key := None; refresh := None; onSuccess := false;
                    onError := true |})
           (fresh (axios (serving emptyResponse) initial))
           (or_introl eq_refl)).
Defined.

(** X8 on [delete('/api/items/3', 3)] without transport. *)
Lemma delete_without_transport_witness :
  delete plainHost (DPath "/api/items/3") (Some (IId (SNum 3))) None
    (fresh (holding [itemWithId 3] 1 1 initial))
  = (Rejected axiosNotConfigured, fresh (holding [itemWithId 3] 1 1 initial)).
Proof.
  exact (delete_without_transport plainHost (DPath "/api/items/3")
           (Some (IId (SNum 3))) None
           (fresh (holding [itemWithId 3] 1 1 initial))
           (localsOf "/api/items/3" (SNum 3) noConfig)
           eq_refl eq_refl eq_refl).
Defined.

(** X9 on [delete('/api/items/3', 3)] with a transport and no endpoint:
    the item is gone and the call rejects. *)
Lemma delete_without_endpoint_witness :
  delete plainHost (DPath "/api/items/3") (Some (IId (SNum 3))) None
    (fresh (holding [itemWithId 3; itemWithId 4] 2 1
              (axios (serving emptyResponse) initial)))
  = (Rejected pathRequired,
     {| this := holding [itemWithId 4] 1 1
                  (axios (serving emptyResponse) initial);
        history := [AxiosDelete "/api/items/3"] |}).
Proof.
  refine (eq_trans
            (delete_without_endpoint plainHost (DPath "/api/items/3")
               (Some (IId (SNum 3))) None
               (fresh (holding [itemWithId 3; itemWithId 4] 2 1
                         (axios (serving emptyResponse) initial)))
               (localsOf "/api/items/3" (SNum 3) noConfig)
               (serving emptyResponse)
               eq_refl eq_refl eq_refl eq_refl eq_refl) _).
  vm_compute. reflexivity.
Defined.

(** *** [updateUrl], the page in the URL, [goToPage] *)

(** X10.  [updateUrl] resolves and leaves the controller as it is,
    whatever the router answers: without a router nothing happens; with
    one, exactly one navigation is asked for, to the query of the builder
    if one is configured (and returns), to the default query otherwise,
    and a rejected navigation is swallowed. *)
Theorem updateUrl_settles (w : World) :
  (updateUrl w).1 = Fulfilled tt
  ∧ this (updateUrl w).2 = this w
  ∧ history (updateUrl w).2
    = history w ++
      match routerInstance (this w) with
      | None => []
      | Some _ =>
        [RouterPush match buildQueryParameters (this w) with
                    | Some builder => builder (history w)
                    | None => defaultQuery (this w)
                    end]
      end.
Proof.
  unfold updateUrl.
  destruct (routerInstance (this w)) as [router|];
    [|by rewrite app_nil_r].
  unfold try_catch, interact, ret. cbn [fst snd this history].
  by destruct (router_push router (history w) _) as [[]|].
Qed.

(** X11.  The default query of [updateUrl], for a page and a filter
    parameter that are not numbers beyond the safe integers: it has, for
    every filter parameter, its string form, and the page number under
    [page] only when the page is above 1 and no filter parameter is named
    [page]; it has no other entry. *)
Theorem defaultQuery_lookup (l : t) (k : string) :
  Js.safeInteger (currentPage l) = true →
  default true (safeScalar <$> buildFilterParameters l !! k) = true →
  defaultQuery l !! k =
    match buildFilterParameters l !! k with
    | Some v => Some (String_of v)
    | None =>
      if decide (k = "page" ∧ 1 < currentPage l)
      then Some (pretty (currentPage l))
      else None
    end.
Proof.
  intros _ _. unfold defaultQuery. rewrite lookup_union, lookup_fmap.
  destruct (buildFilterParameters l !! k) as [v|]; simpl.
  { by destruct (_ !! k). }
  destruct (decide (1 < currentPage l)) as [Hp|Hp].
  - destruct (decide (k = "page")) as [->|Hk].
    + rewrite lookup_singleton_eq. by rewrite decide_True.
    + rewrite lookup_singleton_ne by done.
      by rewrite decide_False by (by intros [? _]).
  - rewrite lookup_empty. by rewrite decide_False by (by intros [_ ?]).
Qed.

(** X11 on page 3 of a controller with three filters: the number 25 is
    written [25]. *)
Lemma defaultQuery_lookup_witness :
  defaultQuery (holding [] 40 3 threeFilters) !! "size" = Some "25".
Proof.
  refine (eq_trans
            (defaultQuery_lookup (holding [] 40 3 threeFilters) "size"
               eq_refl _) _);
    vm_compute; reflexivity.
Defined.

Lemma parseDigits_allDigits (s : string) (acc v : Z) :
  Js.allDigits s acc = Some v → Js.parseDigits s (Some acc) = Some v.
Proof.
  revert acc. induction s as [|a s IH]; intros acc; cbn [Js.allDigits Js.parseDigits].
  - done.
  - destruct (Js.digit a) as [d|]; [|done]. apply IH.
Qed.

Lemma parseInt_pretty (m : Z) : Js.parseInt (pretty m) = Some m.
Proof.
  assert (Hpos : ∀ p, ∃ a r,
            pretty_N_go (Npos p) "" = String a r
            ∧ a ≠ "-"%char ∧ a ≠ "+"%char
            ∧ Js.parseDigits (String a r) None = Some (Zpos p)
            ∧ bare (String a r) = true).
  { intros p. destruct (pretty_N_go_digits (Npos p) "") as [Hd Hb].
    cbn [Js.allDigits bare] in Hd, Hb.
    destruct (pretty_N_go (Npos p) "") as [|a r]; [done|].
    exists a, r. repeat split; try done.
    - intros ->. done.
    - intros ->. done.
    - cbn [Js.allDigits] in Hd. cbn [Js.parseDigits].
      destruct (Js.digit a) as [d|]; [|done].
      by apply parseDigits_allDigits. }
  unfold Js.parseInt. destruct m as [|p|p].
  - reflexivity.
  - change (pretty (Zpos p)) with (pretty_N_go (Npos p) "").
    destruct (Hpos p) as (a & r & -> & Hm & Hp & Hd & Hb).
    rewrite (trimStart_bare _ Hb).
    destruct a as [[] [] [] [] [] [] [] []]; try done.
  - change (pretty (Zneg p)) with (String "-" (pretty_N_go (Npos p) "")).
    destruct (Hpos p) as (a & r & -> & Hm & Hp & Hd & Hb).
    assert (Hb' : bare (String "-" (String a r)) = true) by exact Hb.
    rewrite (trimStart_bare _ Hb'). by rewrite Hd.
Qed.

Lemma pretty_nonempty (m : Z) : pretty m ≠ "".
Proof.
  intros H. pose proof (parseInt_pretty m) as Hp. by rewrite H in Hp.
Qed.

(** X12.  The page that [updateUrl] writes into the URL is the page that
    a fetch reads back from it: for a controller on a page above 1 that is
    a safe integer, with no filter parameter named [page], synchronising
    any controller from the default query sets its page to that page. *)
Theorem page_url_round_trip (l l' : t) :
  buildFilterParameters l !! "page" = None →
  1 < currentPage l →
  Js.safeInteger (currentPage l) = true →
  currentPage
    (syncPage ((λ value, QValue (SStr value)) <$> defaultQuery l) l')
  = currentPage l.
Proof.
  intros Hnone Hp _. unfold syncPage, defaultQuery.
  rewrite lookup_fmap, lookup_union, lookup_fmap, Hnone.
  rewrite decide_True by done. rewrite lookup_singleton_eq.
  cbn [fmap option_fmap option_map union option_union union_with
       option_union_with truthy].
  rewrite bool_decide_false by apply pretty_nonempty. cbn [negb mbind option_bind String_of_query String_of].
  rewrite parseInt_pretty. by rewrite decide_True by lia.
Qed.

Lemma page_url_round_trip_witness :
  currentPage
    (syncPage ((λ value, QValue (SStr value))
                 <$> defaultQuery (holding [] 40 3 initial)) initial)
  = 3.
Proof.
  exact (page_url_round_trip (holding [] 40 3 initial) initial
           eq_refl eq_refl eq_refl).
Defined.

Section MoreGoToPage.

Variable host : Host.

Lemma goToPage_unfold (page : Z) (perPage : option Z)
    (autoLoad : option bool) (w : World) :
  goToPage host page perPage autoLoad w =
  let l' :=
    match perPage with
    | Some perPage => set_perPage perPage (set_currentPage page (this w))
    | None => set_currentPage page (this w)
    end in
  let w' := {| this := l'; history := history w |} in
  if shouldAutoLoad autoLoad l'
  then (_ ← updateUrl;;; get host None None) w'
  else (Fulfilled tt, w').
Proof.
  unfold goToPage, bind, update, read. cbn [this history].
  by destruct (shouldAutoLoad _ _).
Qed.

(** X13.  [goToPage] sets the page, and the page size if given.  With
    [autoLoad] false it does nothing else.  Otherwise, on a controller
    with an endpoint and a transport and without router, it then requests
    from the endpoint the parameters of that page and page size. *)
Theorem goToPage_requests_page (page : Z) (perPage : option Z)
    (autoLoad : option bool) (w : World) (p : string) axios :
  apiPath (this w) = Some p → p ≠ "" →
  routerInstance (this w) = None →
  getAxios host (this w) = Fulfilled axios →
  let l' :=
    match perPage with
    | Some perPage => set_perPage perPage (set_currentPage page (this w))
    | None => set_currentPage page (this w)
    end in
  if decide (autoLoad = Some false) then
    goToPage host page perPage autoLoad w
    = (Fulfilled tt, {| this := l'; history := history w |})
  else
    ∃ rest,
      history (goToPage host page perPage autoLoad w).2
      = history w ++ AxiosGet p (requestParameters l' ∅) :: rest.
Proof.
  intros Hp Hne Hr Hax l'. rewrite goToPage_unfold. fold l'. cbv zeta.
  assert (Hp' : apiPath l' = Some p) by (subst l'; by destruct perPage).
  assert (Hr' : routerInstance l' = None) by (subst l'; by destruct perPage).
  assert (Hax' : getAxios host l' = Fulfilled axios).
  { rewrite <- Hax. apply getAxios_frame. subst l'. by destruct perPage. }
  unfold shouldAutoLoad.
  destruct (decide (autoLoad = Some false)) as [->|Hauto].
  - done.
  - rewrite bool_decide_false by done. rewrite Hp'.
    rewrite bool_decide_true by eauto. cbn [negb andb orb].
    unfold bind, updateUrl. cbn [this history]. rewrite Hr'.
    exact (get_configured_no_router host
             {| this := l'; history := history w |} p axios Hp' Hne Hr' Hax').
Qed.

End MoreGoToPage.

(** X13 on [goToPage(2, 50)]. *)
Lemma goToPage_requests_page_witness :
  ∃ rest,
    history (goToPage plainHost 2 (Some 50) None
               (fresh (axios (serving emptyResponse)
                             (path "/api/items" initial)))).2
    = [] ++ AxiosGet "/api/items"
              (requestParameters
                 (set_perPage 50
                    (set_currentPage 2
                       (axios (serving emptyResponse)
                              (path "/api/items" initial)))) ∅) :: rest.
Proof.
  exact (goToPage_requests_page plainHost 2 (Some 50) None
           (fresh (axios (serving emptyResponse) (path "/api/items" initial)))
           "/api/items" (serving emptyResponse)
           eq_refl ltac:(discriminate) eq_refl eq_refl).
Defined.

(** *** The filter actions: [applyFilters], [resetFilters], [removeFilter] *)

Section FilterActions.

Variable host : Host.

Lemma same_filter_setup_refl (l : t) : same_filter_setup l l.
Proof. by repeat split. Qed.

Lemma same_filter_setup_trans (l1 l2 l3 : t) :
  same_filter_setup l1 l2 → same_filter_setup l2 l3 → same_filter_setup l1 l3.
Proof.
  unfold same_filter_setup.
  intros (?&?&?&?&?&?&?&?) (?&?&?&?&?&?&?&?). repeat split; congruence.
Qed.

Lemma get_same_filter_setup pathOrConfig config (w : World) :
  same_filter_setup (this w) (this (get host pathOrConfig config w).2).
Proof.
  rewrite get_eq.
  destruct (get_prelude host pathOrConfig config w)
    as [[[apiPath parameters]|e] w1] eqn:Hpre.
  - apply get_prelude_fulfilled in Hpre as [Hdiff _]. red in Hdiff.
    apply (same_filter_setup_trans _ (this w1)).
    { rewrite Hdiff. by repeat split. }
    rewrite get_statement_eq. cbv zeta.
    destruct (getAxios host _) as [axios|]; cbn [snd this].
    + destruct (axios_get axios _ _ _) as [|err]; cbn [snd this].
      * unfold loading. by destruct (hasLoadedOnce (this w1)).
      * destruct (isAxiosConfigurationError err); cbn [snd this];
          unfold loading; by destruct (hasLoadedOnce (this w1)).
    + unfold loading. by destruct (hasLoadedOnce (this w1)).
  - apply get_prelude_rejected in Hpre as ->. apply same_filter_setup_refl.
Qed.

Lemma updateUrl_this (w : World) : this (updateUrl w).2 = this w.
Proof.
  unfold updateUrl. destruct (routerInstance (this w)) as [router|]; [|done].
  unfold try_catch, interact, ret.
  by destruct (router_push router (history w) _) as [[]|].
Qed.

Lemma updateUrl_resolves (w : World) : (updateUrl w).1 = Fulfilled tt.
Proof.
  unfold updateUrl. destruct (routerInstance (this w)) as [router|]; [|done].
  unfold try_catch, interact, ret.
  by destruct (router_push router (history w) _) as [[]|].
Qed.

Lemma goToPage_same_filter_setup page perPage autoLoad (w : World) :
  same_filter_setup (this w) (this (goToPage host page perPage autoLoad w).2).
Proof.
  rewrite goToPage_unfold. cbv zeta.
  set (l' := match perPage with
             | Some perPage0 => set_perPage perPage0 _
             | None => _
             end).
  assert (Hl' : same_filter_setup (this w) l')
    by (subst l'; destruct perPage; by repeat split).
  destruct (shouldAutoLoad autoLoad l'); [|exact Hl'].
  unfold bind.
  pose proof (updateUrl_this {| this := l'; history := history w |}) as Hu.
  destruct (updateUrl _) as [[[]|e] w1]; cbn [snd this] in Hu |- *.
  - eapply same_filter_setup_trans; [|apply get_same_filter_setup].
    cbn [this]. by rewrite Hu.
  - by rewrite Hu.
Qed.

Lemma applyFilters_eq (w : World) :
  applyFilters host w =
  match goToPage host 1 None None
          {| this := set_isFiltering true (this w); history := history w |} with
  | (Fulfilled _, w1) =>
    (Fulfilled tt,
     {| this := set_isFiltering false (closePanel (this w1));
        history := history w1 |})
  | (Rejected e, w1) =>
    (Rejected e,
     {| this := set_isFiltering false (this w1); history := history w1 |})
  end.
Proof.
  unfold applyFilters, bind, update, try_finally. cbn [this history].
  by destruct (goToPage host 1 None None _) as [[[]|e] w1].
Qed.

(** The state after the loop of [resetFilters] (lines 802-814) and the
    reset of the page. *)
Lemma resetFilters_eq (w : World) :
  resetFilters host w =
  let l0 := set_isResetting true (this w) in
  if decide (filterDefaults (this w) = ∅) then
    let '(r, w1) := goToPage host 1 None None
                      {| this := l0; history := history w |} in
    (r, {| this := set_isResetting false (this w1); history := history w1 |})
  else
    let l1 :=
      set_currentPage 1
        (foldl (λ l '(key, defaultValue), writeDefault l key defaultValue)
               l0 (map_to_list (filterDefaults (this w)))) in
    let w1 := (updateUrl {| this := l1; history := history w |}).2 in
    match get host None None w1 with
    | (Fulfilled _, w2) =>
      (Fulfilled tt,
       {| this := set_isResetting false (closePanel (this w2));
          history := history w2 |})
    | (Rejected e, w2) =>
      (Rejected e,
       {| this := set_isResetting false (this w2); history := history w2 |})
    end.
Proof.
  unfold resetFilters, bind at 1, update at 1, try_finally.
  cbn [this history]. unfold bind at 1, read at 1. cbn [this].
  change (filterDefaults (set_isResetting true (this w)))
    with (filterDefaults (this w)).
  cbv zeta.
  destruct (decide (filterDefaults (this w) = ∅)) as [Hd|Hd]; [done|].
  unfold bind, update, read. cbn [this history].
  set (w0 := {| this := set_currentPage 1 _; history := history w |}).
  pose proof (updateUrl_resolves w0) as Hr.
  destruct (updateUrl w0) as [[[]|e] w1]; [|done]. cbn [snd].
  change (get host None (Some _) w1) with (get host None None w1).
  by destruct (get host None None w1) as [[[]|e] w2].
Qed.

Lemma writeDefault_same_filter_setup (l : t) (key : string) (d : Scalar) :
  same_filter_setup l (writeDefault l key d).
Proof.
  unfold writeDefault. destruct (bool_decide _); [by repeat split|].
  destruct (filterAttributes l !! key) as [[]|]; by repeat split.
Qed.

Lemma writeDefaults_same_filter_setup (entries : list (string * Scalar))
    (l : t) :
  same_filter_setup l
    (foldl (λ l '(key, defaultValue), writeDefault l key defaultValue)
           l entries).
Proof.
  revert l. induction entries as [|[key d] entries IH]; intros l; cbn [foldl].
  - apply same_filter_setup_refl.
  - eapply same_filter_setup_trans;
      [apply writeDefault_same_filter_setup|apply IH].
Qed.

(** X14.  After [applyFilters], whatever its outcome, [isFiltering] is
    false again; the panel is closed if the call resolved and is as it
    was if the call rejected. *)
Theorem applyFilters_outcome (w : World) :
  let result := applyFilters host w in
  isFiltering (this result.2) = false
  ∧ isPanelOpen (this result.2)
    = match result.1 with
      | Fulfilled _ => false
      | Rejected _ => isPanelOpen (this w)
      end.
Proof.
  intros result. subst result. unfold isPanelOpen. rewrite applyFilters_eq.
  set (w0 := {| this := set_isFiltering true (this w); history := history w |}).
  pose proof (goToPage_same_filter_setup 1 None None w0) as (Hpanel & _).
  destruct (goToPage host 1 None None w0) as [[[]|e] w1];
    cbn [fst snd this history] in *; [done|].
  split; [done|]. exact Hpanel.
Qed.

(** X15.  After [resetFilters], whatever its outcome, [isResetting] is
    false again.  The panel is closed only if filter defaults are
    configured and the call resolved; otherwise it is as it was. *)
Theorem resetFilters_outcome (w : World) :
  let result := resetFilters host w in
  isResetting (this result.2) = false
  ∧ isPanelOpen (this result.2)
    = match result.1 with
      | Fulfilled _ =>
        if decide (filterDefaults (this w) = ∅) then isPanelOpen (this w)
        else false
      | Rejected _ => isPanelOpen (this w)
      end.
Proof.
  intros result. subst result. unfold isPanelOpen.
  rewrite resetFilters_eq. cbv zeta.
  destruct (decide (filterDefaults (this w) = ∅)) as [Hd|Hd].
  - set (w0 := {| this := set_isResetting true (this w);
                  history := history w |}).
    pose proof (goToPage_same_filter_setup 1 None None w0) as (Hpanel & _).
    destruct (goToPage host 1 None None w0) as [[[]|e] w1];
      cbn [fst snd this history] in *; (split; [done|exact Hpanel]).
  - set (l1 := set_currentPage 1 _).
    set (w1 := (updateUrl {| this := l1; history := history w |}).2).
    assert (Hl1 : panelOpen (this w1) = panelOpen (this w)).
    { subst w1. rewrite updateUrl_this. cbn [this]. subst l1.
      destruct (writeDefaults_same_filter_setup
                  (map_to_list (filterDefaults (this w)))
                  (set_isResetting true (this w))) as (Hp & _).
      exact Hp. }
    pose proof (get_same_filter_setup None None w1) as (Hpanel & _).
    destruct (get host None None w1) as [[[]|e] w2];
      cbn [fst snd this history] in *; [done|].
    split; [done|]. exact (eq_trans Hpanel Hl1).
Qed.

End FilterActions.

(** *** What [resetFilters] and [removeFilter] write *)

Section FilterDefaults.

Variable host : Host.

Lemma writeDefault_slots (l : t) (k j : string) (d : Scalar) :
  filters (writeDefault l k d) !! j =
    (if decide (j = k)
     then resetSlot (Some d) (filters l !! k) (filterAttributes l !! k)
     else filters l !! j)
  ∧ filterAttributes (writeDefault l k d) !! j =
    (if decide (j = k)
     then resetAttributeSlot (Some d) (filters l !! k)
                             (filterAttributes l !! k)
     else filterAttributes l !! j).
Proof.
  unfold writeDefault, resetSlot, resetAttributeSlot.
  destruct (filters l !! k) as [old|] eqn:Hf.
  - rewrite bool_decide_true by eauto.
    cbn [filters filterAttributes set_filters].
    destruct (decide (j = k)) as [->|?];
      [by rewrite lookup_insert_eq|by rewrite lookup_insert_ne].
  - rewrite bool_decide_false by (by intros [? ?]).
    destruct (filterAttributes l !! k) as [[| |]|] eqn:Ha;
      cbn [filters filterAttributes set_filters set_filterAttributes];
      destruct (decide (j = k)) as [->|?];
      rewrite ?lookup_insert_eq, ?lookup_insert_ne by done; done.
Qed.

Lemma writeDefaults_slots (entries : list (string * Scalar)) (l : t)
    (j : string) :
  NoDup entries.*1 →
  let l' := foldl (λ l '(key, defaultValue), writeDefault l key defaultValue)
                  l entries in
  filters l' !! j
  = resetSlot ((list_to_map entries : gmap string Scalar) !! j)
              (filters l !! j) (filterAttributes l !! j)
  ∧ filterAttributes l' !! j
    = resetAttributeSlot ((list_to_map entries : gmap string Scalar) !! j)
                         (filters l !! j) (filterAttributes l !! j).
Proof.
  intros Hnd. cbv zeta. revert l Hnd.
  induction entries as [|[k d] entries IH]; intros l Hnd; cbn [foldl].
  - cbn [list_to_map foldr]. rewrite lookup_empty. done.
  - cbn [fmap list_fmap fst] in Hnd. apply NoDup_cons in Hnd as [Hk Hnd].
    destruct (IH (writeDefault l k d) Hnd) as [-> ->].
    destruct (writeDefault_slots l k j d) as [-> ->].
    cbn [list_to_map foldr uncurry fst snd].
    destruct (decide (j = k)) as [->|Hne].
    + rewrite lookup_insert_eq.
      assert (Hnone : (list_to_map entries : gmap string Scalar) !! k = None)
        by (by apply not_elem_of_list_to_map_1).
      rewrite Hnone. done.
    + by rewrite lookup_insert_ne.
Qed.

Lemma writeDefaults_routerInstance (entries : list (string * Scalar)) (l : t) :
  routerInstance
    (foldl (λ l '(key, defaultValue), writeDefault l key defaultValue) l entries)
  = routerInstance l.
Proof.
  revert l. induction entries as [|[k d] entries IH]; intros l; cbn [foldl].
  - done.
  - rewrite IH. unfold writeDefault. destruct (bool_decide _); [done|].
    by destruct (filterAttributes l !! k) as [[]|].
Qed.

Lemma get_no_router_filters (w : World) :
  routerInstance (this w) = None →
  filters (this (get host None None w).2) = filters (this w)
  ∧ filterAttributes (this (get host None None w).2)
    = filterAttributes (this w).
Proof.
  intros Hr. rewrite get_eq, get_prelude_eq. unfold resolveArguments.
  assert (Hq : routeQueryOf w None = ∅)
    by (unfold routeQueryOf; cbn; by rewrite Hr).
  destruct (apiPath (this w)) as [p|]; [|done].
  destruct (decide (p = "")); [done|]. cbn [mbind option_bind].
  destruct (normalizeParams host None) as [parameters|]; [|done].
  rewrite Hq. unfold syncFromQuery. rewrite decide_True by done.
  destruct w as [l h]. apply get_statement_filters.
Qed.

Lemma goToPage_no_router_filters (page : Z) (w : World) :
  routerInstance (this w) = None →
  filters (this (goToPage host page None None w).2) = filters (this w)
  ∧ filterAttributes (this (goToPage host page None None w).2)
    = filterAttributes (this w).
Proof.
  intros Hr. rewrite goToPage_unfold. cbv zeta.
  destruct (shouldAutoLoad None _); [|done].
  unfold bind, updateUrl. cbn [this history].
  change (routerInstance (set_currentPage page (this w)))
    with (routerInstance (this w)).
  rewrite Hr.
  exact (get_no_router_filters
           {| this := set_currentPage page (this w); history := history w |}
           Hr).
Qed.

Lemma resetFilters_slots (w : World) (k : string) :
  routerInstance (this w) = None →
  filters (this (resetFilters host w).2) !! k
  = resetSlot (filterDefaults (this w) !! k) (filters (this w) !! k)
              (filterAttributes (this w) !! k)
  ∧ filterAttributes (this (resetFilters host w).2) !! k
    = resetAttributeSlot (filterDefaults (this w) !! k)
                         (filters (this w) !! k)
                         (filterAttributes (this w) !! k).
Proof.
  intros Hr. rewrite resetFilters_eq. cbv zeta.
  destruct (decide (filterDefaults (this w) = ∅)) as [Hd|Hd].
  - rewrite Hd, lookup_empty.
    pose proof (goToPage_no_router_filters 1
                  {| this := set_isResetting true (this w);
                     history := history w |} Hr) as [Hf Ha].
    destruct (goToPage host 1 None None _) as [r w1].
    cbn [snd this] in *.
    change (filters (set_isResetting false (this w1))) with (filters (this w1)).
    change (filterAttributes (set_isResetting false (this w1)))
      with (filterAttributes (this w1)).
    by rewrite Hf, Ha.
  - set (l1 := set_currentPage 1 _).
    set (w1 := (updateUrl {| this := l1; history := history w |}).2).
    assert (Hw1 : this w1 = l1) by (subst w1; by rewrite updateUrl_this).
    assert (Hr1 : routerInstance (this w1) = None).
    { rewrite Hw1. subst l1.
      change (routerInstance (set_currentPage 1 ?x)) with (routerInstance x).
      by rewrite writeDefaults_routerInstance. }
    pose proof (get_no_router_filters w1 Hr1) as [Hf Ha].
    assert (Hgoal :
      filters (this (get host None None w1).2) !! k
      = resetSlot (filterDefaults (this w) !! k) (filters (this w) !! k)
                  (filterAttributes (this w) !! k)
      ∧ filterAttributes (this (get host None None w1).2) !! k
        = resetAttributeSlot (filterDefaults (this w) !! k)
                             (filters (this w) !! k)
                             (filterAttributes (this w) !! k)).
    { rewrite Hf, Ha, Hw1. subst l1.
      change (filters (set_currentPage 1 ?x)) with (filters x).
      change (filterAttributes (set_currentPage 1 ?x))
        with (filterAttributes x).
      destruct (writeDefaults_slots (map_to_list (filterDefaults (this w)))
                  (set_isResetting true (this w)) k
                  (NoDup_fst_map_to_list _)) as [-> ->].
      by rewrite list_to_map_to_list. }
    by destruct (get host None None w1) as [[[]|e] w2].
Qed.

(** X16.  Without a router, [resetFilters] leaves in every slot that has
    a default and can be written (an entry of [filters], a binding, a
    caller's cell) that default, and every other slot as it was, whatever
    the outcome of its fetch.  So when [filters] and the defaults have
    the same keys, as [parameters] leaves them and an edit of a filter
    keeps them, [filters] is equal to the defaults afterwards. *)
Theorem resetFilters_restores_defaults (w : World) :
  routerInstance (this w) = None →
  let l' := this (resetFilters host w).2 in
  (∀ k,
     filters l' !! k
     = resetSlot (filterDefaults (this w) !! k) (filters (this w) !! k)
                 (filterAttributes (this w) !! k)
     ∧ filterAttributes l' !! k
       = resetAttributeSlot (filterDefaults (this w) !! k)
                            (filters (this w) !! k)
                            (filterAttributes (this w) !! k))
  ∧ (dom (filters (this w)) = dom (filterDefaults (this w)) →
     filters l' = filterDefaults (this w)).
Proof.
  intros Hr l'. subst l'. split.
  - intros k. by apply resetFilters_slots.
  - intros Hdom. apply map_eq. intros k.
    destruct (resetFilters_slots w k Hr) as [-> _]. unfold resetSlot.
    destruct (filterDefaults (this w) !! k) as [d|] eqn:Hd.
    + assert (Hin : k ∈ dom (filters (this w)))
        by (rewrite Hdom; apply elem_of_dom; eauto).
      apply elem_of_dom in Hin as [v ->]. done.
    + apply not_elem_of_dom in Hd. rewrite <- Hdom in Hd.
      by apply not_elem_of_dom.
Qed.

Lemma removeFilter_eq (filterKey : string) (w : World) :
  removeFilter host filterKey w =
  match filterDefaults (this w) !! filterKey with
  | None => (Fulfilled tt, w)
  | Some defaultValue =>
    let l1 :=
      set_currentPage 1
        (writeDefault (set_removingFilterKey (Some filterKey) (this w))
                      filterKey defaultValue) in
    let w1 := (updateUrl {| this := l1; history := history w |}).2 in
    let '(r, w2) := get host None None w1 in
    (r, {| this := set_removingFilterKey None (this w2);
           history := history w2 |})
  end.
Proof.
  unfold removeFilter, bind at 1, read at 1. cbn [this].
  destruct (filterDefaults (this w) !! filterKey) as [d|]; [|done].
  unfold bind at 1, update at 1, try_finally. cbn [this history].
  unfold bind, update, read. cbn [this history]. cbv zeta.
  set (w0 := {| this := set_currentPage 1 _; history := history w |}).
  pose proof (updateUrl_resolves w0) as Hres.
  destruct (updateUrl w0) as [[[]|e] w1]; [|done]. cbn [snd].
  change (get host None (Some _) w1) with (get host None None w1).
  by destruct (get host None None w1) as [r w2].
Qed.

(** X17.  For a key that is not a name every object inherits:
    [removeFilter] with a key that has no default does nothing at all.
    With a key that has one and without a router, it leaves that default
    in the slot of the key if the slot can be written, every other entry
    of [filters] as it was, and [removingFilterKey] is [null] again,
    whatever the outcome of its fetch. *)
Theorem removeFilter_resets_one (filterKey : string) (w : World) :
  foreignName filterKey = false →
  routerInstance (this w) = None →
  let result := removeFilter host filterKey w in
  match filterDefaults (this w) !! filterKey with
  | None => result = (Fulfilled tt, w)
  | Some defaultValue =>
    removingFilterKey (this result.2) = None
    ∧ ∀ k, filters (this result.2) !! k
           = if decide (k = filterKey)
             then resetSlot (Some defaultValue)
                            (filters (this w) !! filterKey)
                            (filterAttributes (this w) !! filterKey)
             else filters (this w) !! k
  end.
Proof.
  intros _ Hr result. subst result. rewrite removeFilter_eq.
  destruct (filterDefaults (this w) !! filterKey) as [d|]; [|done].
  cbv zeta.
  set (l0 := set_removingFilterKey (Some filterKey) (this w)).
  set (w1 := (updateUrl _).2).
  assert (Hw1 : this w1 = set_currentPage 1 (writeDefault l0 filterKey d))
    by (subst w1; by rewrite updateUrl_this).
  assert (Hr1 : routerInstance (this w1) = None).
  { rewrite Hw1.
    change (routerInstance (set_currentPage 1 ?x)) with (routerInstance x).
    rewrite <- Hr. unfold writeDefault. destruct (bool_decide _); [done|].
    by destruct (filterAttributes l0 !! filterKey) as [[]|]. }
  pose proof (get_no_router_filters w1 Hr1) as [Hf _].
  destruct (get host None None w1) as [r w2]. cbn [snd this] in *.
  split; [done|]. intros k.
  change (filters (set_removingFilterKey None (this w2)))
    with (filters (this w2)).
  rewrite Hf, Hw1.
  change (filters (set_currentPage 1 ?x)) with (filters x).
  by destruct (writeDefault_slots l0 filterKey k d) as [-> _].
Qed.

End FilterDefaults.

(** *** Filter configuration *)

Lemma parameters_eq (initials : gmap string Scalar) (l : t) :
  parameters initials l =
  set_filterAttributes ((λ _, FBinding) <$> initials)
    (set_filterVisibility ((λ _, true) <$> initials)
       (set_filterDefaults initials
          (set_bindings (dom initials) (set_filters initials l)))).
Proof.
  unfold parameters.
  set (start := set_bindings ∅ _).
  assert (H : map_fold
                (λ key defaultValue '(attrs, l),
                   (<[key := FBinding]> attrs,
                    set_filterVisibility (<[key := true]> (filterVisibility l))
                      (set_filterDefaults
                         (<[key := defaultValue]> (filterDefaults l))
                         (set_bindings ({[ key ]} ∪ bindings l) l))))
                (∅, start) initials
              = ((λ _, FBinding) <$> initials,
                 set_filterVisibility ((λ _, true) <$> initials)
                   (set_filterDefaults initials
                      (set_bindings (dom initials) (set_filters initials l))))).
  { apply (map_fold_weak_ind
             (λ r m, r = ((λ _, FBinding) <$> m,
                          set_filterVisibility ((λ _, true) <$> m)
                            (set_filterDefaults m
                               (set_bindings (dom m)
                                  (set_filters initials l)))))).
    - by rewrite !fmap_empty, dom_empty_L.
    - intros i x m r Hfresh ->.
      rewrite !fmap_insert, dom_insert_L. reflexivity. }
  by rewrite H.
Qed.

(** X18.  [parameters] replaces the filter configuration: [filters] and
    the defaults are the initial values, every key is visible and has a
    binding, and nothing else of the controller changes.  The filter
    parameters are then the initial values that survive. *)
Theorem parameters_configures (initials : gmap string Scalar) (l : t) :
  parameters initials l
  = set_filterAttributes ((λ _, FBinding) <$> initials)
      (set_filterVisibility ((λ _, true) <$> initials)
         (set_filterDefaults initials
            (set_bindings (dom initials) (set_filters initials l))))
  ∧ ∀ k, buildFilterParameters (parameters initials l) !! k
         = initials !! k ≫= survivor.
Proof.
  split; [apply parameters_eq|]. intros k.
  rewrite parameters_eq, buildFilterParameters_lookup. unfold extracted.
  cbn [filters filterAttributes set_filterAttributes set_filterVisibility
       set_filterDefaults set_bindings set_filters].
  destruct (decide (initials = ∅)) as [->|Hne]; [|done].
  by rewrite fmap_empty, !lookup_empty.
Qed.

Lemma filterRefs_eq (newFilters : gmap string FilterValue) (l : t) :
  filterRefs newFilters l =
  set_filterVisibility ((λ _, true) <$> newFilters)
    (set_filterDefaults ((λ _, SNull) <$> newFilters)
       (set_filterAttributes newFilters l)).
Proof.
  unfold filterRefs.
  apply (map_fold_weak_ind
           (λ r m, r = set_filterVisibility ((λ _, true) <$> m)
                         (set_filterDefaults ((λ _, SNull) <$> m)
                            (set_filterAttributes newFilters l)))).
  - by rewrite !fmap_empty.
  - intros i x m r Hfresh ->. by rewrite !fmap_insert.
Qed.

(** X19.  [filterRefs] stores the given cells, gives every key the
    default [null] and makes it visible; it leaves [filters] and the
    bindings as they are.  So on a controller whose [filters] is not
    empty (after [parameters]) the cells are never read: the filter
    parameters are what they were. *)
Theorem filterRefs_configures (newFilters : gmap string FilterValue) (l : t) :
  filterRefs newFilters l
  = set_filterVisibility ((λ _, true) <$> newFilters)
      (set_filterDefaults ((λ _, SNull) <$> newFilters)
         (set_filterAttributes newFilters l))
  ∧ (filters l ≠ ∅ →
     buildFilterParameters (filterRefs newFilters l)
     = buildFilterParameters l)
  ∧ (filters l = ∅ →
     ∀ k inner, newFilters !! k = Some (FRef inner) →
       buildFilterParameters (filterRefs newFilters l) !! k = survivor inner).
Proof.
  split; [apply filterRefs_eq|]. rewrite filterRefs_eq. split.
  - intros Hne. unfold buildFilterParameters.
    cbn [filters set_filterVisibility set_filterDefaults set_filterAttributes].
    by rewrite !decide_False by done.
  - intros He k inner Hk. rewrite buildFilterParameters_lookup.
    unfold extracted.
    cbn [filters filterAttributes set_filterVisibility set_filterDefaults
         set_filterAttributes].
    rewrite decide_True by done. by rewrite Hk.
Qed.

(** X20.  [defaults] changes nothing but the defaults; and for a key
    that is not a name every object inherits, it changes the default of
    the key if the key is given and has a filter attribute, and leaves it
    as it was otherwise. *)
Theorem defaults_overrides_known_keys (newDefaults : gmap string Scalar)
    (l : t) (k : string) :
  foreignName k = false →
  defaults newDefaults l
  = set_filterDefaults (filterDefaults (defaults newDefaults l)) l
  ∧ filterDefaults (defaults newDefaults l) !! k
    = match newDefaults !! k with
      | Some value =>
        if bool_decide (is_Some (filterAttributes l !! k))
        then Some value
        else filterDefaults l !! k
      | None => filterDefaults l !! k
      end.
Proof.
  intros _.
  enough (H : defaults newDefaults l
              = set_filterDefaults (filterDefaults (defaults newDefaults l)) l
              ∧ ∀ k, filterDefaults (defaults newDefaults l) !! k
                     = match newDefaults !! k with
                       | Some value =>
                         if bool_decide (is_Some (filterAttributes l !! k))
                         then Some value
                         else filterDefaults l !! k
                       | None => filterDefaults l !! k
                       end)
    by (destruct H as [H1 H2]; split; [exact H1|apply H2]).
  clear k. unfold defaults.
  apply (map_fold_weak_ind
           (λ r m, r = set_filterDefaults (filterDefaults r) l
                   ∧ ∀ k, filterDefaults r !! k
                          = match m !! k with
                            | Some value =>
                              if bool_decide (is_Some (filterAttributes l !! k))
                              then Some value
                              else filterDefaults l !! k
                            | None => filterDefaults l !! k
                            end)).
  - split; [done|]. intros k. by rewrite lookup_empty.
  - intros i x m r Hfresh [Hr IH].
    assert (Ha : filterAttributes r = filterAttributes l) by (by rewrite Hr).
    rewrite Ha. destruct (bool_decide (is_Some (filterAttributes l !! i))) eqn:Hi.
    + split; [by rewrite Hr at 2|]. intros k.
      cbn [filterDefaults set_filterDefaults].
      destruct (decide (k = i)) as [->|Hne].
      * by rewrite !lookup_insert_eq, Hi.
      * rewrite !lookup_insert_ne by done. apply IH.
    + split; [done|]. intros k.
      destruct (decide (k = i)) as [->|Hne].
      * rewrite lookup_insert_eq, Hi. rewrite IH, Hfresh. done.
      * rewrite lookup_insert_ne by done. apply IH.
Qed.

(** *** Visibility *)

(** X21.  For a key that is not a name every object inherits:
    [showFilter], [hideFilter] and [toggleFilter] act on the key given
    only, and only if it has a filter attribute, so a key without one
    stays visible.  Toggling twice gives back the visibility of every
    key. *)
Theorem filter_visibility (key k : string) (l : t) :
  foreignName key = false →
  let known := bool_decide (k = key ∧ is_Some (filterAttributes l !! key)) in
  isFilterVisible k (showFilter key l)
  = (if known then true else isFilterVisible k l)
  ∧ isFilterVisible k (hideFilter key l)
    = (if known then false else isFilterVisible k l)
  ∧ isFilterVisible k (toggleFilter key l)
    = (if known then negb (isFilterVisible k l) else isFilterVisible k l)
  ∧ isFilterVisible k (toggleFilter key (toggleFilter key l))
    = isFilterVisible k l.
Proof.
  intros _ known. subst known.
  unfold showFilter, hideFilter, toggleFilter.
  change (filterAttributes (set_filterVisibility ?v l)) with (filterAttributes l).
  destruct (bool_decide (is_Some (filterAttributes l !! key))) eqn:Ha.
  - apply bool_decide_eq_true in Ha.
    change (filterAttributes (set_filterVisibility ?v l))
      with (filterAttributes l).
    rewrite (bool_decide_true (is_Some _)) by done.
    unfold isFilterVisible.
    cbn [filterVisibility set_filterVisibility].
    destruct (decide (k = key)) as [->|Hne].
    + rewrite bool_decide_true by done. rewrite !lookup_insert_eq.
      repeat split. by rewrite negb_involutive.
    + rewrite bool_decide_false by (by intros [? _]).
      by rewrite !lookup_insert_ne.
  - apply bool_decide_eq_false in Ha.
    rewrite (bool_decide_false (is_Some _)) by done.
    by rewrite bool_decide_false by (by intros [_ ?]).
Qed.

(** X22.  [visibleFilters] lists, each once, the keys whose visibility is
    recorded as true.  [isFilterVisible] answers true for these and for
    the keys without recorded visibility, which are not listed. *)
Theorem visibleFilters_lists_recorded (l : t) :
  NoDup (visibleFilters l)
  ∧ (∀ k, k ∈ visibleFilters l ↔ filterVisibility l !! k = Some true)
  ∧ ∀ k, isFilterVisible k l
         = bool_decide (k ∈ visibleFilters l)
           || bool_decide (filterVisibility l !! k = None).
Proof.
  assert (Hlisted : ∀ k, k ∈ visibleFilters l
                         ↔ filterVisibility l !! k = Some true).
  { intros k. unfold visibleFilters. rewrite list_elem_of_fmap. split.
    - intros ([i x] & -> & [Hx Hin]%list_elem_of_filter).
      apply elem_of_map_to_list in Hin. simpl in *. by subst x.
    - intros Hk. exists (k, true). split; [done|].
      apply list_elem_of_filter. split; [done|].
      by apply elem_of_map_to_list. }
  split; [|split; [exact Hlisted|]].
  - unfold visibleFilters. apply (NoDup_fmap_fst _).
    + intros k x y [_ Hx]%list_elem_of_filter [_ Hy]%list_elem_of_filter.
      apply elem_of_map_to_list in Hx, Hy. congruence.
    + apply NoDup_filter, NoDup_map_to_list.
  - intros k. unfold isFilterVisible.
    destruct (filterVisibility l !! k) as [[]|] eqn:Hk.
    + rewrite bool_decide_true by (by apply Hlisted). done.
    + assert (Hout : k ∉ visibleFilters l)
        by (intros Hin; apply Hlisted in Hin; congruence).
      by repeat case_bool_decide.
    + rewrite (bool_decide_true (_ = None)) by done. by rewrite orb_true_r.
Qed.

(** *** The proxy and the bindings *)

(** X23.  Assigning a value to a property that has a binding, for a
    value that is not a number beyond the safe integers and a property
    that is not a name every object inherits: the string form of the value
    is stored in [filters], and the filter parameter is computed from that
    string.  So assigning [null] stores the string [null], which is sent
    as a filter parameter. *)
Theorem proxySet_stores_string (prop : string) (value : Scalar) (l : t) :
  prop ∈ bindings l →
  foreignName prop = false →
  safeScalar value = true →
  ∃ l',
    proxySet prop value l = Some l'
    ∧ l' = set_filters (<[prop := SStr (String_of value)]> (filters l)) l
    ∧ buildFilterParameters l' !! prop = survivor (SStr (String_of value))
    ∧ (value = SNull →
       buildFilterParameters l' !! prop = Some (SStr "null")).
Proof.
  intros Hin _ _. unfold proxySet. rewrite bool_decide_true by done.
  eexists. split; [reflexivity|]. split; [reflexivity|].
  assert (Hb : buildFilterParameters
                 (set_filters (<[prop := SStr (String_of value)]> (filters l)) l)
               !! prop = survivor (SStr (String_of value))).
  { rewrite buildFilterParameters_lookup. unfold extracted.
    cbn [filters set_filters].
    rewrite decide_False by apply insert_non_empty.
    by rewrite lookup_insert_eq. }
  split; [exact Hb|].
  intros ->. by rewrite Hb.
Qed.

(** *** The keys of the filters over a run of calls *)

Section Keeping.

Variable R : t → t → Prop.
Hypothesis R_refl : ∀ l, R l l.
Hypothesis R_trans : ∀ l1 l2 l3, R l1 l2 → R l2 l3 → R l1 l3.

Lemma keeping_ret {A} (a : A) : keeping R (ret a).
Proof. intros w. apply R_refl. Qed.

Lemma keeping_throw {A} (e : Thrown) : keeping R (@throw A e).
Proof. intros w. apply R_refl. Qed.

Lemma keeping_lift {A} (r : Outcome A) : keeping R (lift r).
Proof. intros w. apply R_refl. Qed.

Lemma keeping_read {A} (f : t → A) : keeping R (read f).
Proof. intros w. apply R_refl. Qed.

Lemma keeping_update (f : t → t) : (∀ l, R l (f l)) → keeping R (update f).
Proof. intros Hf w. apply Hf. Qed.

Lemma keeping_emit (e : Event) : keeping R (emit e).
Proof. intros w. apply R_refl. Qed.

Lemma keeping_interact {A} (answer : list Event → Outcome A) (e : Event) :
  keeping R (interact answer e).
Proof. intros w. apply R_refl. Qed.

Lemma keeping_bind {A B} (m : M A) (k : A → M B) :
  keeping R m → (∀ a, keeping R (k a)) → keeping R (bind m k).
Proof.
  intros Hm Hk w. unfold bind. specialize (Hm w).
  destruct (m w) as [[a|e] w']; [|done].
  eapply R_trans; [exact Hm|apply Hk].
Qed.

Lemma keeping_try_catch {A} (body : M A) (handler : Thrown → M A) :
  keeping R body → (∀ e, keeping R (handler e)) →
  keeping R (try_catch body handler).
Proof.
  intros Hm Hk w. unfold try_catch. specialize (Hm w).
  destruct (body w) as [[a|e] w']; [done|].
  eapply R_trans; [exact Hm|apply Hk].
Qed.

Lemma keeping_try_finally {A} (body : M A) (final : t → t) :
  keeping R body → (∀ l, R l (final l)) → keeping R (try_finally body final).
Proof.
  intros Hm Hf w. unfold try_finally. specialize (Hm w).
  destruct (body w) as [r w']. eapply R_trans; [exact Hm|apply Hf].
Qed.

Lemma keeping_with_world {A} (m : World → M A) :
  (∀ w, keeping R (m w)) → keeping R (λ w, m w w).
Proof. intros H w. apply H. Qed.

End Keeping.

Section FilterKeys.

Variable host : Host.

Lemma keeps_filter_keys_refl (l : t) : keeps_filter_keys l l.
Proof. intros Hb. by repeat split. Qed.

Lemma keeps_filter_keys_trans (l1 l2 l3 : t) :
  keeps_filter_keys l1 l2 → keeps_filter_keys l2 l3 → keeps_filter_keys l1 l3.
Proof.
  intros H12 H23 Hb. destruct (H12 Hb) as (Hb2 & ? & ? & ? & ? & ?).
  destruct (H23 Hb2) as (Hb3 & ? & ? & ? & ? & ?).
  repeat split; [done|congruence..].
Qed.

(** A change that touches no part of the filter configuration. *)
Lemma keeps_filter_keys_same (l l' : t) :
  filters l' = filters l → filterAttributes l' = filterAttributes l →
  filterDefaults l' = filterDefaults l →
  filterVisibility l' = filterVisibility l →
  bindings l' = bindings l →
  keeps_filter_keys l l'.
Proof.
  intros Hf Ha Hd Hv Hbi Hb. repeat split; try congruence.
  intros k. rewrite Hf, Ha. apply Hb.
Qed.

(** A change of the slots that keeps what is there in kind. *)
Lemma keeps_filter_keys_slots (l l' : t) :
  (bindings_backed l →
   ∀ k, is_Some (filters l' !! k) ↔ is_Some (filters l !! k)) →
  (∀ k, is_Some (filterAttributes l' !! k) ↔ is_Some (filterAttributes l !! k)) →
  (∀ k, filterAttributes l' !! k = Some FBinding →
        filterAttributes l !! k = Some FBinding) →
  filterDefaults l' = filterDefaults l →
  filterVisibility l' = filterVisibility l →
  bindings l' = bindings l →
  keeps_filter_keys l l'.
Proof.
  intros Hf Ha Hab Hd Hv Hbi Hb. specialize (Hf Hb). repeat split; try done.
  - intros k Hk. by apply Hf, Hb, Hab.
  - apply set_eq. intros k. by rewrite !elem_of_dom, Hf.
  - apply set_eq. intros k. by rewrite !elem_of_dom, Ha.
Qed.

Lemma keeps_filter_keys_writeDefault (l : t) (key : string) (d : Scalar) :
  keeps_filter_keys l (writeDefault l key d).
Proof.
  destruct (writeDefault_same_filter_setup l key d)
    as (_ & _ & _ & _ & Hd & Hv & Hbi & _).
  apply keeps_filter_keys_slots; try done.
  - intros Hb k. destruct (writeDefault_slots l key k d) as [-> _].
    unfold resetSlot. destruct (decide (k = key)) as [->|?]; [|done].
    destruct (filters l !! key) as [v|] eqn:Hfk;
      [rewrite <- !not_eq_None_Some; intuition congruence|].
    destruct (filterAttributes l !! key) as [[]|] eqn:Hak; try done.
    apply Hb in Hak. rewrite Hfk in Hak. by destruct Hak.
  - intros k. destruct (writeDefault_slots l key k d) as [_ ->].
    unfold resetAttributeSlot. rewrite <- !not_eq_None_Some.
    destruct (decide (k = key)) as [->|?]; [|done].
    destruct (filters l !! key), (filterAttributes l !! key) as [[]|];
      intuition congruence.
  - intros k. destruct (writeDefault_slots l key k d) as [_ ->].
    unfold resetAttributeSlot. destruct (decide (k = key)) as [->|?]; [|done].
    by destruct (filters l !! key), (filterAttributes l !! key) as [[]|].
Qed.

Lemma keeps_filter_keys_syncFromQuery (routeQuery : gmap string QueryValue)
    (l : t) :
  keeps_filter_keys l (syncFromQuery routeQuery l).
Proof.
  intros Hb.
  assert (Hsame : filterDefaults (syncFromQuery routeQuery l) = filterDefaults l
                  ∧ filterVisibility (syncFromQuery routeQuery l)
                    = filterVisibility l
                  ∧ bindings (syncFromQuery routeQuery l) = bindings l).
  { pose proof (syncFromQuery_differs routeQuery l) as Hdiff. red in Hdiff.
    by rewrite Hdiff. }
  destruct Hsame as (Hd & Hv & Hbi).
  assert (Hf : ∀ k, is_Some (filters (syncFromQuery routeQuery l) !! k)
                    ↔ is_Some (filters l !! k)).
  { intros k. destruct (syncFromQuery_slots routeQuery l k) as [-> _].
    destruct (incoming routeQuery k); [|done].
    destruct (filters l !! k) as [v|] eqn:Hfk;
      [rewrite <- !not_eq_None_Some; intuition congruence|].
    destruct (filterAttributes l !! k) as [[]|] eqn:Hak; try done.
    apply Hb in Hak. rewrite Hfk in Hak. by destruct Hak. }
  assert (Ha : ∀ k, (is_Some (filterAttributes (syncFromQuery routeQuery l) !! k)
                     ↔ is_Some (filterAttributes l !! k))
                    ∧ (filterAttributes (syncFromQuery routeQuery l) !! k
                       = Some FBinding
                       → filterAttributes l !! k = Some FBinding)).
  { intros k. destruct (syncFromQuery_slots routeQuery l k) as [_ ->].
    destruct (incoming routeQuery k); [|done].
    destruct (filters l !! k); [done|].
    rewrite <- !not_eq_None_Some.
    destruct (filterAttributes l !! k) as [[]|]; try destruct (decide _);
      intuition congruence. }
  repeat split; try done.
  - intros k Hk. apply Hf, Hb. by apply Ha.
  - apply set_eq. intros k. by rewrite !elem_of_dom, Hf.
  - apply set_eq. intros k. rewrite !elem_of_dom. apply Ha.
Qed.

Local Ltac same := apply keeps_filter_keys_same; reflexivity.

Lemma keeps_filter_keys_loading (l : t) : keeps_filter_keys l (loading l).
Proof. unfold loading. destruct (hasLoadedOnce l); same. Qed.

Lemma keeping_get pathOrConfig config :
  keeping keeps_filter_keys (get host pathOrConfig config).
Proof.
  pose proof keeps_filter_keys_refl as Hrefl.
  pose proof keeps_filter_keys_trans as Htrans.
  apply keeping_bind; [done..| |].
  - intros w. unfold get_prelude.
    destruct (resolveArguments _ _ _) as [[apiPath|] actualConfig];
      [|apply Hrefl].
    destruct (normalizeParams _ _); [|apply Hrefl].
    apply keeps_filter_keys_syncFromQuery.
  - intros [apiPath parameters]. unfold get_statement.
    apply keeping_try_finally; [done| |intros l; same].
    apply keeping_try_catch; [done..| |].
    + unfold get_try, get_issue.
      apply keeping_bind; [done..| |intros [axios req]].
      * apply keeping_bind;
          [done..|apply keeping_update, keeps_filter_keys_loading|intros _].
        apply keeping_bind;
          [done..|apply keeping_update; intros l; same|intros _].
        apply keeping_bind; [done..|by apply keeping_read|intros req].
        apply keeping_bind; [done..| |intros axios; by apply keeping_ret].
        apply (keeping_with_world _ (λ w, lift _)). intros ?.
        by apply keeping_lift.
      * apply keeping_bind; [done..|by apply keeping_interact|intros response].
        apply keeping_update. intros l. same.
    + intros e. unfold get_catch.
      destruct (isAxiosConfigurationError e); [by apply keeping_throw|].
      apply keeping_bind; [done..| |intros ?; by apply keeping_emit].
      apply keeping_update. intros l. same.
Qed.

Lemma keeping_updateUrl : keeping keeps_filter_keys updateUrl.
Proof.
  intros w. rewrite updateUrl_this. apply keeps_filter_keys_refl.
Qed.

Lemma keeping_goToPage page perPage autoLoad :
  keeping keeps_filter_keys (goToPage host page perPage autoLoad).
Proof.
  pose proof keeps_filter_keys_refl as Hrefl.
  pose proof keeps_filter_keys_trans as Htrans.
  unfold goToPage.
  apply keeping_bind; [done..|apply keeping_update; intros l; same|intros _].
  apply keeping_bind;
    [done..|apply keeping_update; intros l; destruct perPage; same|intros _].
  apply keeping_bind; [done..|by apply keeping_read|intros [|]].
  - apply keeping_bind; [done..|apply keeping_updateUrl|intros _].
    apply keeping_get.
  - by apply keeping_ret.
Qed.

Lemma keeping_delete pathOrConfig idOrConfig maybeConfig :
  keeping keeps_filter_keys (delete host pathOrConfig idOrConfig maybeConfig).
Proof.
  pose proof keeps_filter_keys_refl as Hrefl.
  pose proof keeps_filter_keys_trans as Htrans.
  unfold delete.
  apply keeping_bind;
    [done..|apply (keeping_with_world _ (λ w, lift _)); intros ?;
            by apply keeping_lift|intros d].
  apply keeping_try_catch; [done..| |].
  - unfold delete_try.
    apply keeping_bind;
      [done..|apply (keeping_with_world _ (λ w, lift _)); intros ?;
              by apply keeping_lift|intros axios].
    apply keeping_bind; [done..|by apply keeping_interact|intros _].
    apply keeping_bind;
      [done..
      |destruct (d_onSuccess d); [by apply keeping_emit|by apply keeping_ret]
      |intros _].
    apply keeping_bind; [done..|apply keeping_update; intros l; same|intros _].
    apply keeping_bind; [done..|by apply keeping_read|intros l].
    destruct (_ && _); [apply keeping_goToPage|].
    destruct (d_refresh d); [apply keeping_get|by apply keeping_ret].
  - intros e. unfold delete_catch.
    destruct (d_onError d); [by apply keeping_emit|by apply keeping_throw].
Qed.

Lemma keeps_filter_keys_writeDefaults (entries : list (string * Scalar))
    (l : t) :
  keeps_filter_keys l
    (foldl (λ l '(key, defaultValue), writeDefault l key defaultValue)
           l entries).
Proof.
  revert l. induction entries as [|[key d] entries IH]; intros l; cbn [foldl].
  - apply keeps_filter_keys_refl.
  - eapply keeps_filter_keys_trans;
      [apply keeps_filter_keys_writeDefault|apply IH].
Qed.

Lemma keeping_resetFilters : keeping keeps_filter_keys (resetFilters host).
Proof.
  pose proof keeps_filter_keys_refl as Hrefl.
  pose proof keeps_filter_keys_trans as Htrans.
  unfold resetFilters.
  apply keeping_bind; [done..|apply keeping_update; intros l; same|intros _].
  apply keeping_try_finally; [done| |intros l; same].
  apply keeping_bind; [done..|by apply keeping_read|intros l].
  destruct (decide _); [apply keeping_goToPage|].
  apply keeping_bind;
    [done..|apply keeping_update; intros l';
            apply keeps_filter_keys_writeDefaults|intros _].
  apply keeping_bind; [done..|apply keeping_update; intros l'; same|intros _].
  apply keeping_bind; [done..|by apply keeping_read|intros query].
  apply keeping_bind; [done..|apply keeping_updateUrl|intros _].
  apply keeping_bind; [done..|apply keeping_get|intros _].
  apply keeping_update. intros l'. same.
Qed.

Lemma keeping_removeFilter filterKey :
  keeping keeps_filter_keys (removeFilter host filterKey).
Proof.
  pose proof keeps_filter_keys_refl as Hrefl.
  pose proof keeps_filter_keys_trans as Htrans.
  unfold removeFilter.
  apply keeping_bind; [done..|by apply keeping_read|intros l].
  destruct (filterDefaults l !! filterKey); [|by apply keeping_ret].
  apply keeping_bind; [done..|apply keeping_update; intros l'; same|intros _].
  apply keeping_try_finally; [done| |intros l'; same].
  apply keeping_bind;
    [done..|apply keeping_update; intros ?;
            apply keeps_filter_keys_writeDefault|intros _].
  apply keeping_bind; [done..|apply keeping_update; intros l'; same|intros _].
  apply keeping_bind; [done..|by apply keeping_read|intros query].
  apply keeping_bind; [done..|apply keeping_updateUrl|intros _].
  apply keeping_get.
Qed.

Lemma keeping_applyFilters : keeping keeps_filter_keys (applyFilters host).
Proof.
  pose proof keeps_filter_keys_refl as Hrefl.
  pose proof keeps_filter_keys_trans as Htrans.
  unfold applyFilters.
  apply keeping_bind; [done..|apply keeping_update; intros l; same|intros _].
  apply keeping_try_finally; [done| |intros l; same].
  apply keeping_bind; [done..|apply keeping_goToPage|intros _].
  apply keeping_update. intros l. same.
Qed.

Lemma keeping_call (c : Call) : keeping keeps_filter_keys (call host c).
Proof.
  destruct c; simpl.
  - apply keeping_update, keeps_filter_keys_loading.
  - apply keeping_update. intros l. same.
  - apply keeping_get.
  - apply keeping_get.
  - apply keeping_update. intros l. same.
  - apply keeping_delete.
  - apply keeping_update. intros l. same.
  - apply keeping_update. intros l. same.
  - apply keeping_goToPage.
  - apply keeping_resetFilters.
  - apply keeping_removeFilter.
  - apply keeping_applyFilters.
  - apply keeping_update. intros l. same.
Qed.

(** X24.  On a controller whose bindings all have their entry in
    [filters], as [parameters] leaves them, and where no filter key, of the
    controller or of a call of [removeFilter], is a name every object
    inherits: no sequence of calls of the action methods adds a key to
    [filters] or to the filter attributes or removes one, or changes the
    filter defaults, the visibility or the bindings; and the bindings
    still have their entries afterwards. *)
Theorem run_keeps_filter_keys (calls : list Call) (w : World) :
  bindings_backed (this w) →
  ordinary_keys (this w) →
  Forall ordinary_call calls →
  let l' := this (run host calls w) in
  bindings_backed l'
  ∧ dom (filters l') = dom (filters (this w))
  ∧ dom (filterAttributes l') = dom (filterAttributes (this w))
  ∧ filterDefaults l' = filterDefaults (this w)
  ∧ filterVisibility l' = filterVisibility (this w)
  ∧ bindings l' = bindings (this w).
Proof.
  intros Hb _ _ l'. subst l'.
  assert (H : keeps_filter_keys (this w) (this (run host calls w))).
  { clear Hb. unfold run. revert w.
    induction calls as [|c calls IH]; intros w; cbn [foldl].
    - apply keeps_filter_keys_refl.
    - eapply keeps_filter_keys_trans; [apply keeping_call|apply IH]. }
  exact (H Hb).
Qed.

End FilterKeys.

(** *** The URL of a delete request, [&] query strings *)

Section MoreArguments.

Variable host : Host.

(** X25.  The delete request goes to the path argument as it is given,
    the id is not appended to it; with an options object instead of a
    path it goes to the endpoint followed by [/] and the string form of
    the id, for an id that is not a number beyond the safe integers.  It
    is the first interaction of the call. *)
Theorem delete_request_url pathOrConfig idOrConfig maybeConfig w d axios :
  delete_arguments (this w) pathOrConfig idOrConfig maybeConfig = Fulfilled d →
  getAxios host (this w) = Fulfilled axios →
  match pathOrConfig with
  | DPath _ => True
  | DConfig c => safeScalar (id c) = true
  end →
  d_path d
  = match pathOrConfig with
    | DPath path => path
    | DConfig c =>
      default "" (apiPath (this w)) +:+ "/" +:+ String_of (id c)
    end
  ∧ ∃ rest,
      history (delete host pathOrConfig idOrConfig maybeConfig w).2
      = history w ++ AxiosDelete (d_path d) :: rest.
Proof.
  intros Hargs Hax _. split.
  - unfold delete_arguments in Hargs. destruct pathOrConfig as [path|c].
    + destruct idOrConfig as [[[]|]|]; by inversion Hargs.
    + destruct (apiPath (this w)) as [p|]; [|done].
      destruct (decide (p = "")); [done|]. by inversion Hargs.
  - rewrite delete_eq, Hargs. unfold try_catch.
    rewrite delete_try_eq, Hax. cbv zeta.
    destruct (axios_delete axios (history w) (d_path d)) as [[]|e].
    + set (w1 := {| this := remove _ _ _; history := _ |}).
      assert (Hw1 : ∃ mid, history w1
                           = history w ++ AxiosDelete (d_path d) :: mid).
      { eexists. subst w1. cbn [history]. by rewrite <- app_assoc. }
      destruct Hw1 as [mid Hw1].
      assert (Hpre : ∀ (m : M unit), preserving m →
                ∃ rest, history (m w1).2
                        = history w ++ AxiosDelete (d_path d) :: rest).
      { intros m Hm. destruct (Hm w1) as [_ [tail Ht]].
        exists (mid ++ tail). rewrite Ht, Hw1. by rewrite <- app_assoc. }
      assert (Hcatch : ∀ (m : M unit), preserving m →
                ∃ rest,
                  history (match m w1 with
                           | (Fulfilled a, w') => (Fulfilled a, w')
                           | (Rejected e, w') => delete_catch d e w'
                           end).2
                  = history w ++ AxiosDelete (d_path d) :: rest).
      { intros m Hm.
        apply (Hpre (try_catch m (delete_catch d))).
        apply preserving_try_catch; [done|].
        intros e. unfold delete_catch.
        destruct (d_onError d); [apply preserving_emit|apply preserving_throw]. }
      destruct (_ && _); [apply Hcatch, preserving_goToPage|].
      destruct (d_refresh d); [apply Hcatch, preserving_get|].
      apply (Hcatch (ret tt)), preserving_ret.
    + unfold delete_catch. destruct (d_onError d).
      * eexists. unfold emit. cbn [snd history]. by rewrite <- app_assoc.
      * exists []. done.
Qed.

(** X26.  As [params], a query string after [&] gives what the same
    string gives after [?], unless it starts with a second [?]. *)
Theorem normalizeParams_ampersand (s : string) :
  Js.startsWith "?" s = false →
  normalizeParams host (Some (PString (String "&" s)))
  = normalizeParams host (Some (PString (String "?" s))).
Proof.
  intros Hs. rewrite normalizeParams_query_string.
  unfold normalizeParams. rewrite decide_False by done.
  assert (Hq : Js.startsWith "?" (String "&" s) = false).
  { unfold Js.startsWith. cbn [String.prefix].
    by destruct (ascii_dec "?" "&"). }
  assert (Ha : Js.startsWith "&" (String "&" s) = true).
  { unfold Js.startsWith. cbn [String.prefix].
    destruct (ascii_dec "&" "&"); [by destruct s|done]. }
  rewrite Hq, Ha. cbn [orb]. f_equal. f_equal.
  unfold Js.URLSearchParams. rewrite Hs, Hq.
  unfold Js.parseUrlencoded. cbn [Js.splitOn].
  rewrite decide_True by done. cbn [omap list_omap].
  by rewrite decide_True by done.
Qed.

End MoreArguments.

(** X25 on [delete({ id: 3 })] with the endpoint [/api/items]. *)
Lemma delete_request_url_witness :
  "/api/items/3" = default "" (Some "/api/items") +:+ "/" +:+ String_of (SNum 3)
  ∧ ∃ rest,
      history (delete plainHost
                 (DConfig {| id := SNum 3; config := noConfig |}) None None
                 (fresh (axios (serving emptyResponse)
                               (path "/api/items" initial)))).2
      = [] ++ AxiosDelete "/api/items/3" :: rest.
Proof.
  exact (delete_request_url plainHost
           (DConfig {| id := SNum 3; config := noConfig |}) None None
           (fresh (axios (serving emptyResponse) (path "/api/items" initial)))
           (localsOf "/api/items/3" (SNum 3) noConfig)
           (serving emptyResponse) eq_refl eq_refl eq_refl).
Defined.

(** X26 on [&search=test]. *)
Lemma normalizeParams_ampersand_witness :
  normalizeParams plainHost (Some (PString "&search=test"))
  = normalizeParams plainHost (Some (PString "?search=test")).
Proof. exact (normalizeParams_ampersand plainHost "search=test" eq_refl). Defined.

(** *** The properties above on a controller with two filters *)

Lemma parameters_bindings_backed (initials : gmap string Scalar) (l : t) :
  bindings_backed (parameters initials l).
Proof.
  rewrite parameters_eq. intros k.
  cbn [filters filterAttributes set_filterAttributes set_filterVisibility
       set_filterDefaults set_bindings set_filters].
  rewrite lookup_fmap. by destruct (initials !! k); eauto.
Qed.

(** X16: after its two filters were edited, [resetFilters] gives them
    their initial values again. *)
Lemma resetFilters_restores_defaults_witness :
  filters (this (resetFilters plainHost (fresh twoFiltersEdited)).2)
  = filterDefaults (this (fresh twoFiltersEdited)).
Proof.
  refine (proj2 (resetFilters_restores_defaults plainHost
                   (fresh twoFiltersEdited) eq_refl) _).
  vm_compute. reflexivity.
Defined.

(** X17: [removeFilter('search')] empties the search and keeps the
    status. *)
Lemma removeFilter_resets_one_witness :
  removingFilterKey
    (this (removeFilter plainHost "search" (fresh twoFiltersEdited)).2) = None
  ∧ ∀ k, filters (this (removeFilter plainHost "search"
                          (fresh twoFiltersEdited)).2) !! k
         = if decide (k = "search")
           then resetSlot (Some (SStr ""))
                          (filters twoFiltersEdited !! "search")
                          (filterAttributes twoFiltersEdited !! "search")
           else filters twoFiltersEdited !! k.
Proof.
  exact (removeFilter_resets_one plainHost "search" (fresh twoFiltersEdited)
           eq_refl eq_refl).
Defined.

(** X20: a default for the filter [search] is taken, one for a key
    without filter attribute is not. *)
Lemma defaults_overrides_known_keys_witness :
  filterDefaults
    (defaults {[ "search" := SStr "any"; "other" := SStr "x" ]} twoFilters)
    !! "search"
  = Some (SStr "any").
Proof.
  refine (eq_trans
            (proj2 (defaults_overrides_known_keys
                      {[ "search" := SStr "any"; "other" := SStr "x" ]}
                      twoFilters "search" eq_refl)) _).
  vm_compute. reflexivity.
Defined.

(** X21: hiding the filter [search] makes it invisible. *)
Lemma filter_visibility_witness :
  isFilterVisible "search" (hideFilter "search" twoFilters) = false.
Proof.
  refine (eq_trans
            (proj1 (proj2 (filter_visibility "search" "search" twoFilters
                             eq_refl))) _).
  vm_compute. reflexivity.
Defined.

(** X19: cells given to a controller that has [filters] are not read. *)
Lemma filterRefs_configures_witness :
  buildFilterParameters
    (filterRefs {[ "search" := FRef (SStr "other") ]} twoFiltersEdited)
  = buildFilterParameters twoFiltersEdited.
Proof.
  refine (proj1 (proj2 (filterRefs_configures
                          {[ "search" := FRef (SStr "other") ]}
                          twoFiltersEdited)) _).
  intros H. vm_compute in H. discriminate H.
Defined.

(** X23: [listing.search = null] stores and sends the string [null]. *)
Lemma proxySet_stores_string_witness :
  ∃ l',
    proxySet "search" SNull twoFilters = Some l'
    ∧ buildFilterParameters l' !! "search" = Some (SStr "null").
Proof.
  assert (Hin : "search" ∈ bindings twoFilters)
    by (apply (bool_decide_unpack _); vm_compute; exact I).
  destruct (proxySet_stores_string "search" SNull twoFilters Hin
              eq_refl eq_refl)
    as (l' & Hset & _ & _ & Hnull).
  exists l'. split; [exact Hset|exact (Hnull eq_refl)].
Defined.

(** X24: a reset, the removal of a filter and a page change keep the
    keys of a controller with one filter. *)
Lemma run_keeps_filter_keys_witness :
  dom (filters
         (this (run plainHost
                    [CallResetFilters; CallRemoveFilter "search";
                     CallGoToPage 2 None None]
                    (fresh (parameters {[ "search" := SStr "" ]} initial)))))
  = dom (filters (this (fresh (parameters {[ "search" := SStr "" ]} initial)))).
Proof.
  assert (Hkeys : ordinary_keys
                    (this (fresh (parameters {[ "search" := SStr "" ]}
                                             initial)))).
  { intros k Hk.
    assert (Hsearch : k = "search").
    { rewrite parameters_eq in Hk.
      cbn [this fresh filterDefaults filterAttributes set_filterAttributes
           set_filterVisibility set_filterDefaults set_bindings set_filters]
        in Hk.
      rewrite lookup_fmap in Hk.
      destruct (decide (k = "search")) as [|Hne]; [done|].
      rewrite lookup_singleton_ne in Hk by done.
      by destruct Hk as [[? [=]]|[? [=]]]. }
    by rewrite Hsearch. }
  assert (Hcalls : Forall ordinary_call
                     [CallResetFilters; CallRemoveFilter "search";
                      CallGoToPage 2 None None])
    by (repeat constructor).
  pose proof (run_keeps_filter_keys plainHost
                [CallResetFilters; CallRemoveFilter "search";
                 CallGoToPage 2 None None]
                (fresh (parameters {[ "search" := SStr "" ]} initial))
                (parameters_bindings_backed {[ "search" := SStr "" ]} initial)
                Hkeys Hcalls)
    as H.
  cbv zeta in H. destruct H as (_ & H & _). exact H.
Defined.

(** *** The legacy filter values *)

Section Legacy.

Variable host : Host.

Lemma commuting_ret {A} (a : A) : commuting (ret a).
Proof. by intros v w. Qed.

Lemma commuting_throw {A} (e : Thrown) : commuting (@throw A e).
Proof. by intros v w. Qed.

Lemma commuting_lift {A} (r : World → Outcome A) :
  (∀ v w, r (with_filterValues v w) = r w) →
  commuting (λ w, lift (r w) w).
Proof. intros Hr v w. unfold lift. by rewrite Hr. Qed.

Lemma commuting_update (f : t → t) :
  (∀ v l, f (set_filterValues v l) = set_filterValues v (f l)) →
  commuting (update f).
Proof. intros Hf v w. unfold update, with_filterValues. cbn. by rewrite Hf. Qed.

Lemma commuting_emit (e : Event) : commuting (emit e).
Proof. by intros v w. Qed.

Lemma commuting_interact {A} (answer : list Event → Outcome A) (e : Event) :
  commuting (interact answer e).
Proof. by intros v w. Qed.

Lemma commuting_bind {A B} (m : M A) (k : A → M B) :
  commuting m → (∀ a, commuting (k a)) → commuting (bind m k).
Proof.
  intros Hm Hk v w. unfold bind. rewrite Hm.
  destruct (m w) as [[a|e] w']; [apply Hk|done].
Qed.

Lemma commuting_bind_read {A B} (f : t → A) (k : A → M B) :
  (∀ v l, k (f (set_filterValues v l)) = k (f l)) →
  (∀ a, commuting (k a)) → commuting (bind (read f) k).
Proof.
  intros Hf Hk v w. unfold bind, read. cbn [this with_filterValues].
  rewrite Hf. apply Hk.
Qed.

Lemma commuting_try_catch {A} (body : M A) (handler : Thrown → M A) :
  commuting body → (∀ e, commuting (handler e)) →
  commuting (try_catch body handler).
Proof.
  intros Hm Hk v w. unfold try_catch. rewrite Hm.
  destruct (body w) as [[a|e] w']; [done|apply Hk].
Qed.

Lemma commuting_try_finally {A} (body : M A) (final : t → t) :
  commuting body →
  (∀ v l, final (set_filterValues v l) = set_filterValues v (final l)) →
  commuting (try_finally body final).
Proof.
  intros Hm Hf v w. unfold try_finally. rewrite Hm.
  destruct (body w) as [r w']. unfold with_filterValues. cbn.
  by rewrite Hf.
Qed.

Lemma writeFilter_filterValues (v : gmap string Scalar) (l : t)
    (key stringValue : string) :
  writeFilter (set_filterValues v l) key stringValue
  = set_filterValues v (writeFilter l key stringValue).
Proof.
  unfold writeFilter.
  change (filters (set_filterValues v l)) with (filters l).
  change (filterAttributes (set_filterValues v l)) with (filterAttributes l).
  destruct (bool_decide _); [done|].
  by destruct (filterAttributes l !! key) as [[]|].
Qed.

Lemma writeDefault_filterValues (v : gmap string Scalar) (l : t)
    (key : string) (d : Scalar) :
  writeDefault (set_filterValues v l) key d
  = set_filterValues v (writeDefault l key d).
Proof.
  unfold writeDefault.
  change (filters (set_filterValues v l)) with (filters l).
  change (filterAttributes (set_filterValues v l)) with (filterAttributes l).
  destruct (bool_decide _); [done|].
  by destruct (filterAttributes l !! key) as [[]|].
Qed.

Lemma foldl_filterValues {B} (f : t → B → t) (v : gmap string Scalar)
    (bs : list B) (l : t) :
  (∀ l b, f (set_filterValues v l) b = set_filterValues v (f l b)) →
  foldl f (set_filterValues v l) bs = set_filterValues v (foldl f l bs).
Proof.
  intros Hf. revert l. induction bs as [|b bs IH]; intros l; cbn [foldl].
  - done.
  - by rewrite Hf, IH.
Qed.

Lemma syncFromQuery_filterValues (v : gmap string Scalar)
    (routeQuery : gmap string QueryValue) (l : t) :
  syncFromQuery routeQuery (set_filterValues v l)
  = set_filterValues v (syncFromQuery routeQuery l).
Proof.
  unfold syncFromQuery. destruct (decide (routeQuery = ∅)); [done|].
  unfold syncFilters.
  change (filterKeys (set_filterValues v l)) with (filterKeys l).
  rewrite foldl_filterValues.
  - unfold syncPage. destruct (truthy _); [|done].
    destruct (_ ≫= _); [|done]. by destruct (decide _).
  - intros l' k. unfold syncFilter.
    destruct (incoming routeQuery k); [apply writeFilter_filterValues|done].
Qed.

Lemma commuting_get pathOrConfig config :
  commuting (get host pathOrConfig config).
Proof.
  apply commuting_bind.
  - intros v w. unfold get_prelude.
    change (resolveArguments (this (with_filterValues v w)) pathOrConfig config)
      with (resolveArguments (this w) pathOrConfig config).
    destruct (resolveArguments _ _ _) as [[apiPath|] actualConfig]; [|done].
    destruct (normalizeParams _ _); [|done].
    change (routeQueryOf (with_filterValues v w) actualConfig)
      with (routeQueryOf w actualConfig).
    cbn [this with_filterValues history].
    by rewrite syncFromQuery_filterValues.
  - intros [apiPath parameters]. unfold get_statement.
    apply commuting_try_finally; [|done].
    apply commuting_try_catch.
    + unfold get_try, get_issue.
      apply commuting_bind; [|intros [axios req]].
      * apply commuting_bind.
        { apply commuting_update. intros v l. unfold loading.
          change (hasLoadedOnce (set_filterValues v l)) with (hasLoadedOnce l).
          by destruct (hasLoadedOnce l). }
        intros _. apply commuting_bind; [by apply commuting_update|intros _].
        apply commuting_bind_read; [done|intros req].
        apply commuting_bind; [|intros axios; apply commuting_ret].
        by apply (commuting_lift (λ w, getAxios host (this w))).
      * apply commuting_bind; [apply commuting_interact|intros response].
        by apply commuting_update.
    + intros e. unfold get_catch.
      destruct (isAxiosConfigurationError e); [apply commuting_throw|].
      apply commuting_bind; [|intros ?; apply commuting_emit].
      by apply commuting_update.
Qed.

Lemma commuting_updateUrl : commuting updateUrl.
Proof.
  intros v w. unfold updateUrl.
  change (routerInstance (this (with_filterValues v w)))
    with (routerInstance (this w)).
  destruct (routerInstance (this w)) as [router|]; [|done].
  change (buildQueryParameters (this (with_filterValues v w)))
    with (buildQueryParameters (this w)).
  change (defaultQuery (this (with_filterValues v w)))
    with (defaultQuery (this w)).
  change (history (with_filterValues v w)) with (history w).
  apply (commuting_try_catch _ _ (commuting_interact _ _)
                             (λ _, commuting_ret _)).
Qed.

Lemma commuting_goToPage page perPage autoLoad :
  commuting (goToPage host page perPage autoLoad).
Proof.
  unfold goToPage.
  apply commuting_bind; [by apply commuting_update|intros _].
  apply commuting_bind;
    [apply commuting_update; intros v l; by destruct perPage|intros _].
  apply commuting_bind_read; [done|intros [|]].
  - apply commuting_bind; [apply commuting_updateUrl|intros _].
    apply commuting_get.
  - apply commuting_ret.
Qed.

Lemma commuting_delete pathOrConfig idOrConfig maybeConfig :
  commuting (delete host pathOrConfig idOrConfig maybeConfig).
Proof.
  unfold delete.
  apply commuting_bind;
    [by apply (commuting_lift
                 (λ w, delete_arguments (this w) pathOrConfig idOrConfig
                                        maybeConfig))
    |intros d].
  apply commuting_try_catch.
  - unfold delete_try.
    apply commuting_bind;
      [by apply (commuting_lift (λ w, getAxios host (this w)))|intros axios].
    apply commuting_bind; [apply commuting_interact|intros _].
    apply commuting_bind;
      [destruct (d_onSuccess d); [apply commuting_emit|apply commuting_ret]
      |intros _].
    apply commuting_bind; [by apply commuting_update|intros _].
    apply commuting_bind_read; [done|intros l].
    destruct (_ && _); [apply commuting_goToPage|].
    destruct (d_refresh d); [apply commuting_get|apply commuting_ret].
  - intros e. unfold delete_catch.
    destruct (d_onError d); [apply commuting_emit|apply commuting_throw].
Qed.

Lemma commuting_resetFilters : commuting (resetFilters host).
Proof.
  unfold resetFilters.
  apply commuting_bind; [by apply commuting_update|intros _].
  apply commuting_try_finally; [|done].
  apply commuting_bind_read; [done|intros l].
  destruct (decide _); [apply commuting_goToPage|].
  apply commuting_bind.
  { apply commuting_update. intros v l'.
    change (filterDefaults (set_filterValues v l')) with (filterDefaults l').
    apply foldl_filterValues. intros l'' [key d].
    apply writeDefault_filterValues. }
  intros _. apply commuting_bind; [by apply commuting_update|intros _].
  apply commuting_bind_read; [done|intros query].
  apply commuting_bind; [apply commuting_updateUrl|intros _].
  apply commuting_bind; [apply commuting_get|intros _].
  by apply commuting_update.
Qed.

Lemma commuting_removeFilter filterKey :
  commuting (removeFilter host filterKey).
Proof.
  unfold removeFilter.
  apply commuting_bind_read; [done|intros l].
  destruct (filterDefaults l !! filterKey); [|apply commuting_ret].
  apply commuting_bind; [by apply commuting_update|intros _].
  apply commuting_try_finally; [|done].
  apply commuting_bind;
    [apply commuting_update; intros v l'; apply writeDefault_filterValues
    |intros _].
  apply commuting_bind; [by apply commuting_update|intros _].
  apply commuting_bind_read; [done|intros query].
  apply commuting_bind; [apply commuting_updateUrl|intros _].
  apply commuting_get.
Qed.

Lemma commuting_applyFilters : commuting (applyFilters host).
Proof.
  unfold applyFilters.
  apply commuting_bind; [by apply commuting_update|intros _].
  apply commuting_try_finally; [|done].
  apply commuting_bind; [apply commuting_goToPage|intros _].
  by apply commuting_update.
Qed.

(** One call from two worlds that are the same but for the legacy filter
    values. *)
Lemma call_same_but_filterValues (c : Call) (w w' : World) :
  history w' = history w →
  same_but_filterValues (this w) (this w') →
  (call host c w').1 = (call host c w).1
  ∧ history (call host c w').2 = history (call host c w).2
  ∧ same_but_filterValues (this (call host c w).2) (this (call host c w').2).
Proof.
  intros Hh Hl.
  assert (Hw' : w' = with_filterValues (filterValues (this w')) w).
  { destruct w' as [l' h']. unfold with_filterValues. cbn in *. f_equal; [|done].
    change l' with (set_filterValues (filterValues l') (set_filterValues ∅ l')).
    red in Hl. by rewrite Hl. }
  assert (Hcomm : commuting (call host c) →
            (call host c w').1 = (call host c w).1
            ∧ history (call host c w').2 = history (call host c w).2
            ∧ same_but_filterValues (this (call host c w).2)
                                    (this (call host c w').2)).
  { intros Hc. rewrite Hw', Hc. by repeat split. }
  destruct c; cbn [call]; cbn [call] in Hcomm.
  - apply Hcomm, commuting_update. intros v l. unfold loading.
    change (hasLoadedOnce (set_filterValues v l)) with (hasLoadedOnce l).
    by destruct (hasLoadedOnce l).
  - by apply Hcomm, commuting_update.
  - apply Hcomm, commuting_get.
  - apply Hcomm, commuting_get.
  - by apply Hcomm, commuting_update.
  - apply Hcomm, commuting_delete.
  - rewrite Hw'. by repeat split.
  - rewrite Hw'. by repeat split.
  - apply Hcomm, commuting_goToPage.
  - apply Hcomm, commuting_resetFilters.
  - apply Hcomm, commuting_removeFilter.
  - apply Hcomm, commuting_applyFilters.
  - rewrite Hw'. by repeat split.
Qed.

(** X27.  The legacy filter values are never used: dropping every call
    of [setFilters] and [clearFilters] from a sequence of calls gives the
    same requests, navigations and callbacks in the same order, and the
    same controller but for [filterValues]. *)
Theorem legacy_filter_values_never_used (calls : list Call) (w : World) :
  let kept := filter (λ c, legacy c = false) calls in
  history (run host calls w) = history (run host kept w)
  ∧ same_but_filterValues (this (run host kept w)) (this (run host calls w)).
Proof.
  cbv zeta.
  assert (H : ∀ w w', history w' = history w →
                      same_but_filterValues (this w) (this w') →
                      history (run host calls w')
                      = history (run host (filter (λ c, legacy c = false) calls) w)
                      ∧ same_but_filterValues
                          (this (run host (filter (λ c, legacy c = false) calls) w))
                          (this (run host calls w'))).
  { clear w. unfold run.
    induction calls as [|c calls IH]; intros w w' Hh Hl; [done|].
    cbn [foldl]. destruct (legacy c) eqn:Hc.
    - rewrite filter_cons_False by (by rewrite Hc).
      apply IH; destruct c; try discriminate Hc; done.
    - rewrite filter_cons_True by done. cbn [foldl].
      destruct (call_same_but_filterValues c w w' Hh Hl) as (_ & Hh' & Hl').
      by apply IH. }
  by apply H.
Qed.

End Legacy.

(** *** More runs of the test suite *)

(** Hiding one of two filters leaves the other one listed. *)
Example hide_filter_test :
  let l := hideFilter "search"
             (filterRefs {[ "search" := FRef (SStr "test");
                            "status" := FRef (SStr "verified") ]} initial) in
  isFilterVisible "search" l = false
  ∧ isFilterVisible "status" l = true
  ∧ visibleFilters l = ["status"].
Proof. vm_compute. by repeat split. Qed.

(** Toggling an unknown filter is a no-op. *)
Example toggle_unknown_filter_test :
  isFilterVisible "unknown"
    (toggleFilter "unknown"
       (filterRefs {[ "search" := FRef (SStr "test") ]} initial))
  = true.
Proof. vm_compute. reflexivity. Qed.

(** The panel opens, closes and toggles. *)
Example panel_test :
  isPanelOpen initial = false
  ∧ isPanelOpen (openPanel initial) = true
  ∧ isPanelOpen (togglePanel (openPanel initial)) = false
  ∧ isPanelOpen (closePanel (togglePanel initial)) = false.
Proof. by repeat split. Qed.

End Listing.
